(** * datamanager: a session-scoped registry of named, file-backed collections

    A shallow embedding of [datamanager/datamanager.py] (the [DataManager]
    registry and [_numericize]) and of [datamanager/save_daemon.py] (the
    [SaveDaemon] thread), followed by the properties the specification
    states about them.

    Layout: the Python built-ins the code relies on ([int], [str],
    [str.replace], [os.path.split], sets and insertion-ordered dicts), the
    containers of the [cachetypes] module, the registry in a state and
    exception monad, the daemon as a transition system, and then the
    theorems. *)

From Stdlib Require Import List String Ascii ZArith Bool Arith Lia.
Import ListNotations.

Set Implicit Arguments.

(* ================================================================== *)
(** * Part I. Definitions                                              *)
(* ================================================================== *)

(** ** Python built-ins *)

Module Py.

(** The elements the collections hold: integers, text, booleans and
    [None].  Floating-point numbers and nested collections are left out. *)
Inductive scalar : Type :=
  | SInt (n : Z)
  | SStr (s : string)
  | SBool (b : bool)
  | SNone.

(** Python's [==] on these values: [True == 1] and [False == 0], text is
    never equal to a number. *)
Definition py_eqb (a b : scalar) : bool :=
  match a, b with
  | SInt x, SInt y => Z.eqb x y
  | SInt x, SBool y => Z.eqb x (Z.b2z y)
  | SBool x, SInt y => Z.eqb (Z.b2z x) y
  | SBool x, SBool y => Bool.eqb x y
  | SStr x, SStr y => String.eqb x y
  | SNone, SNone => true
  | _, _ => false
  end.

(** Truth value of a scalar, as [bool(x)]. *)
Definition scalar_truthy (x : scalar) : bool :=
  match x with
  | SInt n => negb (Z.eqb n 0)
  | SStr s => negb (String.eqb s "")
  | SBool b => b
  | SNone => false
  end.

(** *** [int(x)] *)

(** Text is modelled as a sequence of characters up to U+00FF, where the
    decimal digits are [0] to [9] only. *)

(** The limit the interpreter puts on the number of digits of a decimal
    literal that [int] converts ([sys.int_max_str_digits]: 4300 by default
    since CPython 3.11, absent before).  The sources do not set it, hence a
    parameter; [0] stands for no limit. *)
Class Interpreter : Type := { int_max_str_digits : nat }.

(** White space as [str.strip] and [str.rstrip] see it. *)
Definition is_space (c : ascii) : bool :=
  let n := nat_of_ascii c in
  ((9 <=? n) && (n <=? 13)) || ((28 <=? n) && (n <=? 32))
  || (n =? 133) || (n =? 160).

(** White space that [int] strips around a literal: tab to carriage
    return, the space, and the two Latin-1 spaces; the separators 0x1c to
    0x1f are not stripped. *)
Definition is_int_space (c : ascii) : bool :=
  let n := nat_of_ascii c in
  ((9 <=? n) && (n <=? 13)) || (n =? 32) || (n =? 133) || (n =? 160).

Definition digit_of (c : ascii) : option Z :=
  let n := nat_of_ascii c in
  if (48 <=? n) && (n <=? 57) then Some (Z.of_nat (n - 48)) else None.

Fixpoint lstrip (l : list ascii) : list ascii :=
  match l with
  | [] => []
  | c :: r => if is_space c then lstrip r else l
  end.

Fixpoint int_lstrip (l : list ascii) : list ascii :=
  match l with
  | [] => []
  | c :: r => if is_int_space c then int_lstrip r else l
  end.

Definition int_strip (l : list ascii) : list ascii :=
  rev (int_lstrip (rev (int_lstrip l))).

(** Decimal digits, where a single underscore may separate two digits.
    [after_digit] tells whether the previous character was a digit. *)
Fixpoint parse_digits (acc : Z) (after_digit : bool) (l : list ascii)
  : option Z :=
  match l with
  | [] => if after_digit then Some acc else None
  | c :: r =>
      match digit_of c with
      | Some d => parse_digits (10 * acc + d)%Z true r
      | None =>
          if Ascii.eqb c "_"%char && after_digit
          then parse_digits acc false r
          else None
      end
  end.

(** The digits of a literal, underscores apart. *)
Definition count_digits (l : list ascii) : nat :=
  List.length
    (filter (fun c => match digit_of c with Some _ => true | None => false end)
            l).

(** A literal of more than 640 digits is refused when a limit is set and
    it has more digits than the limit. *)
Definition too_many_digits `{Interpreter} (l : list ascii) : bool :=
  (640 <? count_digits l) && (0 <? int_max_str_digits)
  && (int_max_str_digits <? count_digits l).

Definition parse_literal `{Interpreter} (l : list ascii) : option Z :=
  if too_many_digits l then None else parse_digits 0 false l.

(** [int(s)] for text in base ten; [None] stands for [ValueError]. *)
Definition int_of_str `{Interpreter} (s : string) : option Z :=
  match int_strip (list_ascii_of_string s) with
  | "+"%char :: r => parse_literal r
  | "-"%char :: r => option_map Z.opp (parse_literal r)
  | r => parse_literal r
  end.

(** [int(x)]; [None] stands for the [ValueError] or [TypeError] raised. *)
Definition py_int `{Interpreter} (x : scalar) : option Z :=
  match x with
  | SInt n => Some n
  | SBool b => Some (Z.b2z b)
  | SStr s => int_of_str s
  | SNone => None
  end.

(** *** [str(n)] for an integer *)

Definition digit_char (d : Z) : ascii := ascii_of_nat (48 + Z.to_nat d).

Fixpoint digits_of (fuel : nat) (n : Z) (acc : list ascii) : list ascii :=
  match fuel with
  | O => acc
  | S fuel' =>
      let acc' := digit_char (n mod 10) :: acc in
      if (n / 10 =? 0)%Z then acc' else digits_of fuel' (n / 10) acc'
  end.

(** A number has no more decimal digits than binary ones. *)
Definition digit_fuel (n : Z) : nat := S (Z.to_nat (Z.log2 n)).

Definition str_of_int (z : Z) : string :=
  if (z <? 0)%Z
  then String "-" (string_of_list_ascii (digits_of (digit_fuel (- z)) (- z) []))
  else string_of_list_ascii (digits_of (digit_fuel z) z []).

(** *** [s.replace(old, new)] *)

Fixpoint is_prefix (p s : list ascii) : bool :=
  match p, s with
  | [], _ => true
  | _ :: _, [] => false
  | a :: p', b :: s' => Ascii.eqb a b && is_prefix p' s'
  end.

(** Left-to-right scan replacing non-overlapping occurrences of [old];
    [skip] counts the characters of a match still to be passed over. *)
Fixpoint replace_from (old new : list ascii) (skip : nat) (s : list ascii)
  : list ascii :=
  match s with
  | [] => []
  | c :: r =>
      match skip with
      | S k => replace_from old new k r
      | O =>
          if is_prefix old s
          then new ++ replace_from old new (List.length old - 1) r
          else c :: replace_from old new 0 r
      end
  end.

Definition str_replace (s old new : string) : string :=
  let s' := list_ascii_of_string s in
  let new' := list_ascii_of_string new in
  match list_ascii_of_string old with
  | [] => string_of_list_ascii (new' ++ flat_map (fun c => c :: new') s')
  | old' => string_of_list_ascii (replace_from old' new' 0 s')
  end.

(** [sub in s] for text. *)
Definition contains (sub s : string) : Prop :=
  exists a b : string, s = (a ++ sub ++ b)%string.

(** *** [os.path.split] (POSIX) *)

Fixpoint rstrip_slash_rev (l : list ascii) : list ascii :=
  match l with
  | "/"%char :: r => rstrip_slash_rev r
  | _ => l
  end.

(** Splits the reversed path at its first slash: [(rev tail, rev head)]
    where [head] keeps its final slash. *)
Fixpoint split_rev (l : list ascii) (tail_rev : list ascii)
  : list ascii * list ascii :=
  match l with
  | [] => (tail_rev, [])
  | "/"%char :: _ => (tail_rev, l)
  | c :: r => split_rev r (tail_rev ++ [c])
  end.

Definition os_path_split (p : string) : string * string :=
  let '(tail_rev, head_rev) := split_rev (rev (list_ascii_of_string p)) [] in
  let head_rev' :=
    match rstrip_slash_rev head_rev with
    | [] => head_rev            (* the head is made of slashes only *)
    | stripped => stripped
    end in
  (string_of_list_ascii (rev head_rev'), string_of_list_ascii (rev tail_rev)).

(** [name.split('/')[1]], defined when [name] contains a slash. *)
Fixpoint second_component (l : list ascii) (seen_slash : bool)
  : list ascii :=
  match l with
  | [] => []
  | "/"%char :: r => if seen_slash then [] else second_component r true
  | c :: r =>
      if seen_slash then c :: second_component r true
      else second_component r false
  end.

Definition has_slash (s : string) : bool :=
  existsb (Ascii.eqb "/"%char) (list_ascii_of_string s).

(** One step of [os.path.join]: an absolute [b] discards [path]. *)
Definition os_path_join2 (path b : string) : string :=
  match b with
  | String "/" _ => b
  | _ =>
      match rev (list_ascii_of_string path) with
      | [] => b
      | "/"%char :: _ => (path ++ b)%string
      | _ => (path ++ "/" ++ b)%string
      end
  end.

(** [os.path.join(a, b, c)] *)
Definition os_path_join (a b c : string) : string :=
  os_path_join2 (os_path_join2 a b) c.

(** *** Sets: kept as duplicate-free lists; the order is immaterial *)

Definition set_mem (x : scalar) (s : list scalar) : bool :=
  existsb (py_eqb x) s.

Definition set_add (s : list scalar) (x : scalar) : list scalar :=
  if set_mem x s then s else s ++ [x].

(** [s.update(iterable)] *)
Definition set_update (s : list scalar) (l : list scalar) : list scalar :=
  fold_left set_add l s.

(** [set(iterable)] *)
Definition set_of_list (l : list scalar) : list scalar := set_update [] l.

(** *** Insertion-ordered dictionaries *)

Section Dict.
Context {K V : Type} (eqb : K -> K -> bool).

Fixpoint dict_get (d : list (K * V)) (k : K) : option V :=
  match d with
  | [] => None
  | (k', v) :: r => if eqb k k' then Some v else dict_get r k
  end.

Definition dict_contains (d : list (K * V)) (k : K) : bool :=
  match dict_get d k with Some _ => true | None => false end.

(** [d[k] = v]: an existing key keeps its position. *)
Fixpoint dict_set (d : list (K * V)) (k : K) (v : V) : list (K * V) :=
  match d with
  | [] => [(k, v)]
  | (k', v') :: r =>
      if eqb k k' then (k', v) :: r else (k', v') :: dict_set r k v
  end.

(** [d.update(pairs)] *)
Definition dict_update (d : list (K * V)) (l : list (K * V))
  : list (K * V) :=
  fold_left (fun acc kv => dict_set acc (fst kv) (snd kv)) l d.
End Dict.

End Py.

Import Py.

(** ** [_numericize] *)

(** The loop body: [var = i], then [var = int(i)] unless that raises
    [ValueError] or [TypeError]; [var] is appended in either case. *)
Definition numericize_one `{Interpreter} (i : scalar) : scalar :=
  match py_int i with
  | Some n => SInt n
  | None => i
  end.

Definition _numericize `{Interpreter} (loaded_data : list scalar)
  : list scalar :=
  fold_left (fun new_iterable i => new_iterable ++ [numericize_one i])
            loaded_data [].

(** ** The containers of [datamanager.cachetypes] *)

(** The module [datamanager/cachetypes.py], which defines [CacheSet] and
    [EvictingIndex], is not among the sources; both are modelled from what
    the specification says of the disk-backed containers. *)

Module CacheSet.
(** Modelled from the spec: the class [CacheSet] is missing.  A set
    container has "unique scalar members, no order guarantee" and lives at
    a directory given at construction. *)
Record t : Type := mk { members : list scalar; directory : string }.

(** Modelled from the spec: the constructor [CacheSet(iterable, directory)]
    is missing.  A container is "created at registration time from loaded
    data or an empty collection of the right kind". *)
Definition new (iterable : list scalar) (path : string) : t :=
  {| members := set_of_list iterable; directory := path |}.

(** Modelled from the spec: what the missing constructor does with a
    directory that is not empty.  The container has its "backing storage
    at a directory path" and "persists across runs": [held] is what the
    directory holds already, to which the seed is added. *)
Definition open (held iterable : list scalar) (path : string) : t :=
  {| members := set_update held iterable; directory := path |}.

(** Modelled from the spec: [CacheSet.update(iterable)] is missing.  A set
    "is updated via union-merge". *)
Definition update (c : t) (iterable : list scalar) : t :=
  {| members := set_update (members c) iterable;
     directory := directory c |}.

(** Modelled from the spec: [CacheSet.clear()] is missing; it "empties
    contents". *)
Definition clear (c : t) : t :=
  {| members := []; directory := directory c |}.
End CacheSet.

Module EvictingIndex.
(** Modelled from the spec: the class [EvictingIndex] is missing.  The map
    container is "key to value, bounded capacity with eviction when the
    bound is exceeded".  Entries are kept from the least recently used to
    the most recently used. *)
Record t : Type :=
  mk { directory : string;
       max_entries : nat;
       entries : list (scalar * scalar) }.

Definition keys (c : t) : list scalar := map fst (entries c).


Definition has_key (k : scalar) (c : t) : bool :=
  existsb (py_eqb k) (keys c).

Definition without (k : scalar) (l : list (scalar * scalar))
  : list (scalar * scalar) :=
  filter (fun kv => negb (py_eqb k (fst kv))) l.

(** Evicting drops the least recently used entry, the head. *)
Definition evict_lru (l : list (scalar * scalar))
  : list (scalar * scalar) := tl l.

(** Modelled from the spec: [EvictingIndex.__setitem__] is missing.
    "When insertion would exceed a configured maximum entry count, the
    least-recently-used entry is evicted before the new entry is admitted",
    eviction being "a side effect of put".  A key already present is
    overwritten and becomes the most recently used. *)
Definition put (c : t) (k v : scalar) : t :=
  if has_key k c then
    {| directory := directory c; max_entries := max_entries c;
       entries := without k (entries c) ++ [(k, v)] |}
  else
    let kept :=
      if max_entries c <? S (List.length (entries c))
      then evict_lru (entries c) else entries c in
    {| directory := directory c; max_entries := max_entries c;
       entries := kept ++ [(k, v)] |}.

(** Modelled from the spec: [EvictingIndex.__getitem__] is missing.  A read
    makes the key the most recently accessed one. *)
Definition get (c : t) (k : scalar) : option scalar * t :=
  match dict_get py_eqb (entries c) k with
  | Some v =>
      (Some v,
       {| directory := directory c; max_entries := max_entries c;
          entries := without k (entries c) ++ [(k, v)] |})
  | None => (None, c)
  end.

(** Modelled from the spec: [EvictingIndex.update(pairs)] is missing; the
    pairs are inserted one after the other. *)
Definition update (c : t) (l : list (scalar * scalar)) : t :=
  fold_left (fun acc kv => put acc (fst kv) (snd kv)) l c.

Definition empty (path : string) (n : nat) : t :=
  {| directory := path; max_entries := n; entries := [] |}.






(** Modelled from the spec: the constructor
    [EvictingIndex(directory, **kwargs)] is missing.  The container starts
    from the keyword arguments, with a capacity of [n]. *)
Definition new (path : string) (n : nat) (kwargs : list (scalar * scalar))
  : t :=
  update (empty path n) kwargs.

(** Modelled from the spec: what the missing constructor does with a
    directory that is not empty.  The container "persists across runs":
    [held] is what the directory holds already, from the least to the most
    recently used entry, into which the keyword arguments are inserted. *)
Definition open (held : list (scalar * scalar)) (path : string) (n : nat)
           (kwargs : list (scalar * scalar)) : t :=
  update {| directory := path; max_entries := n; entries := held |} kwargs.

(** Modelled from the spec: [EvictingIndex.clear()] is missing; it "empties
    contents". *)
Definition clear (c : t) : t :=
  {| directory := directory c; max_entries := max_entries c;
     entries := [] |}.
End EvictingIndex.

(** ** Values, exceptions and observable events *)

Definition kwargs : Type := list (string * scalar).

(** What a registry entry, an initial value or loaded data can be. *)
Inductive value : Type :=
| VAtom (x : scalar)
| VType (cls : string)                      (* a class, such as [set] *)
| VSet (elems : list scalar)
| VList (elems : list scalar)
| VDict (items : list (scalar * scalar))
| VCacheSet (c : CacheSet.t)
| VDeque (directory : string) (elems : list scalar)
| VIndex (directory : string) (items : list (scalar * scalar))
| VEvictingIndex (c : EvictingIndex.t).

Inductive exn : Type :=
| TypeError (msg : string)
| ValueError (msg : string)
| KeyError (key : string)
| AttributeError (msg : string)
| RuntimeError (msg : string)
| ExternalError (msg : string).       (* raised inside the file layer *)

Inductive result (A : Type) : Type :=
| Ok (a : A)
| Raise (e : exn).
Arguments Ok {A} a.
Arguments Raise {A} e.

Inductive event : Type :=
| LogDebug (msg : string) (name : string)
| LogException (e : exn)
| FmRegisterFile (file_name file_path short_name : string)
| SmartLoad (name : string) (kw : kwargs)
| SmartSave (name : string) (payload : value) (kw : kwargs)
            (failure : option exn)
| Rmtree (directory : string).

(** [bool(v)] *)
Definition truthy (v : value) : bool :=
  match v with
  | VAtom x => scalar_truthy x
  | VType _ => true
  | VSet l | VList l | VDeque _ l => negb (Nat.eqb (List.length l) 0)
  | VDict d | VIndex _ d => negb (Nat.eqb (List.length d) 0)
  | VCacheSet c => negb (Nat.eqb (List.length (CacheSet.members c)) 0)
  | VEvictingIndex c =>
      negb (Nat.eqb (List.length (EvictingIndex.entries c)) 0)
  end.

(** The elements [for i in v] yields; [None] when [v] is not iterable.
    Text yields its characters, a mapping its keys. *)
Definition iterate (v : value) : option (list scalar) :=
  match v with
  | VAtom (SStr s) =>
      Some (map (fun c => SStr (String c EmptyString))
                (list_ascii_of_string s))
  | VAtom _ | VType _ => None
  | VSet l | VList l | VDeque _ l => Some l
  | VDict d | VIndex _ d => Some (map fst d)
  | VCacheSet c => Some (CacheSet.members c)
  | VEvictingIndex c => Some (EvictingIndex.keys c)
  end.

(** [isinstance(v, Iterable)] *)
Definition is_iterable (v : value) : bool :=
  match iterate v with Some _ => true | None => false end.

(** The key-value pairs of a mapping; [None] when [v] is not a mapping. *)
Definition mapping_items (v : value) : option (list (scalar * scalar)) :=
  match v with
  | VDict d | VIndex _ d => Some d
  | VEvictingIndex c => Some (EvictingIndex.entries c)
  | _ => None
  end.

Fixpoint str_keys (d : list (scalar * scalar)) : option kwargs :=
  match d with
  | [] => Some []
  | (SStr k, v) :: r => option_map (cons (k, v)) (str_keys r)
  | _ :: _ => None
  end.

(** [**v] in a call: [v] must be a mapping whose keys are all text. *)
Definition unpack_kwargs (v : value) : result kwargs :=
  match mapping_items v with
  | None => Raise (TypeError "argument after ** must be a mapping")
  | Some d =>
      match str_keys d with
      | Some kw => Ok kw
      | None => Raise (TypeError "keywords must be strings")
      end
  end.

(** Keyword arguments written out in a call followed by [**kw]: a keyword
    given twice is a [TypeError]. *)
Definition call_kwargs (explicit kw : kwargs) : result kwargs :=
  if existsb (fun k => dict_contains String.eqb explicit (fst k)) kw
  then Raise (TypeError "got multiple values for keyword argument")
  else Ok (explicit ++ kw).

(** An element of a sequence read as a key and a value, as [dict.update]
    and [for key, value in other] read it: among the scalars only
    two-character text is a pair. *)
Definition pair_of (x : scalar) : result (scalar * scalar) :=
  match x with
  | SStr (String a (String b EmptyString)) =>
      Ok (SStr (String a EmptyString), SStr (String b EmptyString))
  | SStr _ =>
      Raise (ValueError "dictionary update sequence element has wrong length")
  | _ =>
      Raise (TypeError "cannot convert dictionary update sequence element")
  end.

(** How a call that changes its target in place ends. *)
Inductive in_place (D : Type) : Type :=
| Done (d : D)                 (* it returned; the target is now [d] *)
| Refused (e : exn)            (* it raised and left the target alone *)
| Broken (e : exn) (d : D).    (* it raised after the target became [d] *)
Arguments Done {D} d.
Arguments Refused {D} e.
Arguments Broken {D} e d.

Definition in_place_map {D E : Type} (f : D -> E) (r : in_place D)
  : in_place E :=
  match r with
  | Done d => Done (f d)
  | Refused e => Refused e
  | Broken e d => Broken e (f d)
  end.

(** The pairs are inserted one after the other: those that stand before
    an element that is not a pair have been inserted when the call
    raises.  [touched] tells whether a pair has been inserted yet. *)
Fixpoint update_each {D : Type} (put : D -> scalar -> scalar -> D) (d : D)
         (touched : bool) (l : list scalar) : in_place D :=
  match l with
  | [] => Done d
  | x :: r =>
      match pair_of x with
      | Ok kv => update_each put (put d (fst kv) (snd kv)) true r
      | Raise e => if touched then Broken e d else Refused e
      end
  end.

(** [d.update(arg)] on a mapping: the items of a mapping, or the elements
    of an iterable read as pairs. *)
Definition update_mapping {D : Type} (put : D -> scalar -> scalar -> D)
           (d : D) (arg : value) : in_place D :=
  match mapping_items arg with
  | Some items =>
      Done (fold_left (fun acc kv => put acc (fst kv) (snd kv)) items d)
  | None =>
      match iterate arg with
      | Some l => update_each put d false l
      | None => Refused (TypeError "object is not iterable")
      end
  end.

(** [target.update(arg)] *)
Definition method_update (target arg : value) : in_place value :=
  match target with
  | VSet s =>
      match iterate arg with
      | Some l => Done (VSet (set_update s l))
      | None => Refused (TypeError "object is not iterable")
      end
  | VCacheSet c =>
      match iterate arg with
      | Some l => Done (VCacheSet (CacheSet.update c l))
      | None => Refused (TypeError "object is not iterable")
      end
  | VDict d => in_place_map VDict (update_mapping (dict_set py_eqb) d arg)
  | VIndex dir d =>
      in_place_map (VIndex dir) (update_mapping (dict_set py_eqb) d arg)
  | VEvictingIndex c =>
      in_place_map VEvictingIndex (update_mapping EvictingIndex.put c arg)
  | VAtom _ | VType _ | VList _ | VDeque _ _ =>
      Refused (AttributeError "object has no attribute 'update'")
  end.

(** [target.extend(arg)] *)
Definition method_extend (target arg : value) : result value :=
  match target with
  | VList l =>
      match iterate arg with
      | Some l' => Ok (VList (l ++ l'))
      | None => Raise (TypeError "object is not iterable")
      end
  | VDeque dir l =>
      match iterate arg with
      | Some l' => Ok (VDeque dir (l ++ l'))
      | None => Raise (TypeError "object is not iterable")
      end
  | _ => Raise (AttributeError "object has no attribute 'extend'")
  end.

(** [isinstance(v, (CacheSet, Deque))] and [isinstance(v, (Index,
    EvictingIndex))]. *)
Definition is_set_or_deque (v : value) : bool :=
  match v with VCacheSet _ | VDeque _ _ => true | _ => false end.

Definition is_index (v : value) : bool :=
  match v with VIndex _ _ | VEvictingIndex _ => true | _ => false end.

(** [list(v)] and [dict(v)] of a container. *)
Definition list_snapshot (v : value) : value :=
  match iterate v with Some l => VList l | None => VList [] end.

Definition dict_snapshot (v : value) : value :=
  match mapping_items v with Some d => VDict d | None => VDict [] end.

(** [v.clear()] and [v.directory] for the containers [clean] handles. *)
Definition cleared (v : value) : value :=
  match v with
  | VCacheSet c => VCacheSet (CacheSet.clear c)
  | VDeque dir _ => VDeque dir []
  | VIndex dir _ => VIndex dir []
  | VEvictingIndex c => VEvictingIndex (EvictingIndex.clear c)
  | _ => v
  end.

Definition directory_of (v : value) : string :=
  match v with
  | VCacheSet c => CacheSet.directory c
  | VDeque dir _ | VIndex dir _ => dir
  | VEvictingIndex c => EvictingIndex.directory c
  | _ => ""
  end.

(** ** The cache directories *)

(** What the sources do not fix about the containers.  The capacity an
    [EvictingIndex] gets when, as in [_create_cache], none is passed, is
    fixed by the absent [cachetypes] module.  What a container reads in a
    directory that a container of another kind has written ([found])
    depends on the layout each kind gives its directory, which neither the
    sources nor the specification tell. *)
Class CacheTypes : Type := {
  default_max_entries : nat;
  foreign_sequence : value -> list scalar;
  foreign_members : value -> list scalar;
  foreign_entries : value -> list (scalar * scalar)
}.

(** What a container opened on a directory finds there, [found] being the
    container that last wrote to the directory, if any: a sequence
    container ([diskcache.Deque]) reads the elements a sequence container
    left, and likewise for the other two kinds. *)
Definition stored_sequence `{CacheTypes} (found : option value)
  : list scalar :=
  match found with
  | None => []
  | Some (VDeque _ l) => l
  | Some v => foreign_sequence v
  end.

Definition stored_members `{CacheTypes} (found : option value)
  : list scalar :=
  match found with
  | None => []
  | Some (VCacheSet c) => CacheSet.members c
  | Some v => foreign_members v
  end.

Definition stored_entries `{CacheTypes} (found : option value)
  : list (scalar * scalar) :=
  match found with
  | None => []
  | Some (VEvictingIndex c) => EvictingIndex.entries c
  | Some v => foreign_entries v
  end.

(** A container that lives in a directory. *)
Definition is_container (v : value) : bool :=
  match v with
  | VCacheSet _ | VDeque _ _ | VIndex _ _ | VEvictingIndex _ => true
  | _ => false
  end.

(** ** The file binding layer (the external [easyfilemanager.FileManager]) *)

(** The layer is consumed through three calls, each addressed by the
    directory and file name a short name was registered with.  [FS] is the
    state of the file system. *)
Class FileManager (FS : Type) : Type := {
  fm_exists : FS -> string -> string -> bool;
  fm_smart_load : FS -> string -> string -> kwargs -> result value;
  fm_smart_save : FS -> string -> string -> value -> kwargs -> FS * option exn
}.

(** ** [SaveDaemon]: the background thread of [save_daemon.py] *)

Module SaveDaemon.

(** Where the thread stands in [run]. *)
Inductive control : Type :=
| NotStarted                 (* created, [start] not called yet *)
| LoopTop                    (* about to test [self.go] *)
| InRound (i : nat)          (* in the [for], about to take [funcs[i]] *)
| Sleeping                   (* inside [sleep(self.sleep)] *)
| Halted.                    (* [run] has returned *)

Record t (callback : Type) : Type :=
  mk { go : bool;
       sleep : Z;
       name : string;
       funcs : list callback;
       pc : control }.

Arguments mk {callback}.
Arguments go {callback}.
Arguments sleep {callback}.
Arguments name {callback}.
Arguments funcs {callback}.
Arguments pc {callback}.

Definition __init__ {callback : Type} (sleep_interval : Z) : t callback :=
  {| go := true; sleep := sleep_interval;
     name := "DataManager.SaveDaemon"; funcs := []; pc := NotStarted |}.

Definition with_pc {callback} (d : t callback) (c : control) : t callback :=
  {| go := go d; sleep := sleep d; name := name d; funcs := funcs d;
     pc := c |}.

(** [self.go = False], as [DataManager.stop_daemon] does. *)
Definition stop {callback} (d : t callback) : t callback :=
  {| go := false; sleep := sleep d; name := name d; funcs := funcs d;
     pc := pc d |}.

(** [Thread.start()]: a thread can be started once only; a second call
    raises and leaves the thread as it is. *)
Definition start {callback} (d : t callback) : result (t callback) :=
  match pc d with
  | NotStarted => Ok (with_pc d LoopTop)
  | _ => Raise (RuntimeError "threads can only be started once")
  end.

(** How the call of a callback ends: it returns, it raises an exception
    that [except Exception] catches, or it raises one that this clause
    does not catch ([SystemExit], [KeyboardInterrupt], [GeneratorExit]),
    given by its name. *)
Inductive outcome : Type :=
| Returns
| Raises (e : exn)
| Escapes (what : string).

(** What the thread does, seen from outside. *)
Inductive output : Type :=
| Called (i : nat)            (* [funcs[i]()] was invoked *)
| Printed (e : exn)           (* [print(e)] *)
| Slept (seconds : Z)         (* one [sleep(self.sleep)] *)
| Uncaught (what : string).   (* an exception left [run]: the thread ends *)

(** [time.sleep] refuses a negative length. *)
Definition negative_sleep : string :=
  "ValueError: sleep length must be non-negative".

Section Run.
Context {W callback : Type}.
(** Running a callback on the world it acts on: how the call ends, and
    the world it leaves. *)
Variable invoke : callback -> W -> outcome * W.

Record system : Type :=
  mk_system { daemon : t callback; world : W; log : list output }.

(** One step of the thread through [run]:
    [while self.go: for func in self.funcs: try func() except: print;
    sleep(self.sleep)].  An exception that [except Exception] does not
    catch, and the [ValueError] of [sleep] for a negative interval (it is
    raised outside the [try]), leave [run]: the thread ends. *)
Definition thread_step (s : system) : system :=
  let d := daemon s in
  match pc d with
  | NotStarted | Halted => s
  | LoopTop =>
      if go d
      then mk_system (with_pc d (InRound 0)) (world s) (log s)
      else mk_system (with_pc d Halted) (world s) (log s)
  | InRound i =>
      match nth_error (funcs d) i with
      | Some func =>
          let '(ended, w) := invoke func (world s) in
          match ended with
          | Returns =>
              mk_system (with_pc d (InRound (S i))) w (log s ++ [Called i])
          | Raises e =>
              mk_system (with_pc d (InRound (S i))) w
                        (log s ++ [Called i; Printed e])
          | Escapes what =>
              mk_system (with_pc d Halted) w
                        (log s ++ [Called i; Uncaught what])
          end
      | None => mk_system (with_pc d Sleeping) (world s) (log s)
      end
  | Sleeping =>
      if (sleep d <? 0)%Z
      then mk_system (with_pc d Halted) (world s)
                     (log s ++ [Uncaught negative_sleep])
      else mk_system (with_pc d LoopTop) (world s)
                     (log s ++ [Slept (sleep d)])
  end.

(** The thread runs next to its owner, which may start or stop it
    between any two of its steps. *)
Inductive action : Type := Tick | Stop | Start.

Definition act (s : system) (a : action) : system :=
  match a with
  | Tick => thread_step s
  | Stop => mk_system (stop (daemon s)) (world s) (log s)
  | Start =>
      match start (daemon s) with
      | Ok d => mk_system d (world s) (log s)
      | Raise _ => s
      end
  end.

Definition exec (s : system) (schedule : list action) : system :=
  fold_left act schedule s.

Definition is_tick (a : action) : bool :=
  match a with Tick => true | _ => false end.

Definition ticks (schedule : list action) : nat :=
  List.length (filter is_tick schedule).

Definition is_call (o : output) : bool :=
  match o with Called _ => true | _ => false end.

Definition is_sleep (o : output) : bool :=
  match o with Slept _ => true | _ => false end.

Definition calls (l : list output) : nat :=
  List.length (filter is_call l).

Definition sleeps (l : list output) : nat :=
  List.length (filter is_sleep l).

(** The callbacks the current round still has to run. *)
Definition left_in_round (d : t callback) : nat :=
  match pc d with
  | InRound i => List.length (funcs d) - i
  | _ => 0
  end.

(** The sleeps a thread told to stop may still begin. *)
Definition sleeps_left (d : t callback) : nat :=
  match pc d with
  | InRound _ | Sleeping => 1
  | _ => 0
  end.

(** Steps the thread needs to halt once [go] is false. *)
Definition steps_to_halt (d : t callback) : nat :=
  match pc d with
  | NotStarted | Halted => 0
  | LoopTop => 1
  | Sleeping => 2
  | InRound i => 3 + (List.length (funcs d) - i)
  end.
End Run.

End SaveDaemon.

(** ** [DataManager]: the registry of [datamanager.py] *)

(** The bound methods the registry hands to its daemon. *)
Inductive method : Type := MSave | MSaveCaches.

(** The class-level attributes, which all instances share. *)
Record Shared : Type :=
  mkShared {
    filemanager : list (string * (string * string));
        (* short name -> (file name, directory) *)
    do_not_display : list string;
    do_not_save : list string;
    do_not_append_session_id : list string;
    save_kwargs : list (string * kwargs);
    load_kwargs : list (string * kwargs) }.

Definition Shared_initial : Shared :=
  {| filemanager := []; do_not_display := []; do_not_save := [];
     do_not_append_session_id := []; save_kwargs := []; load_kwargs := [] |}.

Section Registry.
Context {FS : Type} `{FileManager FS} `{CacheTypes} {interp : Interpreter}.

(** An instance, the class attributes it sees, the file system, the
    trace of what it logged and asked of the file layer, and the cache
    directories: for each directory that holds something, the container
    that last wrote to it. *)
Record DataManager : Type :=
  mkDataManager {
    data : list (string * value);          (* [UserDict.data] *)
    session_id : string;
    save_daemon : SaveDaemon.t method;
    shared : Shared;
    fs : FS;
    trace : list event;
    caches : list (string * value) }.

Definition with_data (f : list (string * value) -> list (string * value))
           (dm : DataManager) : DataManager :=
  mkDataManager (f (data dm)) (session_id dm) (save_daemon dm) (shared dm)
                (fs dm) (trace dm) (caches dm).

Definition with_save_daemon
           (f : SaveDaemon.t method -> SaveDaemon.t method)
           (dm : DataManager) : DataManager :=
  mkDataManager (data dm) (session_id dm) (f (save_daemon dm)) (shared dm)
                (fs dm) (trace dm) (caches dm).

Definition with_shared (f : Shared -> Shared) (dm : DataManager)
  : DataManager :=
  mkDataManager (data dm) (session_id dm) (save_daemon dm) (f (shared dm))
                (fs dm) (trace dm) (caches dm).

Definition with_fs (f : FS -> FS) (dm : DataManager) : DataManager :=
  mkDataManager (data dm) (session_id dm) (save_daemon dm) (shared dm)
                (f (fs dm)) (trace dm) (caches dm).

Definition with_trace (f : list event -> list event) (dm : DataManager)
  : DataManager :=
  mkDataManager (data dm) (session_id dm) (save_daemon dm) (shared dm)
                (fs dm) (f (trace dm)) (caches dm).

Definition with_caches
           (f : list (string * value) -> list (string * value))
           (dm : DataManager) : DataManager :=
  mkDataManager (data dm) (session_id dm) (save_daemon dm) (shared dm)
                (fs dm) (trace dm) (f (caches dm)).

(** *** A state and exception monad for the methods *)

Definition M (A : Type) : Type := DataManager -> result A * DataManager.

Definition ret {A} (a : A) : M A := fun dm => (Ok a, dm).

Definition bind {A B} (m : M A) (k : A -> M B) : M B :=
  fun dm =>
    match m dm with
    | (Ok a, dm') => k a dm'
    | (Raise e, dm') => (Raise e, dm')
    end.

Definition raise {A} (e : exn) : M A := fun dm => (Raise e, dm).

Definition gets {A} (f : DataManager -> A) : M A := fun dm => (Ok (f dm), dm).

Definition modify (f : DataManager -> DataManager) : M unit :=
  fun dm => (Ok tt, f dm).

Definition lift {A} (r : result A) : M A :=
  match r with Ok a => ret a | Raise e => raise e end.

(** [try: body except Exception as e: handler(e)] *)
Definition try_except (body : M unit) (handler : exn -> M unit) : M unit :=
  fun dm =>
    match body dm with
    | (Ok tt, dm') => (Ok tt, dm')
    | (Raise e, dm') => handler e dm'
    end.

Local Notation "x <- c1 ;; c2" := (bind c1 (fun x => c2))
  (at level 61, c1 at next level, right associativity).
Local Notation "c1 ;; c2" := (bind c1 (fun _ => c2))
  (at level 61, right associativity).

(** [for x in l: body(x)] *)
Fixpoint for_each {A} (l : list A) (body : A -> M unit) : M unit :=
  match l with
  | [] => ret tt
  | x :: r => body x ;; for_each r body
  end.

Definition when (b : bool) (m : M unit) : M unit :=
  if b then m else ret tt.

Definition emit (e : event) : M unit :=
  modify (with_trace (fun t => t ++ [e])).

Definition mem (x : string) (l : list string) : bool :=
  existsb (String.eqb x) l.

(** [self[name] = v] and [self[name]] *)
Definition setitem (name : string) (v : value) : M unit :=
  modify (with_data (fun d => dict_set String.eqb d name v)).

Definition getitem (name : string) : M value :=
  d <- gets data ;;
  match dict_get String.eqb d name with
  | Some v => ret v
  | None => raise (KeyError name)
  end.

(** *** The cache directories *)

(** What the directory at [path] holds. *)
Definition held (path : string) : M (option value) :=
  c <- gets caches ;;
  ret (dict_get String.eqb c path).

(** The directory at [path] now holds what the container [v] holds. *)
Definition write_directory (path : string) (v : value) : M unit :=
  modify (with_caches (fun c => dict_set String.eqb c path v)).

(** [shutil.rmtree(path)]: the directory is gone, with what it held. *)
Definition remove_directory (path : string) : M unit :=
  modify (with_caches
            (filter (fun kv => negb (String.eqb path (fst kv))))).

(** A container persists every change: its directory holds what it
    holds. *)
Definition persist (v : value) : M unit :=
  when (is_container v) (write_directory (directory_of v) v).

(** *** Calls into the file layer, by short name *)

Definition binding (name : string) : M (string * string) :=
  sh <- gets shared ;;
  match dict_get String.eqb (filemanager sh) name with
  | Some b => ret b
  | None => raise (KeyError name)
  end.

(** [name in self.filemanager] *)
Definition bound (sh : Shared) (name : string) : bool :=
  dict_contains String.eqb (filemanager sh) name.

Definition fm_register_file (file_name file_path short_name : string)
  : M unit :=
  modify (with_shared (fun sh =>
    mkShared (dict_set String.eqb (filemanager sh) short_name
                       (file_name, file_path))
             (do_not_display sh) (do_not_save sh)
             (do_not_append_session_id sh) (save_kwargs sh)
             (load_kwargs sh))) ;;
  emit (FmRegisterFile file_name file_path short_name).

Definition exists_ (name : string) : M bool :=
  b <- binding name ;;
  w <- gets fs ;;
  ret (fm_exists w (snd b) (fst b)).

Definition smart_load (name : string) (kw : kwargs) : M value :=
  b <- binding name ;;
  w <- gets fs ;;
  emit (SmartLoad name kw) ;;
  lift (fm_smart_load w (snd b) (fst b) kw).

Definition smart_save (name : string) (payload : value) (kw : kwargs)
  : M unit :=
  b <- binding name ;;
  w <- gets fs ;;
  let '(w', failure) := fm_smart_save w (snd b) (fst b) payload kw in
  modify (with_fs (fun _ => w')) ;;
  emit (SmartSave name payload kw failure) ;;
  match failure with
  | Some e => raise e
  | None => ret tt
  end.

(** *** The class-level lists and option maps *)

Definition append_do_not_display (name : string) : M unit :=
  modify (with_shared (fun sh =>
    mkShared (filemanager sh) (do_not_display sh ++ [name])
             (do_not_save sh) (do_not_append_session_id sh)
             (save_kwargs sh) (load_kwargs sh))).

Definition append_do_not_save (name : string) : M unit :=
  modify (with_shared (fun sh =>
    mkShared (filemanager sh) (do_not_display sh)
             (do_not_save sh ++ [name]) (do_not_append_session_id sh)
             (save_kwargs sh) (load_kwargs sh))).

Definition append_do_not_append_session_id (key : string) : M unit :=
  modify (with_shared (fun sh =>
    mkShared (filemanager sh) (do_not_display sh) (do_not_save sh)
             (do_not_append_session_id sh ++ [key])
             (save_kwargs sh) (load_kwargs sh))).

Definition set_save_kwargs (name : string) (kw : kwargs) : M unit :=
  modify (with_shared (fun sh =>
    mkShared (filemanager sh) (do_not_display sh) (do_not_save sh)
             (do_not_append_session_id sh)
             (dict_set String.eqb (save_kwargs sh) name kw)
             (load_kwargs sh))).

Definition set_load_kwargs (name : string) (kw : kwargs) : M unit :=
  modify (with_shared (fun sh =>
    mkShared (filemanager sh) (do_not_display sh) (do_not_save sh)
             (do_not_append_session_id sh) (save_kwargs sh)
             (dict_set String.eqb (load_kwargs sh) name kw))).

(** [self.save_kwargs.get(name, {})] *)
Definition save_kwargs_for (sh : Shared) (name : string) : kwargs :=
  match dict_get String.eqb (save_kwargs sh) name with
  | Some kw => kw
  | None => []
  end.

Definition is_type (v : value) : bool :=
  match v with VType _ => true | _ => false end.

Definition nonempty {A} (l : list A) : bool :=
  negb (Nat.eqb (List.length l) 0).

(** *** The methods *)

(** [DataManager.__init__]; [drawn] is what [randint(100000, 999999)]
    returned, [sh] the class attributes as earlier instances left them,
    [w] the files and [disk] the cache directories as the instance finds
    them. *)
Definition __init__ (args : list (string * value)) (drawn : Z)
           (sh : Shared) (w : FS) (disk : list (string * value))
  : DataManager :=
  {| data := args;
     session_id := str_of_int drawn;
     save_daemon :=
       let d := SaveDaemon.__init__ 15 in
       SaveDaemon.mk (SaveDaemon.go d) (SaveDaemon.sleep d)
                     (SaveDaemon.name d)
                     (SaveDaemon.funcs d ++ [MSave; MSaveCaches])
                     (SaveDaemon.pc d);
     shared := sh;
     fs := w;
     trace := [];
     caches := disk |}.

(** What [randint(lo, hi)] may return. *)
Definition randint (lo hi drawn : Z) : Prop := (lo <= drawn <= hi)%Z.

Definition register (name : string) (data_ : value)
           (display append_session_id : bool) : M unit :=
  sid <- gets session_id ;;
  name <- (if append_session_id
           then ret (name ++ sid)%string
           else append_do_not_append_session_id (name ++ sid)%string ;;
                ret name) ;;
  when (negb display) (append_do_not_display name) ;;
  setitem name data_.

(** [self[name].update(arg)]: the entry is changed in place, also when
    the call raises half way. *)
Definition update_in_place (name : string) (arg : value) : M unit :=
  target <- getitem name ;;
  match method_update target arg with
  | Done updated => setitem name updated ;; persist updated
  | Refused e => raise e
  | Broken e updated => setitem name updated ;; persist updated ;; raise e
  end.

(** [self[name].extend(arg)] *)
Definition extend_in_place (name : string) (arg : value) : M unit :=
  target <- getitem name ;;
  extended <- lift (method_extend target arg) ;;
  setitem name extended ;;
  persist extended.

Definition load (data_ loaded_data : value) (name : string) : M unit :=
  let loaded_data :=
    match loaded_data with
    | VDict _ => loaded_data
    | _ =>
        match iterate loaded_data with
        | Some l => VList (_numericize l)
        | None => loaded_data
        end
    end in
  match data_ with
  | VSet _ => update_in_place name loaded_data
  | VList _ => extend_in_place name loaded_data
  | VDict _ => update_in_place name loaded_data
  | _ => ret tt
  end.

(** The statements both [register_file] and [register_cache] record the
    flags and options with: [if not display: ...], [if not save: ...],
    [if save_kwargs: ...], [if load_kwargs: ... else: load_kwargs = {}].
    The result is the [load_kwargs] used afterwards. *)
Definition record_options (name : string) (display save_ : bool)
           (save_kw load_kw : option kwargs) : M kwargs :=
  when (negb display) (append_do_not_display name) ;;
  when (negb save_) (append_do_not_save name) ;;
  match save_kw with
  | Some kw => when (nonempty kw) (set_save_kwargs name kw)
  | None => ret tt
  end ;;
  match load_kw with
  | Some ((_ :: _) as kw) => set_load_kwargs name kw ;; ret kw
  | _ => ret []
  end.

Definition register_file (name : string) (initial_data : value)
           (path_to_file : string) (display load_ save_ : bool)
           (save_kw load_kw : option kwargs) : M unit :=
  if is_type initial_data
  then raise (TypeError "initial_data argument must be an object, not type")
  else
    emit (LogDebug "registering" name) ;;
    load_kw <- record_options name display save_ save_kw load_kw ;;
    let '(file_path, file_name) := os_path_split path_to_file in
    let file_path :=
      if String.eqb file_path "" then "."%string else file_path in
    fm_register_file file_name file_path name ;;
    loaded_data <-
      (if load_
       then
         present <- exists_ name ;;
         if present
         then
           loaded <- smart_load name load_kw ;;
           emit (LogDebug "loaded data for" name) ;;
           ret loaded
         else ret (VAtom SNone)
       else ret (VAtom SNone)) ;;
    register name initial_data display false ;;
    when (truthy loaded_data) (load initial_data loaded_data name).

Definition _create_cache (initial_data loaded_data : value)
           (name directory : string) : M unit :=
  let path_name :=
    if has_slash name
    then string_of_list_ascii
           (second_component (list_ascii_of_string name) false)
    else name in
  let path := os_path_join "cache" directory path_name in
  match initial_data with
  | VSet _ =>
      loaded_data <-
        (if truthy loaded_data
         then match iterate loaded_data with
              | Some l => ret (VList (_numericize l))
              | None => raise (TypeError "object is not iterable")
              end
         else ret loaded_data) ;;
      let seed := if truthy loaded_data then loaded_data else VSet [] in
      match iterate seed with
      | Some l =>
          found <- held path ;;
          let c := VCacheSet (CacheSet.open (stored_members found) l path) in
          write_directory path c ;;
          setitem name c ;;
          emit (LogDebug "creating new CacheSet for" name)
      | None => raise (TypeError "object is not iterable")
      end
  | VList _ =>
      let seed := if truthy loaded_data then loaded_data else VList [] in
      match iterate seed with
      | Some l =>
          found <- held path ;;
          let c := VDeque path (stored_sequence found ++ l) in
          write_directory path c ;;
          setitem name c ;;
          emit (LogDebug "creating new Deque for" name)
      | None => raise (TypeError "object is not iterable")
      end
  | VDict _ =>
      let seed := if truthy loaded_data then loaded_data else VDict [] in
      kw <- lift (unpack_kwargs seed) ;;
      found <- held path ;;
      let c :=
        VEvictingIndex
          (EvictingIndex.open (stored_entries found) path
             default_max_entries
             (map (fun kv => (SStr (fst kv), snd kv)) kw)) in
      write_directory path c ;;
      setitem name c ;;
      emit (LogDebug "creating new Index for" name)
  | _ => ret tt
  end.

Definition register_cache (name : string) (initial_data : value)
           (path_to_file : option string) (display load_ save_ : bool)
           (save_kw load_kw : option kwargs) (directory : string)
           (append_session_id : bool) : M unit :=
  if is_type initial_data
  then raise (TypeError "initial_data argument must be an object, not type")
  else
    sid <- gets session_id ;;
    name <- (if append_session_id
             then ret (name ++ sid)%string
             else append_do_not_append_session_id (name ++ sid)%string ;;
                  ret name) ;;
    emit (LogDebug "registering" name) ;;
    load_kw <- record_options name display save_ save_kw load_kw ;;
    loaded_data <-
      match path_to_file with
      | Some ((String _ _) as path_to_file) =>
          let '(file_path, file_name) := os_path_split path_to_file in
          let file_path :=
            if String.eqb file_path "" then "."%string else file_path in
          fm_register_file file_name file_path name ;;
          if load_
          then
            present <- exists_ name ;;
            if present
            then
              loaded <- smart_load name load_kw ;;
              emit (LogDebug "loaded data for" name) ;;
              ret loaded
            else ret initial_data
          else ret initial_data
      | _ => ret (VAtom SNone)
      end ;;
    _create_cache initial_data loaded_data name directory.

Definition get (k : string) (optional : value) : M value :=
  sid <- gets session_id ;;
  let k := (k ++ sid)%string in
  sh <- gets shared ;;
  let k := if mem k (do_not_append_session_id sh)
           then str_replace k sid ""
           else k in
  d <- gets data ;;
  match dict_get String.eqb d k with
  | Some v => ret v
  | None => ret optional
  end.

Definition file_update (name : string) (data_ : value) : M unit :=
  setitem name data_.

(** The body of the loop of [save], for one [name, value] of
    [self.items()]. *)
Definition save_entry (item : string * value) : M unit :=
  let '(name, v) := item in
  sh <- gets shared ;;
  if negb (bound sh name) || mem name (do_not_save sh)
  then ret tt
  else if negb (truthy v)
  then ret tt
  else
    let save_kw := save_kwargs_for sh name in
    try_except (smart_save name v save_kw)
               (fun e => emit (LogException e)).

Definition save : M unit :=
  items <- gets data ;;
  for_each items save_entry.

(** The body of the loop of [save_caches]. *)
Definition save_caches_entry (item : string * value) : M unit :=
  let '(name, v) := item in
  sh <- gets shared ;;
  let save_kw := save_kwargs_for sh name in
  if negb (bound sh name) || mem name (do_not_save sh)
  then ret tt
  else if is_set_or_deque v
  then
    kw <- lift (call_kwargs [("mode"%string, SStr "w+")] save_kw) ;;
    smart_save name (list_snapshot v) kw
  else if is_index v
  then smart_save name (dict_snapshot v) save_kw
  else ret tt.

Definition save_caches : M unit :=
  emit (LogDebug "saving cache files" "") ;;
  items <- gets data ;;
  for_each items save_caches_entry.

(** Modelled from the spec: whether the missing class [EvictingIndex]
    derives from [Index] is not in the sources; [clean] is said to handle
    "every Disk-Backed Container entry", so for
    [isinstance(v, (CacheSet, Deque, Index))] an [EvictingIndex] counts as
    an [Index]. *)
Definition is_cache (v : value) : bool :=
  is_set_or_deque v || is_index v.

(** The body of the loop of [clean]. *)
Definition clean_entry (item : string * value) : M unit :=
  let '(name, v) := item in
  sh <- gets shared ;;
  if negb (bound sh name)
  then ret tt
  else
    when (is_cache v)
         (setitem name (cleared v) ;;
          remove_directory (directory_of v) ;;
          emit (Rmtree (directory_of v))).

Definition clean : M unit :=
  items <- gets data ;;
  for_each items clean_entry.

Definition start_save_daemon (sleep_time : option Z) : M unit :=
  match sleep_time with
  | Some t =>
      when (negb (Z.eqb t 0))
           (modify (with_save_daemon (fun d =>
              SaveDaemon.mk (SaveDaemon.go d) t (SaveDaemon.name d)
                            (SaveDaemon.funcs d) (SaveDaemon.pc d))))
  | None => ret tt
  end ;;
  d <- gets save_daemon ;;
  started <- lift (SaveDaemon.start d) ;;
  modify (with_save_daemon (fun _ => started)).

Definition stop_daemon : M unit :=
  modify (with_save_daemon SaveDaemon.stop).

(** How the daemon runs a registered method: an exception it raises is
    handed back, the registry keeps what the call did before. *)
Definition invoke_method (m : method) (dm : DataManager)
  : SaveDaemon.outcome * DataManager :=
  let '(r, dm') := match m with
                   | MSave => save dm
                   | MSaveCaches => save_caches dm
                   end in
  (match r with
   | Ok _ => SaveDaemon.Returns
   | Raise e => SaveDaemon.Raises e
   end, dm').

(** *** Reading the trace *)

(** The writes asked of the file layer: short name, payload, options. *)
Fixpoint save_requests (t : list event) : list (string * value * kwargs) :=
  match t with
  | [] => []
  | SmartSave name payload kw _ :: r => (name, payload, kw) :: save_requests r
  | _ :: r => save_requests r
  end.

(** The failures of the writes, and the exceptions logged. *)
Fixpoint failed_writes (t : list event) : list exn :=
  match t with
  | [] => []
  | SmartSave _ _ _ (Some e) :: r => e :: failed_writes r
  | _ :: r => failed_writes r
  end.

Fixpoint logged_exceptions (t : list event) : list exn :=
  match t with
  | [] => []
  | LogException e :: r => e :: logged_exceptions r
  | _ :: r => logged_exceptions r
  end.

(** An entry [save] writes: bound to a file, not flagged no-save, and
    not empty. *)
Definition persist_eligible (sh : Shared) (item : string * value) : bool :=
  bound sh (fst item) && negb (mem (fst item) (do_not_save sh))
  && truthy (snd item).

(** An entry [save_caches] writes: a disk-backed container bound to a
    file and not flagged no-save. *)
Definition cache_eligible (sh : Shared) (item : string * value) : bool :=
  bound sh (fst item) && negb (mem (fst item) (do_not_save sh))
  && is_cache (snd item).

(** What [save] asks for an entry, and what [save_caches] asks for a
    container. *)
Definition save_request (sh : Shared) (item : string * value)
  : string * value * kwargs :=
  (fst item, snd item, save_kwargs_for sh (fst item)).

Definition cache_request (sh : Shared) (item : string * value)
  : string * value * kwargs :=
  if is_set_or_deque (snd item)
  then (fst item, list_snapshot (snd item),
        ("mode"%string, SStr "w+") :: save_kwargs_for sh (fst item))
  else (fst item, dict_snapshot (snd item), save_kwargs_for sh (fst item)).


(** *** What the file layer answers *)

(** The answer of the file layer to one write, asked by short name on the
    files [w]: the files it leaves and its failure, if any. *)
Definition answer (sh : Shared) (w : FS) (req : string * value * kwargs)
  : FS * option exn :=
  match dict_get String.eqb (filemanager sh) (fst (fst req)) with
  | Some b => fm_smart_save w (snd b) (fst b) (snd (fst req)) (snd req)
  | None => (w, Some (KeyError (fst (fst req))))
  end.

(** The writes [reqs] asked one after the other, each on the files the
    one before left, whether that one failed or not: the files left in
    the end and the failures, in order. *)
Fixpoint write_all (sh : Shared) (w : FS)
         (reqs : list (string * value * kwargs)) : FS * list exn :=
  match reqs with
  | [] => (w, [])
  | req :: rest =>
      let '(w1, failure) := answer sh w req in
      let '(w2, failures) := write_all sh w1 rest in
      (w2, match failure with
           | Some e => e :: failures
           | None => failures
           end)
  end.



(** *** The rules of registration, in the specification's words *)

(** The file name and directory a path is bound to. *)
Definition file_binding (path_to_file : string) : string * string :=
  let '(file_path, file_name) := os_path_split path_to_file in
  (file_name, if String.eqb file_path "" then "."%string else file_path).

(** The load options handed to the file layer. *)
Definition load_options (load_kw : option kwargs) : kwargs :=
  match load_kw with
  | Some kw => kw
  | None => []
  end.

(** Reconciliation: loaded data that is not a mapping is numericized, then
    a set is merged by union, a sequence has the loaded elements appended,
    a mapping is updated key by key. *)
Definition reconciled (initial loaded : value) : option value :=
  match initial, loaded with
  | VSet s, VDict d => Some (VSet (set_update s (map fst d)))
  | VSet s, _ =>
      option_map (fun l => VSet (set_update s (_numericize l)))
                 (iterate loaded)
  | VList l0, VDict d => Some (VList (l0 ++ map fst d))
  | VList l0, _ =>
      option_map (fun l => VList (l0 ++ _numericize l)) (iterate loaded)
  | VDict d0, VDict d => Some (VDict (dict_update py_eqb d0 d))
  | _, _ => None
  end.

(** [isinstance(v, dict)] *)
Definition is_dict (v : value) : bool :=
  match v with VDict _ => true | _ => false end.

(** Text that reads as an integer, such as ["1"]. *)
Definition int_text (x : scalar) : bool :=
  match x with
  | SStr s => match int_of_str s with Some _ => true | None => false end
  | _ => false
  end.

(** Some text and the integer it reads as are both among [l]. *)
Definition coexist (l : list scalar) : Prop :=
  exists s n, In (SStr s) l /\ In (SInt n) l /\ int_of_str s = Some n.

(** The members of a set or sequence value. *)
Definition members_of (v : value) : list scalar :=
  match v with
  | VSet l | VList l => l
  | _ => []
  end.

(** The key a container is registered under, and its directory. *)
Definition cache_key (name sid : string) (append_session_id : bool)
  : string :=
  if append_session_id then (name ++ sid)%string else name.

Definition cache_path (key directory : string) : string :=
  os_path_join "cache" directory
    (if has_slash key
     then string_of_list_ascii
            (second_component (list_ascii_of_string key) false)
     else key).

(** The container of the shape of [initial] that [seed] seeds, opened on
    a directory where [found] was written last: what the directory holds
    stays, and a set container takes in the numericized elements of the
    seed, a sequence container has the elements appended, a map container
    has the items inserted, whose keys must be text. *)
Definition seeded_container (initial seed : value) (path : string)
           (found : option value) : option value :=
  match initial with
  | VSet _ =>
      option_map
        (fun l => VCacheSet (CacheSet.open (stored_members found)
                                           (_numericize l) path))
        (iterate seed)
  | VList _ =>
      option_map (fun l => VDeque path (stored_sequence found ++ l))
                 (iterate seed)
  | VDict _ =>
      match unpack_kwargs seed with
      | Ok kw =>
          Some (VEvictingIndex
                  (EvictingIndex.open (stored_entries found) path
                     default_max_entries
                     (map (fun kv => (SStr (fst kv), snd kv)) kw)))
      | Raise _ => None
      end
  | _ => None
  end.

(** The empty collection of the shape of [initial]. *)
Definition empty_like (initial : value) : value :=
  match initial with
  | VSet _ => VSet []
  | VList _ => VList []
  | _ => VDict []
  end.

(** [initial] is a set, a sequence or a mapping held in memory. *)
Definition is_collection (initial : value) : bool :=
  match initial with
  | VSet _ | VList _ | VDict _ => true
  | _ => false
  end.


(** *** Sequences of calls on one instance *)

Inductive operation : Type :=
| OpRegister (name : string) (data_ : value)
             (display append_session_id : bool)
| OpRegisterFile (name : string) (initial_data : value)
                 (path_to_file : string) (display load_ save_ : bool)
                 (save_kw load_kw : option kwargs)
| OpRegisterCache (name : string) (initial_data : value)
                  (path_to_file : option string) (display load_ save_ : bool)
                  (save_kw load_kw : option kwargs) (directory : string)
                  (append_session_id : bool)
| OpLoad (data_ loaded_data : value) (name : string)
| OpGet (k : string) (optional : value)
| OpFileUpdate (name : string) (data_ : value)
| OpSave
| OpSaveCaches
| OpClean
| OpStartSaveDaemon (sleep_time : option Z)
| OpStopDaemon.

(** The instance after a call, whether it returned or raised. *)
Definition perform (dm : DataManager) (op : operation) : DataManager :=
  match op with
  | OpRegister name v display app => snd (register name v display app dm)
  | OpRegisterFile name v path display load_ save_ skw lkw =>
      snd (register_file name v path display load_ save_ skw lkw dm)
  | OpRegisterCache name v path display load_ save_ skw lkw dir app =>
      snd (register_cache name v path display load_ save_ skw lkw dir app dm)
  | OpLoad v loaded name => snd (load v loaded name dm)
  | OpGet k optional => snd (get k optional dm)
  | OpFileUpdate name v => snd (file_update name v dm)
  | OpSave => snd (save dm)
  | OpSaveCaches => snd (save_caches dm)
  | OpClean => snd (clean dm)
  | OpStartSaveDaemon t => snd (start_save_daemon t dm)
  | OpStopDaemon => snd (stop_daemon dm)
  end.

Definition perform_all (dm : DataManager) (ops : list operation)
  : DataManager :=
  fold_left perform ops dm.

(** A method that leaves the session id of the instance alone. *)
Definition keeps_session_id {A} (m : M A) : Prop :=
  forall dm, session_id (snd (m dm)) = session_id dm.

End Registry.

(** The six decimal digits of a number between 100000 and 999999. *)
Definition six_digits (r : Z) : list Z :=
  [r / 100000; r / 10000 mod 10; r / 1000 mod 10; r / 100 mod 10;
   r / 10 mod 10; r mod 10]%Z.

(** ** A file layer to run the registry on *)

Module Example.

(** Files by path, each holding the value last written to it; a file
    named [locked.txt] cannot be written. *)
Definition SimpleFS : Type := list (string * value).

Definition file_key (dir file : string) : string :=
  (dir ++ "/" ++ file)%string.

Definition simple_files : FileManager SimpleFS :=
  {| fm_exists := fun w dir file =>
       dict_contains String.eqb w (file_key dir file);
     fm_smart_load := fun w dir file _ =>
       match dict_get String.eqb w (file_key dir file) with
       | Some v => Ok v
       | None => Raise (ExternalError "no such file")
       end;
     fm_smart_save := fun w dir file payload _ =>
       if String.eqb file "locked.txt"
       then (w, Some (ExternalError "locked"))
       else (dict_set String.eqb w (file_key dir file) payload, None) |}.

Definition two_entries : CacheTypes :=
  {| default_max_entries := 2;
     foreign_sequence := fun _ => [];
     foreign_members := fun _ => [];
     foreign_entries := fun _ => [] |}.

(** An interpreter with the default limit of CPython 3.11. *)
#[global] Instance cpython : Interpreter := {| int_max_str_digits := 4300 |}.

(** A fresh registry whose session id is ["123456"]. *)
Definition fresh (w : SimpleFS) : @DataManager SimpleFS :=
  __init__ [] 123456 Shared_initial w [].

(** The state a method leaves. *)
Definition after {A} (m : @M SimpleFS A) (dm : @DataManager SimpleFS)
  : @DataManager SimpleFS := snd (m dm).

(** A registry holding the unsuffixed entry ["x123456y"], a name that
    contains the session id. *)
Definition with_x : @DataManager SimpleFS :=
  after (@register SimpleFS "x123456y" (VAtom (SInt 5)) false false)
        (fresh []).

(** A registry holding the unsuffixed entries ["a"] and ["a123456"]. *)
Definition with_a : @DataManager SimpleFS :=
  after (@register SimpleFS "a123456" (VAtom (SInt 2)) false false)
        (after (@register SimpleFS "a" (VAtom (SInt 1)) false false)
               (fresh [])).

(** A file holding ["1"], 2 and ["3"]. *)
Definition numbers_on_disk : SimpleFS :=
  [("./s.txt"%string, VList [SStr "1"; SInt 2; SStr "3"])].

(** Two sequence containers bound to files, the first to the file that
    cannot be written. *)
Definition two_caches : @DataManager SimpleFS :=
  after (@register_cache SimpleFS simple_files two_entries cpython
           "b" (VList [SInt 2]) (Some "b.txt"%string) true false true
           None None "." false)
        (after (@register_cache SimpleFS simple_files two_entries cpython
                  "a" (VList [SInt 1]) (Some "locked.txt"%string) true false
                  true None None "." false)
               (fresh [])).


End Example.

(** ** The summary of the registry: [get_data_string] *)

Definition newline : string := String (ascii_of_nat 10) EmptyString.

Definition tab : string := String (ascii_of_nat 9) EmptyString.

(** [s.center(width, fillchar)]: the left margin gets the extra fill
    character when both the margin and the width are odd. *)
Definition str_center (s : string) (width : nat) (fill : ascii) : string :=
  let marg := width - String.length s in
  if width <=? String.length s
  then s
  else
    let left :=
      Nat.div marg 2 + (if Nat.odd marg && Nat.odd width then 1 else 0) in
    (string_of_list_ascii (repeat fill left) ++ s
     ++ string_of_list_ascii (repeat fill (marg - left)))%string.

(** [s.rstrip()] *)
Definition str_rstrip (s : string) : string :=
  string_of_list_ascii (rev (lstrip (rev (list_ascii_of_string s)))).

(** [len(v)] when [isinstance(v, Sized) and not isinstance(v, (str,
    bytes))]: text has a length but is left out, numbers, [None] and
    classes have none. *)
Definition sized_len (v : value) : option nat :=
  match v with
  | VAtom _ | VType _ => None
  | VSet l | VList l | VDeque _ l => Some (List.length l)
  | VDict d | VIndex _ d => Some (List.length d)
  | VCacheSet c => Some (List.length (CacheSet.members c))
  | VEvictingIndex c => Some (List.length (EvictingIndex.entries c))
  end.

(** The first and the last line, and the line of an entry. *)
Definition summary_header : string :=
  (newline ++ tab ++ tab ++ "    <" ++ str_center "TOTALS" 55 "-" ++ ">"
   ++ newline)%string.

Definition summary_footer : string :=
  (tab ++ tab ++ "    <" ++ str_center "END TOTALS" 55 "-" ++ ">"
   ++ newline)%string.

Definition summary_line (k : string) (n : nat) : string :=
  (tab ++ tab ++ tab ++ "    " ++ k ++ ": " ++ str_of_int (Z.of_nat n)
   ++ newline)%string.

Section Summary.
Context {FS : Type}.

(** The body of the loop of [get_data_string]: an entry that is not to be
    displayed, or that has no length to show, adds nothing. *)
Definition summary_step (sh : Shared) (text : string)
           (item : string * value) : string :=
  let '(k, v) := item in
  if mem k (do_not_display sh)
  then text
  else
    match sized_len v with
    | Some n => (text ++ summary_line k n)%string
    | None => text
    end.

(** [get_data_string]; [text] is the variable [string] of the source. *)
Definition get_data_string : @M FS string :=
  bind (gets data) (fun items =>
  bind (gets shared) (fun sh =>
    let text := EmptyString in
    let text := (text ++ summary_header)%string in
    let text := fold_left (summary_step sh) items text in
    let text := (text ++ summary_footer)%string in
    ret (str_rstrip text))).

(** The entries the summary shows, with the size shown for each. *)
Definition displayed (dm : @DataManager FS) : list (string * nat) :=
  flat_map (fun item =>
              if mem (fst item) (do_not_display (shared dm))
              then []
              else match sized_len (snd item) with
                   | Some n => [(fst item, n)]
                   | None => []
                   end)
           (data dm).

(** What [clean] makes of an entry: a container bound to a file is
    emptied, anything else is left alone. *)
Definition clean_item (sh : Shared) (item : string * value)
  : string * value :=
  if bound sh (fst item) && is_cache (snd item)
  then (fst item, cleared (snd item))
  else item.

(** The directories [clean] removes, in order. *)
Definition cleaned_directories (sh : Shared) (d : list (string * value))
  : list string :=
  map (fun item => directory_of (snd item))
      (filter (fun item => bound sh (fst item) && is_cache (snd item)) d).

End Summary.

(** The last line of the summary once the final newline is stripped. *)
Definition summary_last_line : string :=
  (tab ++ tab ++ "    <" ++ str_center "END TOTALS" 55 "-" ++ ">")%string.

(** The lines of the entries shown, one after the other. *)
Definition summary_lines (shown : list (string * nat)) : string :=
  fold_right (fun kn rest => (summary_line (fst kn) (snd kn) ++ rest)%string)
             EmptyString shown.

Section Flags.
Context {FS : Type}.

(** Every name flagged in [dm] is still flagged in [dm']: hidden from the
    summary, excluded from saving, recorded as unsuffixed. *)
Definition flags_kept (dm dm' : @DataManager FS) : Prop :=
  forall x,
    (mem x (do_not_display (shared dm)) = true ->
     mem x (do_not_display (shared dm')) = true) /\
    (mem x (do_not_save (shared dm)) = true ->
     mem x (do_not_save (shared dm')) = true) /\
    (mem x (do_not_append_session_id (shared dm)) = true ->
     mem x (do_not_append_session_id (shared dm')) = true).

(** A method that clears no flag. *)
Definition keeps_flags {A} (m : @M FS A) : Prop :=
  forall dm, flags_kept dm (snd (m dm)).

(** The names of the writes asked. *)
Definition requested_names (t : list event) : list string :=
  map (fun q => fst (fst q)) (save_requests t).

End Flags.

(** A Python dictionary holds a key once. *)
Definition unique_keys (d : list (string * value)) : Prop :=
  NoDup (map fst d).

(** [name] holds no decimal digit. *)
Definition digit_free (name : string) : bool :=
  forallb (fun c => match digit_of c with Some _ => false | None => true end)
          (list_ascii_of_string name).

(** [name] holds no slash. *)
Definition slash_free (name : string) : bool := negb (has_slash name).

(** ** A whole round of the daemon *)

Section Round.
Context {W callback : Type}.
Variable invoke : callback -> W -> SaveDaemon.outcome * W.






End Round.

(** ** What a method leaves true *)

Section Preserved.
Context {FS : Type}.

(** [m] leaves [P] true when it finds it true, whether it returns or
    raises. *)
Definition preserves {A} (P : @DataManager FS -> Prop) (m : @M FS A)
  : Prop :=
  forall dm, P dm -> P (snd (m dm)).

(** The daemon of the registry has been told to stop. *)
Definition told_to_stop (dm : @DataManager FS) : Prop :=
  SaveDaemon.go (save_daemon dm) = false.

(** [Thread.start()] has been called on the daemon of the registry. *)
Definition was_started (dm : @DataManager FS) : Prop :=
  SaveDaemon.pc (save_daemon dm) <> SaveDaemon.NotStarted.

(** The sleep interval [start_save_daemon(sleep_time)] leaves. *)
Definition interval_after (sleep_time : option Z) (old : Z) : Z :=
  match sleep_time with
  | Some t => if Z.eqb t 0 then old else t
  | None => old
  end.

End Preserved.

(** ** More registries to run the methods on *)

Module Sample.

(** A sequence container bound to a file and an in-memory sequence. *)
Definition one_cache : @DataManager Example.SimpleFS :=
  Example.after
    (@register Example.SimpleFS "mem" (VList [SInt 3]) true false)
    (Example.after
       (@register_cache Example.SimpleFS Example.simple_files
          Example.two_entries Example.cpython
          "b" (VList [SInt 2]) (Some "b.txt"%string)
          true false true None None "." false)
       (Example.fresh [])).

(** A sequence container registered with a save option named [mode]. *)
Definition moded_deque : @DataManager Example.SimpleFS :=
  Example.after
    (@register_cache Example.SimpleFS Example.simple_files
       Example.two_entries Example.cpython
       "q" (VList [SInt 1]) (Some "q.txt"%string) true
       false true (Some [("mode"%string, SStr "a")]) None "." false)
    (Example.fresh []).

(** A sequence container bound to a file and registered with
    [save=False]. *)
Definition unsaved_deque : @DataManager Example.SimpleFS :=
  Example.after
    (@register_cache Example.SimpleFS Example.simple_files
       Example.two_entries Example.cpython "u" (VList [SInt 1; SInt 2])
       (Some "u.txt"%string) true false false None None "." false)
    (Example.fresh []).

End Sample.

(* ================================================================== *)
(** * Part II. Properties                                              *)
(* ================================================================== *)

(** ** The bounded map container *)

Section EvictingIndexFacts.
Import EvictingIndex.

Lemma py_eqb_sym (a b : scalar) : py_eqb a b = py_eqb b a.
Proof.
  destruct a as [x|x|x|], b as [y|y|y|]; simpl;
    auto using Z.eqb_sym, String.eqb_sym.
  all: repeat match goal with b : bool |- _ => destruct b end; reflexivity.
Qed.


Lemma py_eqb_trans (a b c : scalar) :
  py_eqb a b = true -> py_eqb b c = true -> py_eqb a c = true.
Proof.
  destruct a as [x|x|x|], b as [y|y|y|], c as [z|z|z|]; simpl;
    rewrite ?Z.eqb_eq, ?String.eqb_eq, ?Bool.eqb_true_iff;
    try discriminate; try congruence.
  all: intros; subst; try reflexivity.
  all: repeat match goal with b : bool |- _ => destruct b end;
    simpl in *; congruence.
Qed.

(** Equal keys are interchangeable in comparisons. *)
Lemma py_eqb_congr (a b c : scalar) :
  py_eqb a b = true -> py_eqb c a = py_eqb c b.
Proof.
  intros Hab.
  destruct (py_eqb c a) eqn:Hca, (py_eqb c b) eqn:Hcb; try reflexivity.
  - rewrite (py_eqb_trans _ _ _ Hca Hab) in Hcb. discriminate.
  - rewrite py_eqb_sym in Hab.
    rewrite (py_eqb_trans _ _ _ Hcb Hab) in Hca. discriminate.
Qed.









(** *** Recency, read off the history *)

















End EvictingIndexFacts.

(** ** The persistence daemon *)

Section SaveDaemonFacts.
Import SaveDaemon.
Context {W callback : Type}.
Variable invoke : callback -> W -> outcome * W.

Local Abbreviation system := (@system W callback).
Local Abbreviation act := (act invoke).
Local Abbreviation exec := (exec invoke).

Lemma calls_app (l1 l2 : list output) :
  calls (l1 ++ l2) = calls l1 + calls l2.
Proof. unfold calls. rewrite filter_app, length_app. reflexivity. Qed.

Lemma sleeps_app (l1 l2 : list output) :
  sleeps (l1 ++ l2) = sleeps l1 + sleeps l2.
Proof. unfold sleeps. rewrite filter_app, length_app. reflexivity. Qed.

(** One action on a daemon told to stop: the flag stays cleared, the
    callbacks stay the same, and what is logged is paid for by the
    callbacks and the sleep the current round still owes. *)
Lemma act_after_stop (s : system) (a : action) :
  go (daemon s) = false ->
  go (daemon (act s a)) = false /\
  funcs (daemon (act s a)) = funcs (daemon s) /\
  exists new,
    log (act s a) = log s ++ new /\
    calls new + left_in_round (daemon (act s a))
    <= left_in_round (daemon s) /\
    sleeps new + sleeps_left (daemon (act s a))
    <= sleeps_left (daemon s).
Proof.
  intros Hgo. destruct s as [d w l]. simpl in Hgo.
  destruct a; simpl.
  - (* the thread steps *)
    unfold thread_step, left_in_round, sleeps_left. simpl.
    destruct (pc d) as [| |i| |] eqn:Hpc; simpl.
    + rewrite Hpc. repeat split; auto.
      exists []. rewrite app_nil_r. simpl. auto.
    + rewrite Hgo. simpl. repeat split; auto.
      exists []. rewrite app_nil_r. simpl. auto.
    + destruct (nth_error (funcs d) i) as [func|] eqn:Hnth.
      * assert (i < List.length (funcs d))
          by (apply nth_error_Some; congruence).
        destruct (invoke func w) as [[|e|what] w']; simpl;
          repeat split; auto;
          eexists; (split; [reflexivity|]);
          unfold calls, sleeps; simpl; lia.
      * simpl. repeat split; auto.
        exists []. rewrite app_nil_r. simpl. split; [reflexivity|]. lia.
    + destruct (sleep d <? 0)%Z; simpl; repeat split; auto;
        eexists; (split; [reflexivity|]);
        unfold calls, sleeps; simpl; auto.
    + rewrite Hpc. repeat split; auto.
      exists []. rewrite app_nil_r. simpl. auto.
  - (* a further stop *)
    unfold left_in_round, sleeps_left. simpl. repeat split; auto.
    exists []. rewrite app_nil_r. simpl. auto.
  - (* start *)
    unfold start, left_in_round, sleeps_left.
    destruct (pc d) eqn:Hpc; simpl; rewrite ?Hpc;
      repeat split; auto; exists []; rewrite app_nil_r; simpl; auto.
Qed.

Lemma exec_after_stop (schedule : list action) (s : system) :
  go (daemon s) = false ->
  exists new,
    log (exec s schedule) = log s ++ new /\
    calls new <= left_in_round (daemon s) /\
    sleeps new <= sleeps_left (daemon s).
Proof.
  revert s. induction schedule as [|a schedule IH]; intros s Hgo; simpl.
  - exists []. rewrite app_nil_r. unfold calls, sleeps. simpl.
    repeat split; lia.
  - destruct (act_after_stop s a Hgo) as (Hgo' & _ & new1 & Hl1 & Hc1 & Hs1).
    destruct (IH (act s a) Hgo') as (new2 & Hl2 & Hc2 & Hs2).
    exists (new1 ++ new2). unfold exec in *. simpl.
    rewrite Hl2, Hl1, <- app_assoc, calls_app, sleeps_app.
    repeat split; lia.
Qed.

(** Every step of a started thread told to stop brings it one step
    closer to the end of [run]. *)
Lemma act_towards_halt (s : system) (a : action) :
  go (daemon s) = false ->
  pc (daemon s) <> NotStarted ->
  pc (daemon (act s a)) <> NotStarted /\
  steps_to_halt (daemon (act s a))
  <= steps_to_halt (daemon s) - (if is_tick a then 1 else 0).
Proof.
  intros Hgo Hstarted. destruct s as [d w l]. simpl in *.
  destruct a; simpl.
  - unfold thread_step, steps_to_halt. simpl.
    destruct (pc d) as [| |i| |] eqn:Hpc; simpl; try congruence.
    + rewrite Hgo. simpl. split; [congruence|lia].
    + destruct (nth_error (funcs d) i) as [func|] eqn:Hnth.
      * assert (i < List.length (funcs d))
          by (apply nth_error_Some; congruence).
        destruct (invoke func w) as [[|e|what] w']; simpl;
          (split; [congruence|lia]).
      * simpl. apply nth_error_None in Hnth.
        split; [congruence|lia].
    + destruct (sleep d <? 0)%Z; simpl; (split; [congruence|lia]).
    + rewrite Hpc. split; [congruence|lia].
  - unfold steps_to_halt. simpl. split; [assumption|lia].
  - unfold start, steps_to_halt.
    destruct (pc d) eqn:Hpc; simpl; rewrite ?Hpc;
      split; try congruence; lia.
Qed.

Lemma exec_halts (schedule : list action) (s : system) :
  go (daemon s) = false ->
  pc (daemon s) <> NotStarted ->
  steps_to_halt (daemon s) <= ticks schedule ->
  pc (daemon (exec s schedule)) = Halted.
Proof.
  revert s. induction schedule as [|a schedule IH];
    intros s Hgo Hstarted Hsteps.
  - simpl. unfold ticks, steps_to_halt in Hsteps. simpl in Hsteps.
    destruct (pc (daemon s)); try lia; congruence.
  - simpl.
    destruct (act_after_stop s a Hgo) as (Hgo' & _).
    destruct (act_towards_halt s a Hgo Hstarted) as (Hstarted' & Hdec).
    apply IH; auto.
    unfold ticks in *. simpl in Hsteps.
    destruct (is_tick a); simpl in Hsteps; lia.
Qed.

(** A thread whose [run] has returned stays so, whatever is asked. *)
Lemma halted_forever (schedule : list action) (s : system) :
  pc (daemon s) = Halted -> pc (daemon (exec s schedule)) = Halted.
Proof.
  revert s. induction schedule as [|a schedule IH]; intros s Hh; simpl.
  - exact Hh.
  - apply IH. destruct s as [d w l]. simpl in *.
    destruct a; simpl; auto.
    + unfold thread_step. simpl. rewrite Hh. exact Hh.
    + unfold start. rewrite Hh. exact Hh.
Qed.

(** C6. Once [stop] has cleared the [go] flag, whatever the owner and the
    thread do next: the call itself leaves the thread where it stands (it
    is never halted on the spot, and a callback about to run still runs);
    the callbacks run afterwards are at most those the round in progress
    still owes, hence at most one round, with at most one sleep; and a
    started thread has halted after at most one round, one sleep and two
    tests of the flag, and stays halted. *)
Theorem stop_allows_at_most_one_round
        (s : system) (schedule : list action) :
  let stopped := act s Stop in
  let final := exec stopped schedule in
  pc (daemon stopped) = pc (daemon s) /\
  (forall i func,
      pc (daemon s) = InRound i ->
      nth_error (funcs (daemon s)) i = Some func ->
      exists printed,
        log (act stopped Tick) = log s ++ Called i :: printed) /\
  (exists new,
      log final = log s ++ new /\
      calls new <= left_in_round (daemon s) /\
      left_in_round (daemon s) <= List.length (funcs (daemon s)) /\
      sleeps new <= 1) /\
  steps_to_halt (daemon s) <= List.length (funcs (daemon s)) + 3 /\
  (pc (daemon s) <> NotStarted ->
   steps_to_halt (daemon s) <= ticks schedule ->
   pc (daemon final) = Halted /\
   forall more, pc (daemon (exec final more)) = Halted).
Proof.
  intros stopped final.
  assert (Hgo : go (daemon stopped) = false) by reflexivity.
  split; [reflexivity|]. split.
  { intros i func Hpc Hnth. subst stopped. destruct s as [d w l].
    simpl in *. unfold thread_step. simpl. rewrite Hpc, Hnth.
    destruct (invoke func w) as [[|e|what] w']; simpl; eauto. }
  split.
  { destruct (exec_after_stop schedule stopped Hgo) as (new & Hl & Hc & Hs).
    exists new. split; [exact Hl|]. split; [exact Hc|].
    unfold left_in_round, sleeps_left in *. simpl in *.
    destruct (pc (daemon s)); simpl in *; split; lia. }
  split.
  { unfold steps_to_halt. destruct (pc (daemon s)); lia. }
  intros Hstarted Hsteps.
  assert (Hh : pc (daemon final) = Halted)
    by (apply exec_halts; auto).
  split; [exact Hh|]. intros more. apply halted_forever. exact Hh.
Qed.

End SaveDaemonFacts.

(** A daemon with two callbacks, stopped while it is about to run the
    second one: that callback still runs, then the thread sleeps once and
    halts. *)
Lemma stop_allows_at_most_one_round_witness :
  let invoke :=
    fun (c : nat) (w : list nat) => (SaveDaemon.Returns, w ++ [c]) in
  let d := SaveDaemon.mk true 15 "DataManager.SaveDaemon" [1; 2]
                         (SaveDaemon.InRound 1) in
  let s := SaveDaemon.mk_system d [1] [SaveDaemon.Called 0] in
  let schedule := repeat (@SaveDaemon.Tick) 4 in
  SaveDaemon.pc (SaveDaemon.daemon s) <> SaveDaemon.NotStarted /\
  SaveDaemon.steps_to_halt (SaveDaemon.daemon s)
  <= SaveDaemon.ticks schedule /\
  SaveDaemon.pc
    (SaveDaemon.daemon
       (SaveDaemon.exec invoke (SaveDaemon.act invoke s SaveDaemon.Stop)
                        schedule))
  = SaveDaemon.Halted.
Proof.
  intros invoke d s schedule.
  assert (Hstarted : SaveDaemon.pc (SaveDaemon.daemon s)
                     <> SaveDaemon.NotStarted) by discriminate.
  assert (Hsteps : SaveDaemon.steps_to_halt (SaveDaemon.daemon s)
                   <= SaveDaemon.ticks schedule) by (vm_compute; lia).
  split; [exact Hstarted|]. split; [exact Hsteps|].
  exact (proj1 (proj2 (proj2 (proj2 (proj2
           (stop_allows_at_most_one_round invoke s schedule))))
           Hstarted Hsteps)).
Defined.

(** ** The session id *)

Section SessionIdFacts.
Context {FS : Type} `{FileManager FS} `{CacheTypes} {interp : Interpreter}.
Local Open Scope Z_scope.

Lemma digit_char_inj (a b : Z) :
  0 <= a < 10 -> 0 <= b < 10 -> digit_char a = digit_char b -> a = b.
Proof.
  intros Ha Hb Heq. unfold digit_char in Heq.
  apply (f_equal nat_of_ascii) in Heq.
  rewrite !nat_ascii_embedding in Heq by lia. lia.
Qed.

Ltac div_lia := Z.div_mod_to_equations; lia.

(** [str] of a six-digit number is its six digits. *)
Lemma str_of_int_six_digits (r : Z) :
  100000 <= r <= 999999 ->
  str_of_int r = string_of_list_ascii (map digit_char (six_digits r)).
Proof.
  intros Hr. unfold str_of_int.
  assert (Hneg : (r <? 0) = false) by (apply Z.ltb_ge; lia).
  rewrite Hneg. f_equal.
  assert (Hfuel : exists k, digit_fuel r = (6 + k)%nat).
  { unfold digit_fuel.
    assert (16 <= Z.log2 r).
    { change 16 with (Z.log2 100000). apply Z.log2_le_mono. lia. }
    exists (Z.to_nat (Z.log2 r) - 5)%nat. lia. }
  destruct Hfuel as (k & ->).
  assert (H1 : (r / 10 =? 0) = false) by (apply Z.eqb_neq; div_lia).
  assert (H2 : (r / 10 / 10 =? 0) = false) by (apply Z.eqb_neq; div_lia).
  assert (H3 : (r / 10 / 10 / 10 =? 0) = false)
    by (apply Z.eqb_neq; div_lia).
  assert (H4 : (r / 10 / 10 / 10 / 10 =? 0) = false)
    by (apply Z.eqb_neq; div_lia).
  assert (H5 : (r / 10 / 10 / 10 / 10 / 10 =? 0) = false)
    by (apply Z.eqb_neq; div_lia).
  assert (H6 : (r / 10 / 10 / 10 / 10 / 10 / 10 =? 0) = true)
    by (apply Z.eqb_eq; div_lia).
  cbn [Nat.add digits_of]. rewrite H1, H2, H3, H4, H5, H6.
  unfold six_digits. cbn [map].
  repeat (apply (f_equal2 (@cons ascii));
          [apply (f_equal digit_char); div_lia|]).
  reflexivity.
Qed.

Lemma str_of_int_inj (r1 r2 : Z) :
  100000 <= r1 <= 999999 -> 100000 <= r2 <= 999999 ->
  str_of_int r1 = str_of_int r2 -> r1 = r2.
Proof.
  intros H1 H2 Heq.
  rewrite !str_of_int_six_digits in Heq by assumption.
  apply (f_equal list_ascii_of_string) in Heq.
  rewrite !list_ascii_of_string_of_list_ascii in Heq.
  unfold six_digits in Heq. cbn [map] in Heq.
  injection Heq as E5 E4 E3 E2 E1 E0.
  apply digit_char_inj in E5, E4, E3, E2, E1, E0; div_lia.
Qed.

Local Close Scope Z_scope.

(** *** No method writes the session id *)

Lemma keeps_ret {A} (a : A) : keeps_session_id (@ret FS A a).
Proof. intros dm. reflexivity. Qed.

Lemma keeps_raise {A} (e : exn) : keeps_session_id (@raise FS A e).
Proof. intros dm. reflexivity. Qed.

Lemma keeps_gets {A} (f : @DataManager FS -> A) :
  keeps_session_id (gets f).
Proof. intros dm. reflexivity. Qed.

Lemma keeps_lift {A} (r : result A) : keeps_session_id (@lift FS A r).
Proof. intros dm. destruct r; reflexivity. Qed.

Lemma keeps_modify (f : @DataManager FS -> @DataManager FS) :
  (forall dm, session_id (f dm) = session_id dm) ->
  keeps_session_id (modify f).
Proof. intros Hf dm. simpl. apply Hf. Qed.

Lemma keeps_bind {A B} (m : @M FS A) (k : A -> @M FS B) :
  keeps_session_id m -> (forall a, keeps_session_id (k a)) ->
  keeps_session_id (bind m k).
Proof.
  intros Hm Hk dm. unfold bind. specialize (Hm dm).
  destruct (m dm) as [[a|e] dm']; simpl in *.
  - rewrite Hk. exact Hm.
  - exact Hm.
Qed.

Lemma keeps_try_except (body : @M FS unit) (handler : exn -> @M FS unit) :
  keeps_session_id body -> (forall e, keeps_session_id (handler e)) ->
  keeps_session_id (try_except body handler).
Proof.
  intros Hb Hh dm. unfold try_except. specialize (Hb dm).
  destruct (body dm) as [[[]|e] dm']; simpl in *.
  - exact Hb.
  - rewrite Hh. exact Hb.
Qed.

Lemma keeps_for_each {A} (l : list A) (body : A -> @M FS unit) :
  (forall x, keeps_session_id (body x)) ->
  keeps_session_id (for_each l body).
Proof.
  intros Hbody. induction l as [|x l IH]; simpl.
  - apply keeps_ret.
  - apply keeps_bind; auto.
Qed.

Lemma keeps_when (b : bool) (m : @M FS unit) :
  keeps_session_id m -> keeps_session_id (when b m).
Proof. intros Hm. destruct b; simpl; [exact Hm | apply keeps_ret]. Qed.

Ltac keeps_unfold :=
  unfold emit, setitem, getitem, binding, fm_register_file, exists_,
    smart_load, smart_save, append_do_not_display, append_do_not_save,
    append_do_not_append_session_id, set_save_kwargs, set_load_kwargs,
    update_in_place, extend_in_place, persist, held, write_directory,
    remove_directory.

(** Breaks a method down to the primitives above. *)
Ltac keeps :=
  repeat
    (keeps_unfold;
     match goal with
     | |- keeps_session_id (bind _ _) => apply keeps_bind; [|intros]
     | |- keeps_session_id (ret _) => apply keeps_ret
     | |- keeps_session_id (raise _) => apply keeps_raise
     | |- keeps_session_id (gets _) => apply keeps_gets
     | |- keeps_session_id (lift _) => apply keeps_lift
     | |- keeps_session_id (when _ _) => apply keeps_when
     | |- keeps_session_id (for_each _ _) => apply keeps_for_each; intros
     | |- keeps_session_id (try_except _ _) =>
         apply keeps_try_except; [|intros]
     | |- keeps_session_id (modify _) =>
         apply keeps_modify; intros; reflexivity
     | |- keeps_session_id (match ?x with _ => _ end) => destruct x
     end).

Lemma keeps_register name v display app :
  keeps_session_id (FS := FS) (register name v display app).
Proof. unfold register. keeps. Qed.

Lemma keeps_load v loaded name :
  keeps_session_id (FS := FS) (load v loaded name).
Proof. unfold load. keeps. Qed.

Lemma keeps_register_file name v path display load_ save_ skw lkw :
  keeps_session_id (FS := FS)
    (register_file name v path display load_ save_ skw lkw).
Proof.
  unfold register_file, record_options. keeps;
    auto using keeps_register, keeps_load.
Qed.

Lemma keeps_create_cache v loaded name dir :
  keeps_session_id (FS := FS) (_create_cache v loaded name dir).
Proof. unfold _create_cache. keeps. Qed.

Lemma keeps_register_cache name v path display load_ save_ skw lkw dir app :
  keeps_session_id (FS := FS)
    (register_cache name v path display load_ save_ skw lkw dir app).
Proof.
  unfold register_cache, record_options. keeps;
    auto using keeps_create_cache.
Qed.

Lemma keeps_get k optional : keeps_session_id (FS := FS) (get k optional).
Proof. unfold get. keeps. Qed.

Lemma keeps_save : keeps_session_id (FS := FS) save.
Proof. unfold save, save_entry. keeps. Qed.

Lemma keeps_save_caches : keeps_session_id (FS := FS) save_caches.
Proof. unfold save_caches, save_caches_entry. keeps. Qed.

Lemma keeps_clean : keeps_session_id (FS := FS) clean.
Proof. unfold clean, clean_entry. keeps. Qed.

Lemma keeps_start_save_daemon t :
  keeps_session_id (FS := FS) (start_save_daemon t).
Proof. unfold start_save_daemon. keeps. Qed.

Lemma perform_keeps_session_id (dm : @DataManager FS) (op : operation) :
  session_id (perform dm op) = session_id dm.
Proof.
  destruct op; simpl.
  - apply keeps_register.
  - apply keeps_register_file.
  - apply keeps_register_cache.
  - apply keeps_load.
  - apply keeps_get.
  - apply keeps_register || reflexivity.
  - apply keeps_save.
  - apply keeps_save_caches.
  - apply keeps_clean.
  - apply keeps_start_save_daemon.
  - reflexivity.
Qed.

(** C7. The session id is set by the constructor to the decimal text of the
    number drawn between 100000 and 999999: six characters, different for
    different draws, so that the 900000 numbers of the range give 900000
    session ids; and no sequence of calls on the instance changes it. *)
Theorem session_id_assigned_once :
  (forall args sh (w : FS) disk r,
      randint 100000 999999 r ->
      session_id (__init__ args r sh w disk)
      = string_of_list_ascii (map digit_char (six_digits r)) /\
      String.length (session_id (__init__ args r sh w disk)) = 6) /\
  (forall args1 args2 sh1 sh2 (w1 w2 : FS) disk1 disk2 r1 r2,
      randint 100000 999999 r1 -> randint 100000 999999 r2 ->
      session_id (__init__ args1 r1 sh1 w1 disk1)
      = session_id (__init__ args2 r2 sh2 w2 disk2) ->
      r1 = r2) /\
  (999999 - 100000 + 1 = 900000)%Z /\
  (forall (dm : @DataManager FS) (ops : list operation),
      session_id (perform_all dm ops) = session_id dm).
Proof.
  split; [|split; [|split]].
  - intros args sh w disk r Hr. simpl.
    rewrite (str_of_int_six_digits Hr). split; reflexivity.
  - intros args1 args2 sh1 sh2 w1 w2 disk1 disk2 r1 r2 H1 H2. simpl.
    apply str_of_int_inj; assumption.
  - reflexivity.
  - intros dm ops. unfold perform_all. revert dm.
    induction ops as [|op ops IH]; intros dm; simpl.
    + reflexivity.
    + rewrite IH. apply perform_keeps_session_id.
Qed.

End SessionIdFacts.

Lemma session_id_assigned_once_witness :
  randint 100000 999999 123456 /\
  session_id (Example.fresh []) = "123456"%string /\
  String.length (session_id (Example.fresh [])) = 6.
Proof.
  assert (Hr : randint 100000 999999 123456) by (unfold randint; lia).
  split; [exact Hr|].
  exact (proj1 (@session_id_assigned_once Example.SimpleFS
                  Example.simple_files Example.two_entries Example.cpython)
               [] Shared_initial [] [] 123456%Z Hr).
Defined.

(** ** Text replacement *)

Section ReplaceFacts.

Lemma is_prefix_app (p r : list ascii) : is_prefix p (p ++ r) = true.
Proof.
  induction p as [|c p IH]; simpl; [reflexivity|].
  rewrite Ascii.eqb_refl. exact IH.
Qed.

Lemma is_prefix_length (p s : list ascii) :
  is_prefix p s = true -> List.length p <= List.length s.
Proof.
  revert s. induction p as [|c p IH]; intros [|d s] Hp; simpl in *;
    try lia; try discriminate.
  apply andb_prop in Hp as [_ Hp]. apply IH in Hp. lia.
Qed.

(** The scan never yields more than it reads past the skipped part. *)
Lemma replace_from_length (old : list ascii) (s : list ascii) (k : nat) :
  List.length (replace_from old [] k s) + Nat.min k (List.length s)
  <= List.length s.
Proof.
  revert k. induction s as [|c s IH]; intros k; simpl.
  - lia.
  - destruct k as [|k].
    + destruct (is_prefix old (c :: s)) eqn:Hp; simpl.
      * specialize (IH (List.length old - 1)).
        apply is_prefix_length in Hp. simpl in Hp. lia.
      * specialize (IH 0). simpl in IH. lia.
    + specialize (IH k). lia.
Qed.

(** An occurrence of [old] beyond the skipped part is removed. *)
Lemma replace_from_removes_one (old a b : list ascii) (k : nat) :
  old <> [] ->
  k <= List.length a ->
  List.length (replace_from old [] k (a ++ old ++ b)) + k + List.length old
  <= List.length (a ++ old ++ b).
Proof.
  intros Hold. revert k.
  induction a as [|c a IH]; intros k Hk.
  - assert (k = 0) by (simpl in Hk; lia). subst k. simpl.
    destruct old as [|o old]; [congruence|]. simpl.
    rewrite Ascii.eqb_refl, is_prefix_app. simpl.
    pose proof (replace_from_length (o :: old) (old ++ b)
                                    (List.length old - 0)) as Hl.
    rewrite length_app in Hl. simpl in Hl. rewrite length_app. lia.
  - simpl. destruct k as [|k].
    + destruct (is_prefix old (c :: a ++ old ++ b)) eqn:Hp; simpl.
      * pose proof (replace_from_length old (a ++ old ++ b)
                                        (List.length old - 1)) as Hl.
        apply is_prefix_length in Hp. simpl in Hp.
        destruct old; [congruence|]. simpl in *. lia.
      * specialize (IH 0 ltac:(lia)). lia.
    + specialize (IH k ltac:(simpl in Hk; lia)). lia.
Qed.

(** Of two occurrences lying one after the other, both are removed. *)
Lemma replace_from_removes_two (old a a2 b : list ascii) (k : nat) :
  old <> [] ->
  k <= List.length a ->
  List.length (replace_from old [] k ((a ++ old ++ a2) ++ old ++ b))
  + k + 2 * List.length old
  <= List.length ((a ++ old ++ a2) ++ old ++ b).
Proof.
  intros Hold. revert k.
  induction a as [|c a IH]; intros k Hk.
  - assert (k = 0) by (simpl in Hk; lia). subst k.
    destruct old as [|o old]; [congruence|].
    cbn [app replace_from is_prefix].
    rewrite Ascii.eqb_refl. rewrite <- !app_assoc, is_prefix_app.
    cbn [andb app List.length Nat.sub].
    rewrite ?Nat.sub_0_r.
    pose proof (@replace_from_removes_one (o :: old) (old ++ a2) b
                  (List.length old) ltac:(discriminate)
                  ltac:(rewrite length_app; lia)) as Hl.
    rewrite <- !app_assoc in Hl.
    replace (List.length (o :: old) - 1) with (List.length old)
      by (simpl; lia).
    cbn [app List.length] in *. lia.
  - cbn [app replace_from]. destruct k as [|k].
    + destruct (is_prefix old (c :: (a ++ old ++ a2) ++ old ++ b)) eqn:Hp.
      * simpl.
        pose proof (@replace_from_removes_one old (a ++ old ++ a2) b
                      (List.length old - 1) Hold
                      ltac:(rewrite !length_app; lia)) as Hl.
        destruct old; [congruence|]. cbn [List.length] in *. lia.
      * specialize (IH 0 ltac:(lia)). cbn [List.length]. lia.
    + specialize (IH k ltac:(simpl in Hk; lia)). cbn [List.length]. lia.
Qed.

Lemma list_ascii_of_string_app (a b : string) :
  list_ascii_of_string (a ++ b)
  = list_ascii_of_string a ++ list_ascii_of_string b.
Proof. induction a as [|c a IH]; simpl; [reflexivity|]. now rewrite IH. Qed.

Lemma string_length_list (s : string) :
  String.length s = List.length (list_ascii_of_string s).
Proof. induction s as [|c s IH]; simpl; [reflexivity|]. now rewrite IH. Qed.

Lemma string_length_of_list (l : list ascii) :
  String.length (string_of_list_ascii l) = List.length l.
Proof. induction l as [|c l IH]; simpl; [reflexivity|]. now rewrite IH. Qed.

(** Stripping the session id from [name + session_id] when [name] already
    contains it yields a key shorter than [name]. *)
Lemma strip_shortens (name sid : string) :
  sid <> ""%string ->
  contains sid name ->
  String.length (str_replace (name ++ sid) sid "") + String.length sid
  <= String.length name.
Proof.
  intros Hsid (a & b & ->). unfold str_replace.
  assert (Hold : list_ascii_of_string sid <> []).
  { destruct sid; [congruence|discriminate]. }
  destruct (list_ascii_of_string sid) as [|o old] eqn:Hl; [congruence|].
  rewrite string_length_of_list.
  rewrite !list_ascii_of_string_app, Hl. simpl list_ascii_of_string.
  pose proof (@replace_from_removes_two (o :: old) (list_ascii_of_string a)
                (list_ascii_of_string b) [] 0 ltac:(discriminate)
                ltac:(lia)) as Hr.
  rewrite app_nil_r in Hr.
  rewrite !string_length_list, !list_ascii_of_string_app, Hl.
  rewrite !length_app in *. cbn [List.length] in *. lia.
Qed.

Lemma is_prefix_split (p s : list ascii) :
  is_prefix p s = true -> exists r, s = p ++ r.
Proof.
  revert s. induction p as [|c p IH]; intros s Hp.
  - exists s. reflexivity.
  - destruct s as [|d s]; [discriminate|]. simpl in Hp.
    apply andb_prop in Hp as [Hc Hp]. apply Ascii.eqb_eq in Hc as ->.
    destruct (IH s Hp) as (r & ->). exists r. reflexivity.
Qed.

Lemma replace_from_skips (old new s : list ascii) (k : nat) :
  List.length s <= k -> replace_from old new k s = [].
Proof.
  revert k. induction s as [|c s IH]; intros k Hk; simpl.
  - reflexivity.
  - destruct k as [|k]; simpl in Hk; [lia|]. apply IH. lia.
Qed.

(** When [old] occurs in [pre ++ old] at the end only, removing it gives
    back [pre]. *)
Lemma replace_from_suffix_only (old pre : list ascii) :
  old <> [] ->
  (forall a b,
      pre ++ old = a ++ old ++ b -> List.length pre <= List.length a) ->
  replace_from old [] 0 (pre ++ old) = pre.
Proof.
  intros Hold. induction pre as [|c pre IH]; intros Honly.
  - destruct old as [|o old]; [congruence|]. simpl.
    rewrite Ascii.eqb_refl.
    replace (is_prefix old old) with true
      by (symmetry; rewrite <- (app_nil_r old) at 2; apply is_prefix_app).
    simpl. apply replace_from_skips. lia.
  - cbn [app replace_from].
    destruct (is_prefix old (c :: pre ++ old)) eqn:Hp.
    + apply is_prefix_split in Hp as (r & Hr).
      specialize (Honly [] r Hr). simpl in Honly. lia.
    + f_equal. apply IH. intros a b Hab.
      specialize (Honly (c :: a) b). simpl in Honly.
      rewrite Hab in Honly. specialize (Honly eq_refl). lia.
Qed.

Lemma list_ascii_of_string_inj (s1 s2 : string) :
  list_ascii_of_string s1 = list_ascii_of_string s2 -> s1 = s2.
Proof.
  intros Heq. apply (f_equal string_of_list_ascii) in Heq.
  rewrite !string_of_list_ascii_of_string in Heq. exact Heq.
Qed.

(** Stripping the session id from [name + session_id] gives back [name]
    when the session id occurs there as the suffix only. *)
Lemma strip_restores (name sid : string) :
  sid <> ""%string ->
  (forall a b : string,
      (name ++ sid)%string = (a ++ sid ++ b)%string ->
      String.length name <= String.length a) ->
  str_replace (name ++ sid) sid "" = name.
Proof.
  intros Hsid Honly. unfold str_replace.
  assert (Hold : list_ascii_of_string sid <> []).
  { destruct sid; [congruence|discriminate]. }
  destruct (list_ascii_of_string sid) as [|o old] eqn:Hl; [congruence|].
  rewrite list_ascii_of_string_app, Hl. simpl list_ascii_of_string.
  rewrite replace_from_suffix_only.
  - apply string_of_list_ascii_of_string.
  - discriminate.
  - intros a b Hab.
    specialize (Honly (string_of_list_ascii a) (string_of_list_ascii b)).
    rewrite string_length_list, string_length_of_list in Honly.
    apply Honly. apply list_ascii_of_string_inj.
    rewrite !list_ascii_of_string_app, !list_ascii_of_string_of_list_ascii.
    rewrite Hl. exact Hab.
Qed.

End ReplaceFacts.

(** ** Looking entries up *)

Section LookupFacts.
Context {FS : Type} `{FileManager FS} `{CacheTypes} {interp : Interpreter}.

(** What [get] returns is what the key it computes holds. *)
Lemma get_unfold (dm : @DataManager FS) (k : string) (optional : value) :
  let sid := session_id dm in
  let key := if mem (k ++ sid) (do_not_append_session_id (shared dm))
             then str_replace (k ++ sid) sid ""
             else (k ++ sid)%string in
  get k optional dm
  = (Ok match dict_get String.eqb (data dm) key with
        | Some v => v
        | None => optional
        end, dm).
Proof.
  unfold get, bind, gets, ret. simpl.
  destruct (dict_get String.eqb (data dm) _); reflexivity.
Qed.

(** An entry registered without suffix is found by its bare name as long
    as the session id occurs in [name + session_id] as the suffix only. *)
Lemma get_finds_unsuffixed_entry
      (dm : @DataManager FS) (name : string) (v optional : value) :
  session_id dm <> ""%string ->
  mem (name ++ session_id dm) (do_not_append_session_id (shared dm)) = true ->
  (forall a b : string,
      (name ++ session_id dm)%string = (a ++ session_id dm ++ b)%string ->
      String.length name <= String.length a) ->
  dict_get String.eqb (data dm) name = Some v ->
  get name optional dm = (Ok v, dm).
Proof.
  intros Hsid Hmem Honly Hstored.
  assert (Hget := get_unfold dm name optional). simpl in Hget.
  rewrite Hmem in Hget.
  rewrite (@strip_restores name (session_id dm) Hsid Honly), Hstored in Hget.
  exact Hget.
Qed.

(** For a composite key recorded as unsuffixed, [get] removes the session
    id wherever it occurs in [name + session_id]; when the bare name itself
    contains the session id, the key looked up is shorter than the bare name
    by at least the length of the session id, so it is never the key the
    entry is stored under: [get] returns what the stripped key holds, and
    the default value when it holds nothing. *)
Lemma get_strips_every_occurrence
        (dm : @DataManager FS) (name : string) (optional : value) :
  session_id dm <> ""%string ->
  mem (name ++ session_id dm) (do_not_append_session_id (shared dm)) = true ->
  contains (session_id dm) name ->
  let key := str_replace (name ++ session_id dm) (session_id dm) "" in
  get name optional dm
  = (Ok match dict_get String.eqb (data dm) key with
        | Some v => v
        | None => optional
        end, dm) /\
  String.length key + String.length (session_id dm) <= String.length name /\
  key <> name /\
  (dict_get String.eqb (data dm) key = None ->
   get name optional dm = (Ok optional, dm)).
Proof.
  intros Hsid Hmem Hin key.
  assert (Hget := get_unfold dm name optional). simpl in Hget.
  rewrite Hmem in Hget. fold key in Hget.
  assert (Hlen := strip_shortens Hsid Hin). fold key in Hlen.
  repeat split.
  - exact Hget.
  - exact Hlen.
  - intros Heq. rewrite Heq in Hlen.
    destruct (session_id dm); [congruence|]. simpl in Hlen. lia.
  - intros Hnone. rewrite Hget, Hnone. reflexivity.
Qed.

End LookupFacts.

Lemma get_strips_every_occurrence_witness :
  let dm := Example.with_x in
  session_id dm <> ""%string /\
  contains (session_id dm) "x123456y"%string /\
  dict_get String.eqb (data dm) "x123456y"%string = Some (VAtom (SInt 5)) /\
  @get Example.SimpleFS "x123456y"%string (VAtom SNone) dm
  = (Ok (VAtom SNone), dm).
Proof.
  intros dm.
  assert (Hsid : session_id dm <> ""%string) by discriminate.
  assert (Hin : contains (session_id dm) "x123456y"%string)
    by (exists "x"%string, "y"%string; reflexivity).
  split; [exact Hsid|]. split; [exact Hin|]. split; [reflexivity|].
  exact (proj2 (proj2 (proj2
           (@get_strips_every_occurrence Example.SimpleFS dm "x123456y"%string
              (VAtom SNone) Hsid eq_refl Hin))) eq_refl).
Defined.

(** C10. With the session id ["123456"] and the entries ["a"] and
    ["a123456"], both registered without suffix: the bare name ["a123456"]
    contains the session id, and [get("a123456")] strips it wherever it
    occurs in ["a123456123456"], which leaves ["a"].  What it returns is
    the entry ["a"]: neither the entry stored under ["a123456"] nor the
    default value. *)
Theorem get_returns_another_entry :
  let dm := Example.with_a in
  session_id dm = "123456"%string /\
  mem ("a123456"%string ++ session_id dm)
      (do_not_append_session_id (shared dm)) = true /\
  dict_get String.eqb (data dm) "a123456"%string = Some (VAtom (SInt 2)) /\
  dict_get String.eqb (data dm) "a"%string = Some (VAtom (SInt 1)) /\
  str_replace ("a123456"%string ++ session_id dm) (session_id dm) ""%string
  = "a"%string /\
  fst (@get Example.SimpleFS "a123456"%string (VAtom SNone) dm)
  = Ok (VAtom (SInt 1)).
Proof. repeat split. Qed.

(** C5 fails where the bare name contains the session id: with the session
    id ["123456"], the entry registered without suffix under ["x123456y"]
    is stored under that name, yet [get("x123456y")] looks up ["xy"] and
    returns the default value. *)
Theorem get_misses_unsuffixed_entry :
  let dm := Example.with_x in
  session_id dm = "123456"%string /\
  dict_get String.eqb (data dm) "x123456y"%string = Some (VAtom (SInt 5)) /\
  str_replace ("x123456y"%string ++ session_id dm) (session_id dm) ""%string
  = "xy"%string /\
  fst (@get Example.SimpleFS "x123456y"%string (VAtom SNone) dm)
  = Ok (VAtom SNone).
Proof. repeat split. Qed.

(** ** Saving *)

Section SaveFacts.
Context {FS : Type} `{FileManager FS} `{CacheTypes} {interp : Interpreter}.

Lemma save_requests_app (t1 t2 : list event) :
  save_requests (t1 ++ t2) = save_requests t1 ++ save_requests t2.
Proof.
  induction t1 as [|e t1 IH]; simpl; [reflexivity|].
  destruct e; simpl; rewrite ?IH; reflexivity.
Qed.

Lemma failed_writes_app (t1 t2 : list event) :
  failed_writes (t1 ++ t2) = failed_writes t1 ++ failed_writes t2.
Proof.
  induction t1 as [|e t1 IH]; simpl; [reflexivity|].
  destruct e as [| | | |? ? ? [?|]|]; simpl; rewrite ?IH; reflexivity.
Qed.

Lemma logged_exceptions_app (t1 t2 : list event) :
  logged_exceptions (t1 ++ t2)
  = logged_exceptions t1 ++ logged_exceptions t2.
Proof.
  induction t1 as [|e t1 IH]; simpl; [reflexivity|].
  destruct e; simpl; rewrite ?IH; reflexivity.
Qed.

(** One turn of the loop of [save] returns normally; it asks for one write
    exactly when the entry is eligible, and logs the failure of that write
    if it fails. *)
Lemma save_entry_spec (item : string * value) (dm : @DataManager FS) :
  exists dm' new,
    save_entry item dm = (Ok tt, dm') /\
    data dm' = data dm /\
    shared dm' = shared dm /\
    trace dm' = trace dm ++ new /\
    save_requests new
    = (if persist_eligible (shared dm) item
       then [save_request (shared dm) item] else []) /\
    logged_exceptions new = failed_writes new.
Proof.
  destruct item as [name v].
  unfold save_entry, persist_eligible, save_request, bind, gets. simpl.
  destruct (bound (shared dm) name) eqn:Hb; simpl.
  2:{ exists dm, []. rewrite app_nil_r. repeat split. }
  destruct (mem name (do_not_save (shared dm))) eqn:Hm; simpl.
  { exists dm, []. rewrite app_nil_r. repeat split. }
  destruct (truthy v) eqn:Ht; simpl.
  2:{ exists dm, []. rewrite app_nil_r. repeat split. }
  unfold bound, dict_contains in Hb.
  unfold try_except, smart_save, binding, bind, gets, ret, raise. simpl.
  destruct (dict_get String.eqb (filemanager (shared dm)) name)
    as [b|] eqn:Hbind; [|discriminate]. simpl.
  destruct (fm_smart_save (fs dm) (snd b) (fst b) v
                          (save_kwargs_for (shared dm) name))
    as [w' [e|]] eqn:Hsave; simpl.
  - eexists _, [SmartSave name v _ (Some e); LogException e].
    repeat split; simpl; rewrite <- ?app_assoc; reflexivity.
  - eexists _, [SmartSave name v _ None].
    repeat split.
Qed.

Lemma save_loop_spec (items : list (string * value)) (dm : @DataManager FS) :
  exists dm' new,
    for_each items save_entry dm = (Ok tt, dm') /\
    data dm' = data dm /\
    shared dm' = shared dm /\
    trace dm' = trace dm ++ new /\
    save_requests new
    = map (save_request (shared dm))
          (filter (persist_eligible (shared dm)) items) /\
    logged_exceptions new = failed_writes new.
Proof.
  revert dm. induction items as [|item items IH]; intros dm.
  - exists dm, []. rewrite app_nil_r. repeat split.
  - destruct (save_entry_spec item dm)
      as (dm1 & new1 & Hrun1 & Hd1 & Hs1 & Ht1 & Hr1 & Hl1).
    destruct (IH dm1) as (dm2 & new2 & Hrun2 & Hd2 & Hs2 & Ht2 & Hr2 & Hl2).
    exists dm2, (new1 ++ new2).
    cbn [for_each]. unfold bind at 1. rewrite Hrun1, Hrun2.
    rewrite Hs1 in *.
    repeat split; try congruence.
    + rewrite Ht2, Ht1, app_assoc. reflexivity.
    + rewrite save_requests_app, Hr1, Hr2. simpl.
      destruct (persist_eligible (shared dm) item); reflexivity.
    + rewrite logged_exceptions_app, failed_writes_app, Hl1, Hl2.
      reflexivity.
Qed.

(** Run by the daemon, [save] hands no exception back to be printed. *)
Lemma daemon_save_never_raises (dm : @DataManager FS) :
  fst (invoke_method MSave dm) = SaveDaemon.Returns.
Proof.
  unfold invoke_method, save, bind, gets.
  destruct (save_loop_spec (data dm) dm) as (dm' & new & Hrun & _).
  rewrite Hrun. reflexivity.
Qed.

(** One turn of the loop of [save] in terms of the answer of the file
    layer. *)
Lemma save_entry_answer (item : string * value) (dm : @DataManager FS) :
  let req := save_request (shared dm) item in
  let answered := answer (shared dm) (fs dm) req in
  exists dm' new,
    save_entry item dm = (Ok tt, dm') /\
    data dm' = data dm /\ shared dm' = shared dm /\
    caches dm' = caches dm /\
    trace dm' = trace dm ++ new /\
    if persist_eligible (shared dm) item
    then fs dm' = fst answered /\
         save_requests new = [req] /\
         failed_writes new = logged_exceptions new /\
         logged_exceptions new
         = match snd answered with Some e => [e] | None => [] end
    else fs dm' = fs dm /\ new = [].
Proof.
  destruct item as [name v].
  unfold save_entry, persist_eligible, save_request, answer, bind, gets.
  simpl.
  destruct (bound (shared dm) name) eqn:Hb; simpl.
  2:{ exists dm, []. rewrite app_nil_r. repeat split. }
  destruct (mem name (do_not_save (shared dm))) eqn:Hm; simpl.
  { exists dm, []. rewrite app_nil_r. repeat split. }
  destruct (truthy v) eqn:Ht; simpl.
  2:{ exists dm, []. rewrite app_nil_r. repeat split. }
  unfold bound, dict_contains in Hb.
  unfold try_except, smart_save, binding, bind, gets, ret, raise. simpl.
  destruct (dict_get String.eqb (filemanager (shared dm)) name)
    as [b|] eqn:Hbind; [|discriminate]. simpl.
  destruct (fm_smart_save (fs dm) (snd b) (fst b) v
                          (save_kwargs_for (shared dm) name))
    as [w' [e|]] eqn:Hsave; simpl.
  - eexists _, [SmartSave name v _ (Some e); LogException e].
    repeat split; simpl; rewrite <- ?app_assoc; reflexivity.
  - eexists _, [SmartSave name v _ None].
    repeat split.
Qed.

Lemma save_loop_answer (items : list (string * value)) :
  forall dm : @DataManager FS,
    let reqs := map (save_request (shared dm))
                    (filter (persist_eligible (shared dm)) items) in
    let answered := write_all (shared dm) (fs dm) reqs in
    exists dm' new,
      for_each items save_entry dm = (Ok tt, dm') /\
      data dm' = data dm /\ shared dm' = shared dm /\
      caches dm' = caches dm /\
      fs dm' = fst answered /\
      trace dm' = trace dm ++ new /\
      save_requests new = reqs /\
      failed_writes new = logged_exceptions new /\
      logged_exceptions new = snd answered.
Proof.
  induction items as [|item items IH]; intros dm.
  - exists dm, []. simpl. rewrite app_nil_r. repeat split.
  - destruct (save_entry_answer item dm)
      as (dm1 & new1 & Hrun1 & Hd1 & Hs1 & Hc1 & Ht1 & Hcase).
    destruct (IH dm1)
      as (dm2 & new2 & Hrun2 & Hd2 & Hs2 & Hc2 & Hf2 & Ht2 & Hr2 & Hfl2
          & Hl2).
    exists dm2, (new1 ++ new2).
    cbn [for_each]. unfold bind at 1. rewrite Hrun1, Hrun2.
    rewrite Hs1 in *.
    split; [reflexivity|]. split; [congruence|]. split; [congruence|].
    split; [congruence|].
    cbn [filter map write_all].
    destruct (persist_eligible (shared dm) item).
    + destruct Hcase as (Hf1 & Hr1 & Hfl1 & Hl1).
      cbn [map write_all]. rewrite Hf1 in *.
      destruct (answer (shared dm) (fs dm) (save_request (shared dm) item))
        as [w1 failure].
      cbn [fst snd] in *.
      destruct (write_all (shared dm) w1 _) as [w2 failures].
      cbn [fst snd] in *.
      rewrite Ht2, Ht1, app_assoc, save_requests_app, failed_writes_app,
        logged_exceptions_app, Hr1, Hr2, Hfl1, Hfl2, Hl1, Hl2.
      repeat split; auto. destruct failure; reflexivity.
    + destruct Hcase as (Hf1 & ->). rewrite Hf1 in *.
      rewrite Ht2, Ht1, app_nil_r. auto.
Qed.

(** C3. [save] always returns normally.  Every entry that is bound to a
    file, not flagged no-save and not empty is written through the file
    layer, in the order of the registry, with its current value and its
    registered save options, on the files the writes before it have left
    and whether or not they failed; and the exceptions [save] logs are
    the failures the file layer answered, one for one.  Nothing else of
    the registry changes. *)
Theorem save_isolates_failures (dm : @DataManager FS) :
  let reqs := map (save_request (shared dm))
                  (filter (persist_eligible (shared dm)) (data dm)) in
  let answered := write_all (shared dm) (fs dm) reqs in
  exists dm' new,
    save dm = (Ok tt, dm') /\
    data dm' = data dm /\
    shared dm' = shared dm /\
    caches dm' = caches dm /\
    fs dm' = fst answered /\
    trace dm' = trace dm ++ new /\
    save_requests new = reqs /\
    failed_writes new = logged_exceptions new /\
    logged_exceptions new = snd answered.
Proof.
  intros reqs answered.
  destruct (save_loop_answer (data dm) dm) as (dm' & new & Hrun & Hrest).
  exists dm', new. unfold save, bind, gets. rewrite Hrun. auto.
Qed.

End SaveFacts.

(** ** Saving the containers *)

Section SaveCachesFacts.
Context {FS : Type} `{FileManager FS} `{CacheTypes} {interp : Interpreter}.

(** One turn of the loop of [save_caches]: an entry that is not an eligible
    container is passed over; for an eligible one the write is asked as
    [cache_request] says, unless the call cannot be made, and the turn
    raises when the write fails. *)
Lemma save_caches_entry_spec (item : string * value) (dm : @DataManager FS) :
  let r := fst (save_caches_entry item dm) in
  let dm' := snd (save_caches_entry item dm) in
  shared dm' = shared dm /\
  exists new,
    trace dm' = trace dm ++ new /\
    if cache_eligible (shared dm) item
    then save_requests new = [cache_request (shared dm) item] \/
         (save_requests new = [] /\ r <> Ok tt)
    else new = [] /\ r = Ok tt.
Proof.
  destruct item as [name v].
  unfold save_caches_entry, cache_eligible, cache_request, is_cache,
    bind, gets.
  simpl.
  destruct (bound (shared dm) name) eqn:Hb; simpl.
  2:{ split; [reflexivity|]. exists []. rewrite app_nil_r. auto. }
  destruct (mem name (do_not_save (shared dm))) eqn:Hm; simpl.
  { split; [reflexivity|]. exists []. rewrite app_nil_r. auto. }
  unfold bound, dict_contains in Hb.
  destruct (dict_get String.eqb (filemanager (shared dm)) name)
    as [b|] eqn:Hbind; [|discriminate].
  destruct (is_set_or_deque v) eqn:Hsd; simpl.
  - unfold call_kwargs.
    destruct (existsb _ (save_kwargs_for (shared dm) name)); simpl.
    + split; [reflexivity|]. exists []. rewrite app_nil_r.
      split; [reflexivity|]. right. split; [reflexivity|discriminate].
    + unfold smart_save, binding, bind, gets, ret, raise. simpl.
      rewrite Hbind. simpl.
      destruct (fm_smart_save (fs dm) (snd b) (fst b) (list_snapshot v) _)
        as [w' [e|]]; simpl;
        (split; [reflexivity|]); eexists [_]; split; try reflexivity;
        left; reflexivity.
  - destruct (is_index v) eqn:Hix; simpl.
    + unfold smart_save, binding, bind, gets, ret, raise. simpl.
      rewrite Hbind. simpl.
      destruct (fm_smart_save (fs dm) (snd b) (fst b) (dict_snapshot v) _)
        as [w' [e|]]; simpl;
        (split; [reflexivity|]); eexists [_]; split; try reflexivity;
        left; reflexivity.
    + split; [reflexivity|]. exists []. rewrite app_nil_r. auto.
Qed.

Lemma save_caches_loop_spec
      (items : list (string * value)) (dm : @DataManager FS) :
  let r := fst (for_each items save_caches_entry dm) in
  let dm' := snd (for_each items save_caches_entry dm) in
  exists new done rest,
    trace dm' = trace dm ++ new /\
    filter (cache_eligible (shared dm)) items = done ++ rest /\
    save_requests new = map (cache_request (shared dm)) done /\
    (r = Ok tt -> rest = []).
Proof.
  revert dm. induction items as [|item items IH]; intros dm; simpl.
  - exists [], [], []. rewrite app_nil_r. auto.
  - destruct (save_caches_entry_spec item dm) as (Hs1 & new1 & Ht1 & Hcase).
    unfold bind.
    destruct (save_caches_entry item dm) as [[[]|e] dm1] eqn:Hrun;
      simpl in *.
    + (* the turn returned: the loop goes on *)
      destruct (IH dm1) as (new2 & done2 & rest2 & Ht2 & Hf2 & Hr2 & Hok2).
      rewrite Hs1 in *.
      destruct (cache_eligible (shared dm) item).
      * destruct Hcase as [Hreq|[_ Hbad]]; [|congruence].
        exists (new1 ++ new2), (item :: done2), rest2.
        rewrite Ht2, Ht1, app_assoc, save_requests_app, Hreq, Hr2, Hf2.
        auto.
      * destruct Hcase as [-> _].
        exists new2, done2, rest2. rewrite Ht2, Ht1, app_nil_r. auto.
    + (* the turn raised: the loop is left *)
      destruct (cache_eligible (shared dm) item).
      * destruct Hcase as [Hreq|[Hreq _]].
        -- exists new1, [item],
             (filter (cache_eligible (shared dm)) items).
           rewrite Hreq. repeat split; auto. discriminate.
        -- exists new1, [],
             (item :: filter (cache_eligible (shared dm)) items).
           rewrite Hreq. repeat split; auto. discriminate.
      * destruct Hcase as [_ Hbad]. discriminate.
Qed.








End SaveCachesFacts.

(** ** Python equality, sets and dictionaries *)

Section CollectionFacts.
Context {interp : Interpreter}.

(** Booleans compare as the integers 1 and 0. *)
Lemma py_eqb_true_iff (a b : scalar) :
  py_eqb a b = true <->
  match a, b with
  | SStr x, SStr y => x = y
  | SNone, SNone => True
  | SStr _, _ | _, SStr _ | SNone, _ | _, SNone => False
  | _, _ => py_int a = py_int b
  end.
Proof.
  destruct a as [x|x|x|], b as [y|y|y|]; simpl;
    rewrite ?Z.eqb_eq, ?String.eqb_eq; try tauto;
    try (split; [congruence|intros [=]; assumption]);
    try (split; [discriminate|tauto]).
  destruct x, y; simpl; split; congruence.
Qed.

Lemma set_mem_congr (a b : scalar) (s : list scalar) :
  py_eqb a b = true -> set_mem a s = set_mem b s.
Proof.
  intros Hab. unfold set_mem. induction s as [|c s IH]; simpl.
  - reflexivity.
  - rewrite IH. f_equal.
    rewrite (py_eqb_sym a c), (py_eqb_sym b c). apply py_eqb_congr. exact Hab.
Qed.

Lemma set_mem_add (x y : scalar) (s : list scalar) :
  set_mem x (set_add s y) = set_mem x s || py_eqb x y.
Proof.
  unfold set_add. destruct (set_mem y s) eqn:Hy.
  - destruct (py_eqb x y) eqn:Hxy.
    + rewrite (set_mem_congr x y s Hxy), Hy. reflexivity.
    + rewrite orb_false_r. reflexivity.
  - unfold set_mem. rewrite existsb_app. simpl. rewrite orb_false_r.
    reflexivity.
Qed.

(** [update] is the union. *)
Lemma set_mem_update (l s : list scalar) (x : scalar) :
  set_mem x (set_update s l) = set_mem x s || set_mem x l.
Proof.
  revert s. unfold set_update.
  induction l as [|y l IH]; intros s; simpl.
  - rewrite orb_false_r. reflexivity.
  - rewrite IH, set_mem_add, <- orb_assoc. reflexivity.
Qed.

Lemma set_update_incl (l s : list scalar) (x : scalar) :
  In x (set_update s l) -> In x s \/ In x l.
Proof.
  revert s. unfold set_update.
  induction l as [|y l IH]; intros s Hx; simpl in *.
  - auto.
  - apply IH in Hx as [Hx|Hx]; [|auto].
    unfold set_add in Hx. destruct (set_mem y s); [auto|].
    apply in_app_or in Hx as [Hx|[Hx|[]]]; auto.
Qed.

Lemma py_dict_get_set (d : list (scalar * scalar)) (k v k' : scalar) :
  dict_get py_eqb (dict_set py_eqb d k v) k'
  = if py_eqb k' k then Some v else dict_get py_eqb d k'.
Proof.
  induction d as [|[k0 v0] d IH]; simpl.
  - reflexivity.
  - destruct (py_eqb k k0) eqn:Hk; simpl.
    + rewrite (py_eqb_congr k k0 k' Hk).
      destruct (py_eqb k' k0); reflexivity.
    + rewrite IH.
      destruct (py_eqb k' k0) eqn:Hk0, (py_eqb k' k) eqn:Hk'; try reflexivity.
      rewrite py_eqb_sym in Hk'.
      rewrite (py_eqb_trans _ _ _ Hk' Hk0) in Hk. discriminate.
Qed.

Lemma py_dict_get_app (d1 d2 : list (scalar * scalar)) (k : scalar) :
  dict_get py_eqb (d1 ++ d2) k
  = match dict_get py_eqb d1 k with
    | Some v => Some v
    | None => dict_get py_eqb d2 k
    end.
Proof.
  induction d1 as [|[k0 v0] d1 IH]; simpl; [reflexivity|].
  destruct (py_eqb k k0); auto.
Qed.

(** After [update], a key holds the last value the update gives it, and
    what it held before when the update does not mention it. *)
Lemma py_dict_get_update (d d0 : list (scalar * scalar)) (k : scalar) :
  dict_get py_eqb (dict_update py_eqb d0 d) k
  = match dict_get py_eqb (rev d) k with
    | Some v => Some v
    | None => dict_get py_eqb d0 k
    end.
Proof.
  revert d0. unfold dict_update.
  induction d as [|[k1 v1] d IH]; intros d0; simpl.
  - reflexivity.
  - rewrite IH, py_dict_get_app, py_dict_get_set. simpl.
    destruct (dict_get py_eqb (rev d) k); [reflexivity|].
    destruct (py_eqb k k1); reflexivity.
Qed.

Lemma fold_left_append_map {A B} (f : A -> B) (l : list A) (acc : list B) :
  fold_left (fun acc i => acc ++ [f i]) l acc = acc ++ map f l.
Proof.
  revert acc. induction l as [|x l IH]; intros acc; simpl.
  - rewrite app_nil_r. reflexivity.
  - rewrite IH, <- app_assoc. reflexivity.
Qed.

Lemma numericize_map (l : list scalar) :
  _numericize l = map numericize_one l.
Proof.
  unfold _numericize.
  exact (fold_left_append_map numericize_one l []).
Qed.

Lemma numericize_one_no_int_text (x : scalar) :
  int_text (numericize_one x) = false.
Proof.
  unfold numericize_one.
  destruct x as [n|s|b|]; simpl; try reflexivity.
  destruct (int_of_str s) eqn:E; simpl; [reflexivity|].
  rewrite E. reflexivity.
Qed.

Lemma numericize_no_int_text (l : list scalar) :
  Forall (fun x => int_text x = false) (_numericize l).
Proof.
  rewrite numericize_map. apply Forall_forall. intros x Hx.
  apply in_map_iff in Hx as (y & <- & _). apply numericize_one_no_int_text.
Qed.

Lemma no_int_text_no_coexist (l : list scalar) :
  Forall (fun x => int_text x = false) l -> ~ coexist l.
Proof.
  intros Hall (s & n & Hs & _ & Hparse).
  rewrite Forall_forall in Hall. specialize (Hall _ Hs).
  simpl in Hall. rewrite Hparse in Hall. discriminate.
Qed.

End CollectionFacts.

(** ** Registering a file *)

Section RegisterFileFacts.
Context {FS : Type} `{FileManager FS} `{CacheTypes} {interp : Interpreter}.

Lemma dict_get_set_same {V} (d : list (string * V)) (k : string) (v : V) :
  dict_get String.eqb (dict_set String.eqb d k v) k = Some v.
Proof.
  induction d as [|[k' v'] d IH]; simpl.
  - rewrite String.eqb_refl. reflexivity.
  - destruct (String.eqb k k') eqn:E; simpl; rewrite E; auto.
Qed.

Lemma bind_ok {A B} (m : @M FS A) (k : A -> @M FS B) dm a dm' :
  m dm = (Ok a, dm') -> bind m k dm = k a dm'.
Proof. intros Hm. unfold bind. rewrite Hm. reflexivity. Qed.

(** Recording the flags and options touches the class-level lists and
    option maps only, and neither the file bindings nor the list of
    unsuffixed keys among them. *)
Lemma record_options_run (dm : @DataManager FS) name display save_ skw lkw :
  exists sh,
    record_options name display save_ skw lkw dm
    = (Ok (load_options lkw),
       mkDataManager (data dm) (session_id dm) (save_daemon dm) sh (fs dm)
                     (trace dm) (caches dm)) /\
    filemanager sh = filemanager (shared dm) /\
    do_not_append_session_id sh = do_not_append_session_id (shared dm).
Proof.
  destruct dm as [d sid sd sh w t cs].
  destruct display, save_, skw as [[|? ?]|], lkw as [[|? ?]|];
    cbv [record_options bind when negb nonempty ret modify with_shared
         append_do_not_display append_do_not_save set_save_kwargs
         set_load_kwargs List.length Nat.eqb load_options
         data session_id save_daemon shared fs trace caches];
    eexists; (split; [reflexivity|split; reflexivity]).
Qed.

(** [load] on an entry that holds the initial value stores the
    reconciled value. *)
Lemma load_reconciles (dm : @DataManager FS) name initial loaded merged :
  dict_get String.eqb (data dm) name = Some initial ->
  reconciled initial loaded = Some merged ->
  load initial loaded name dm
  = (Ok tt, with_data (fun d => dict_set String.eqb d name merged) dm).
Proof.
  intros Hget Hrec. unfold load, reconciled in *.
  destruct initial; try discriminate;
    destruct loaded as [[]| | | | | | | |]; simpl in *;
      try discriminate;
      unfold update_in_place, extend_in_place, persist, getitem, setitem,
        bind, gets, lift, ret, modify; simpl;
      rewrite Hget; simpl;
      injection Hrec as <-; reflexivity.
Qed.

(** Unfolds the straight-line part of a registration. *)
Ltac run_registration :=
  cbv beta iota delta
      [bind when emit modify fm_register_file exists_ smart_load
       binding gets ret lift raise register
       append_do_not_append_session_id append_do_not_display setitem
       with_trace with_shared with_data with_fs negb
       data session_id save_daemon shared fs trace caches filemanager
       do_not_display do_not_save do_not_append_session_id save_kwargs
       load_kwargs fst snd].

Lemma register_file_run
      (dm : @DataManager FS) name initial path display save_ skw lkw
      loaded merged :
  fm_exists (fs dm) (snd (file_binding path)) (fst (file_binding path))
  = true ->
  fm_smart_load (fs dm) (snd (file_binding path)) (fst (file_binding path))
                (load_options lkw) = Ok loaded ->
  truthy loaded = true ->
  reconciled initial loaded = Some merged ->
  fst (register_file name initial path display true save_ skw lkw dm)
  = Ok tt /\
  dict_get String.eqb
    (data (snd (register_file name initial path display true save_ skw lkw
                              dm))) name
  = Some merged.
Proof.
  intros Hex Hload Htruthy Hrec.
  unfold file_binding in *. unfold register_file.
  assert (Hty : is_type initial = false)
    by (destruct initial; try reflexivity; discriminate).
  rewrite Hty.
  destruct (os_path_split path) as [file_path file_name].
  destruct dm as [d sid sd sh0 w t cs]. simpl in Hex, Hload.
  erewrite bind_ok by reflexivity.
  destruct (record_options_run
              (with_trace (fun t => t ++ [LogDebug "registering" name])
                          (mkDataManager d sid sd sh0 w t cs))
              name display save_ skw lkw) as (sh & Hrun & Hfm & _).
  erewrite bind_ok by exact Hrun. clear Hrun.
  destruct sh as [fm dnd dns dna skws lkws].
  destruct display;
    run_registration;
    repeat (first [rewrite dict_get_set_same | rewrite Hex | rewrite Hload
                  | rewrite Htruthy];
            cbv beta iota delta [fst snd]);
    match goal with
    | |- context [load initial loaded name ?dm0] =>
        rewrite (@load_reconciles dm0 name initial loaded merged)
    end; simpl; rewrite ?dict_get_set_same; auto.
Qed.

(** C4, as amended. When [register_file] obtains non-empty loaded data,
    and when [load] is called on an entry holding the initial value, the
    entry becomes the reconciled value: loaded data that is not a mapping
    is numericized (each element [int] accepts becomes that integer, the
    others stay); a set is then merged by union, a sequence has the loaded
    elements appended, a mapping is updated key by key from a loaded
    mapping, the loaded value winning.  Neither the initial value nor a
    loaded mapping is numericized: when the loaded data is not a mapping
    and the initial value holds no text that reads as an integer, a text
    and the integer it reads as do not coexist in the set or sequence
    entry. *)
Theorem reconciliation_numericizes_loaded_data :
  (forall (dm : @DataManager FS) name initial loaded merged,
      dict_get String.eqb (data dm) name = Some initial ->
      reconciled initial loaded = Some merged ->
      load initial loaded name dm
      = (Ok tt, with_data (fun d => dict_set String.eqb d name merged) dm)) /\
  (forall (dm : @DataManager FS) name initial path display save_ skw lkw
          loaded merged,
      fm_exists (fs dm) (snd (file_binding path)) (fst (file_binding path))
      = true ->
      fm_smart_load (fs dm) (snd (file_binding path))
                    (fst (file_binding path)) (load_options lkw)
      = Ok loaded ->
      truthy loaded = true ->
      reconciled initial loaded = Some merged ->
      fst (register_file name initial path display true save_ skw lkw dm)
      = Ok tt /\
      dict_get String.eqb
        (data (snd (register_file name initial path display true save_ skw
                                  lkw dm))) name
      = Some merged) /\
  (forall l,
      _numericize l = map numericize_one l /\
      Forall (fun x => int_text x = false) (_numericize l)) /\
  (forall s l x, set_mem x (set_update s l) = set_mem x s || set_mem x l) /\
  (forall (d0 d : list (scalar * scalar)) (k : scalar),
      dict_get py_eqb (dict_update py_eqb d0 d) k
      = match dict_get py_eqb (rev d) k with
        | Some v => Some v
        | None => dict_get py_eqb d0 k
        end) /\
  (forall initial loaded merged,
      reconciled initial loaded = Some merged ->
      is_dict loaded = false ->
      Forall (fun x => int_text x = false) (members_of initial) ->
      ~ coexist (members_of merged)).
Proof.
  split; [exact load_reconciles|].
  split; [exact register_file_run|].
  split; [intros l; split;
          [apply numericize_map|apply numericize_no_int_text]|].
  split; [intros s l x; apply set_mem_update|].
  split; [intros d0 d k; apply py_dict_get_update|].
  intros initial loaded merged Hrec Hnd Hinit.
  apply no_int_text_no_coexist.
  unfold reconciled in Hrec.
  destruct initial as [| |s|l0| | | | |]; try discriminate.
  - destruct loaded as [[]| | | | | | | |]; simpl in *; try discriminate;
      injection Hrec as <-; simpl;
      apply Forall_forall; intros x Hx;
      apply set_update_incl in Hx as [Hx|Hx];
      try (rewrite Forall_forall in Hinit; apply Hinit; exact Hx);
      exact (proj1 (Forall_forall _ _) (numericize_no_int_text _) x Hx).
  - destruct loaded as [[]| | | | | | | |]; simpl in *; try discriminate;
      injection Hrec as <-; simpl;
      apply Forall_app; (split; [exact Hinit|]);
      apply numericize_no_int_text.
  - destruct loaded; simpl in *; try discriminate.
Qed.

End RegisterFileFacts.

Lemma reconciliation_numericizes_loaded_data_witness :
  let dm := Example.fresh Example.numbers_on_disk in
  let run := @register_file Example.SimpleFS Example.simple_files
               Example.cpython
               "s"%string (VSet [SInt 1]) "s.txt"%string true true true
               None None dm in
  fst run = Ok tt /\
  dict_get String.eqb (data (snd run)) "s"%string
  = Some (VSet [SInt 1; SInt 2; SInt 3]).
Proof.
  exact (proj1 (proj2 (@reconciliation_numericizes_loaded_data
                         Example.SimpleFS Example.simple_files
                         Example.cpython))
               (Example.fresh Example.numbers_on_disk) "s"%string
               (VSet [SInt 1]) "s.txt"%string true true None None
               (VList [SStr "1"; SInt 2; SStr "3"])
               (VSet [SInt 1; SInt 2; SInt 3])
               eq_refl eq_refl eq_refl eq_refl).
Defined.

(** C4 as the specification words it fails in three places, each the
    work of a branch of [load].  The initial value is not numericized: a
    set registered with ["1"] and reconciled with a file holding ["1"], 2,
    ["3"] ends up with both ["1"] and [1].  A loaded mapping is not
    numericized either: the set [{7}] reconciled with a file holding the
    mapping [{"7": 1}] takes its key as it is and ends up with both [7] and
    ["7"].  And a mapping entry is updated key by key from a mapping only:
    reconciled with a file holding the sequence ["ab"], ["cde"], it takes
    the pair of ["ab"] and the registration raises at ["cde"]. *)
Lemma register_file_keeps_initial_text :
  (let dm := Example.fresh Example.numbers_on_disk in
   let run := @register_file Example.SimpleFS Example.simple_files
                Example.cpython
                "s"%string (VSet [SStr "1"]) "s.txt"%string true true true
                None None dm in
   dict_get String.eqb (data (snd run)) "s"%string
   = Some (VSet [SStr "1"; SInt 1; SInt 2; SInt 3]) /\
   coexist [SStr "1"; SInt 1; SInt 2; SInt 3]) /\
  (let dm := Example.fresh
               [("./s.txt"%string, VDict [(SStr "7", SInt 1)])] in
   let run := @register_file Example.SimpleFS Example.simple_files
                Example.cpython
                "s"%string (VSet [SInt 7]) "s.txt"%string true true true
                None None dm in
   fst run = Ok tt /\
   dict_get String.eqb (data (snd run)) "s"%string
   = Some (VSet [SInt 7; SStr "7"]) /\
   coexist [SInt 7; SStr "7"]) /\
  (let dm := Example.fresh
               [("./m.txt"%string, VList [SStr "ab"; SStr "cde"])] in
   let run := @register_file Example.SimpleFS Example.simple_files
                Example.cpython
                "m"%string (VDict [(SStr "k", SInt 0)]) "m.txt"%string
                true true true None None dm in
   fst run
   = Raise (ValueError "dictionary update sequence element has wrong length")
   /\
   dict_get String.eqb (data (snd run)) "m"%string
   = Some (VDict [(SStr "k", SInt 0); (SStr "a", SStr "b")])).
Proof.
  split; [|split].
  - split; [reflexivity|].
    exists "1"%string, 1%Z. simpl. auto 6.
  - split; [reflexivity|]. split; [reflexivity|].
    exists "7"%string, 7%Z. simpl. auto 6.
  - split; reflexivity.
Qed.

(** ** Registering a container *)

Section RegisterCacheFacts.
Context {FS : Type} `{FileManager FS} `{CacheTypes} {interp : Interpreter}.

(** [_create_cache] opens the container of the shape of the initial value
    on its directory and adds the loaded data it is handed, or nothing
    when that is empty or [None]; the directory then holds what the
    container holds. *)
Lemma create_cache_seeds
      (dm : @DataManager FS) initial loaded key directory c :
  seeded_container initial
    (if truthy loaded then loaded else empty_like initial)
    (cache_path key directory)
    (dict_get String.eqb (caches dm) (cache_path key directory)) = Some c ->
  fst (_create_cache initial loaded key directory dm) = Ok tt /\
  dict_get String.eqb
    (data (snd (_create_cache initial loaded key directory dm))) key
  = Some c /\
  dict_get String.eqb
    (caches (snd (_create_cache initial loaded key directory dm)))
    (cache_path key directory)
  = Some c.
Proof.
  intros Hseed. unfold _create_cache, seeded_container, cache_path in *.
  set (path := os_path_join _ _ _) in *.
  destruct initial; try discriminate.
  - (* a set *)
    destruct (truthy loaded) eqn:Ht.
    + destruct (iterate loaded) as [l|] eqn:Hit; [|discriminate].
      simpl in Hseed. injection Hseed as <-.
      unfold bind, ret, setitem, emit, modify, held, write_directory, gets.
      simpl.
      destruct (_numericize l) eqn:Hn; simpl;
        rewrite !dict_get_set_same; auto.
    + simpl in Hseed. injection Hseed as <-.
      unfold bind, ret, setitem, emit, modify, held, write_directory, gets.
      simpl. rewrite Ht. simpl. rewrite !dict_get_set_same; auto.
  - (* a sequence *)
    destruct (truthy loaded) eqn:Ht;
      destruct (iterate _) as [l|] eqn:Hit; try discriminate;
      simpl in Hseed; injection Hseed as <-;
      unfold bind, ret, setitem, emit, modify, held, write_directory, gets;
      simpl; rewrite !dict_get_set_same; auto.
  - (* a mapping *)
    destruct (truthy loaded) eqn:Ht;
      destruct (unpack_kwargs _) as [kw|] eqn:Hkw; try discriminate;
      injection Hseed as <-;
      unfold bind, ret, lift, setitem, emit, modify, held, write_directory,
        gets;
      simpl; rewrite !dict_get_set_same; auto.
Qed.


Ltac run_registration :=
  cbv beta iota delta
      [bind when emit modify fm_register_file exists_ smart_load
       binding gets ret lift raise
       append_do_not_append_session_id append_do_not_display setitem
       with_trace with_shared with_data with_fs negb
       data session_id save_daemon shared fs trace caches filemanager
       do_not_display do_not_save do_not_append_session_id save_kwargs
       load_kwargs fst snd].

(** Runs [register_cache] up to the point where the path is looked at. *)
Ltac cache_prefix :=
  unfold register_cache;
  match goal with
  | Hty : is_type ?i = false |- _ => rewrite Hty
  end;
  erewrite bind_ok by reflexivity;
  erewrite bind_ok by reflexivity;
  erewrite bind_ok by reflexivity;
  match goal with
  | |- context [bind (record_options ?n ?d ?s ?sk ?lk) _ ?dm0] =>
      let sh := fresh "sh" in
      let Hrun := fresh "Hrun" in
      destruct (record_options_run dm0 n d s sk lk) as (sh & Hrun & _ & _);
      erewrite bind_ok by exact Hrun; clear Hrun;
      destruct sh
  end.





End RegisterCacheFacts.



(** ** Saving on the example file layer *)

(** C2 fails on a failed write: with two sequence containers bound to
    files, the first to a file that cannot be written, [save_caches] asks
    for the first write only and raises its failure; the second container
    is not saved.  [save], on the same registry, logs the failure and goes
    on to the second entry. *)
Theorem save_caches_stops_at_failed_write :
  let dm := Example.two_caches in
  let stopped := @save_caches Example.SimpleFS Example.simple_files dm in
  let sibling := @save Example.SimpleFS Example.simple_files dm in
  map fst (filter (cache_eligible (shared dm)) (data dm))
  = ["a"%string; "b"%string] /\
  fst stopped = Raise (ExternalError "locked") /\
  map (fun q => fst (fst q)) (save_requests (trace (snd stopped)))
  = ["a"%string] /\
  fs (snd stopped) = [] /\
  fst sibling = Ok tt /\
  map (fun q => fst (fst q)) (save_requests (trace (snd sibling)))
  = ["a"%string; "b"%string] /\
  logged_exceptions (trace (snd sibling)) = [ExternalError "locked"] /\
  map fst (fs (snd sibling)) = ["./b.txt"%string].
Proof. repeat split. Qed.



(** ** Further properties of [_numericize] *)

Section NumericizeFacts.
Context {interp : Interpreter}.

Lemma numericize_one_idempotent (x : scalar) :
  numericize_one (numericize_one x) = numericize_one x.
Proof.
  unfold numericize_one.
  destruct (py_int x) as [n|] eqn:E; simpl; [reflexivity|].
  rewrite E. reflexivity.
Qed.

(** X1. [_numericize] returns as many elements as it is given, position by
    position (it distributes over concatenation); numericizing twice is
    numericizing once; and a list of integers comes back as it is. *)
Theorem numericize_keeps_positions (l l' : list scalar) :
  List.length (_numericize l) = List.length l /\
  _numericize (l ++ l') = _numericize l ++ _numericize l' /\
  _numericize (_numericize l) = _numericize l /\
  (Forall (fun x => exists n, x = SInt n) l -> _numericize l = l).
Proof.
  rewrite !numericize_map. repeat split.
  - apply length_map.
  - apply map_app.
  - rewrite map_map. apply map_ext. apply numericize_one_idempotent.
  - intros Hints. induction Hints as [|x r (n & ->) _ IH]; simpl.
    + reflexivity.
    + rewrite IH. reflexivity.
Qed.

End NumericizeFacts.

Lemma numericize_keeps_positions_witness :
  @_numericize Example.cpython [SInt 4; SInt 5] = [SInt 4; SInt 5].
Proof.
  apply (proj2 (proj2 (proj2
           (@numericize_keeps_positions Example.cpython
              [SInt 4; SInt 5] [])))).
  repeat constructor; eexists; reflexivity.
Defined.

(** ** Registering and looking up *)

Section RoundTripFacts.
Context {FS : Type} `{FileManager FS} `{CacheTypes} {interp : Interpreter}.

Lemma append_length (a b : string) :
  String.length (a ++ b) = String.length a + String.length b.
Proof. induction a as [|c a IH]; simpl; [reflexivity|]. now rewrite IH. Qed.

Lemma suffixed_differs (name sid : string) :
  sid <> ""%string -> (name ++ sid)%string <> name.
Proof.
  intros Hsid Heq. apply (f_equal String.length) in Heq.
  rewrite append_length in Heq. destruct sid; [congruence|].
  simpl in Heq. lia.
Qed.

Lemma dict_get_set_other {V} (d : list (string * V)) (k k' : string) (v : V) :
  k' <> k ->
  dict_get String.eqb (dict_set String.eqb d k v) k'
  = dict_get String.eqb d k'.
Proof.
  intros Hne. induction d as [|[k0 v0] d IH]; simpl.
  - apply String.eqb_neq in Hne. rewrite Hne. reflexivity.
  - destruct (String.eqb k k0) eqn:E; simpl.
    + apply String.eqb_eq in E as <-.
      apply String.eqb_neq in Hne. rewrite Hne. reflexivity.
    + rewrite IH. reflexivity.
Qed.

Lemma mem_app_r (x : string) (l : list string) :
  mem x (l ++ [x]) = true.
Proof.
  unfold mem. rewrite existsb_app. simpl. rewrite String.eqb_refl.
  rewrite orb_true_r. reflexivity.
Qed.

(** What [register] leaves behind. *)
Lemma register_run (dm : @DataManager FS) name v display app :
  let key := cache_key name (session_id dm) app in
  let dm' := snd (register name v display app dm) in
  fst (register name v display app dm) = Ok tt /\
  data dm' = dict_set String.eqb (data dm) key v /\
  session_id dm' = session_id dm /\
  do_not_append_session_id (shared dm')
  = (if app then do_not_append_session_id (shared dm)
     else do_not_append_session_id (shared dm)
          ++ [(name ++ session_id dm)%string]) /\
  do_not_display (shared dm')
  = (if display then do_not_display (shared dm)
     else do_not_display (shared dm) ++ [key]).
Proof.
  destruct dm as [d sid sd sh w t cs]. destruct app, display; repeat split.
Qed.

(** X2. An entry registered with the session suffix is returned by [get]
    under its bare name, provided the composite key was not recorded as
    unsuffixed by an earlier registration. *)
Theorem register_then_get_suffixed
        (dm : @DataManager FS) (name : string) (v optional : value)
        (display : bool) :
  mem (name ++ session_id dm) (do_not_append_session_id (shared dm))
  = false ->
  fst (get name optional (snd (register name v display true dm))) = Ok v.
Proof.
  intros Hfree.
  destruct (register_run dm name v display true)
    as (_ & Hdata & Hsid & Hdna & _).
  rewrite get_unfold. simpl. rewrite Hsid, Hdna, Hfree, Hdata. simpl.
  rewrite dict_get_set_same. reflexivity.
Qed.


(** X3. Once a name has been registered without suffix, a later
    registration of the same name with the suffix is out of reach of
    [get], which keeps answering with what the bare name holds (as long as
    the session id occurs in [name + session_id] as the suffix only). *)
Theorem unsuffixed_registration_shadows
        (dm : @DataManager FS) (name : string) (v optional : value)
        (display : bool) :
  session_id dm <> ""%string ->
  mem (name ++ session_id dm) (do_not_append_session_id (shared dm))
  = true ->
  (forall a b : string,
      (name ++ session_id dm)%string = (a ++ session_id dm ++ b)%string ->
      String.length name <= String.length a) ->
  let dm' := snd (register name v display true dm) in
  dict_get String.eqb (data dm') (name ++ session_id dm)%string = Some v /\
  fst (get name optional dm')
  = Ok match dict_get String.eqb (data dm) name with
       | Some old => old
       | None => optional
       end.
Proof.
  intros Hsid Hrec Honly dm'. subst dm'.
  destruct (register_run dm name v display true)
    as (_ & Hdata & Hsame & Hdna & _).
  simpl in Hdata. split.
  - rewrite Hdata. apply dict_get_set_same.
  - rewrite get_unfold. simpl. rewrite Hsame, Hdna, Hrec.
    rewrite (@strip_restores name (session_id dm) Hsid Honly), Hdata.
    rewrite dict_get_set_other by (apply not_eq_sym, suffixed_differs, Hsid).
    reflexivity.
Qed.


Lemma register_unsuffixed_found
      (dm : @DataManager FS) (name : string) (v optional : value)
      (display : bool) :
  session_id dm <> ""%string ->
  (forall a b : string,
      (name ++ session_id dm)%string = (a ++ session_id dm ++ b)%string ->
      String.length name <= String.length a) ->
  fst (get name optional (snd (register name v display false dm))) = Ok v.
Proof.
  intros Hsid Honly.
  destruct (register_run dm name v display false)
    as (_ & Hdata & Hsame & Hdna & _).
  simpl in Hdata.
  rewrite (@get_finds_unsuffixed_entry FS
             (snd (register name v display false dm)) name v optional).
  - reflexivity.
  - rewrite Hsame. exact Hsid.
  - rewrite Hsame, Hdna. apply mem_app_r.
  - rewrite Hsame. exact Honly.
  - rewrite Hdata. apply dict_get_set_same.
Qed.

(** X4. An entry registered without suffix is returned by [get] under its
    name when the session id occurs in [name + session_id] as the suffix
    only. *)
Theorem register_then_get_unsuffixed
        (dm : @DataManager FS) (name : string) (v optional : value)
        (display : bool) :
  session_id dm <> ""%string ->
  (forall a b : string,
      (name ++ session_id dm)%string = (a ++ session_id dm ++ b)%string ->
      String.length name <= String.length a) ->
  fst (get name optional (snd (register name v display false dm))) = Ok v.
Proof. apply register_unsuffixed_found. Qed.

Lemma digit_of_digit_char (d : Z) :
  (0 <= d < 10)%Z -> digit_of (digit_char d) = Some d.
Proof.
  intros Hd.
  assert (Hcases : d = 0%Z \/ d = 1%Z \/ d = 2%Z \/ d = 3%Z \/ d = 4%Z \/
                   d = 5%Z \/ d = 6%Z \/ d = 7%Z \/ d = 8%Z \/ d = 9%Z)
    by lia.
  repeat (destruct Hcases as [->|Hcases]; [reflexivity|]).
  subst d. reflexivity.
Qed.

(** A session id drawn by the constructor starts with a digit. *)
Lemma session_id_starts_with_digit (r : Z) :
  (100000 <= r <= 999999)%Z ->
  exists c rest d,
    list_ascii_of_string (str_of_int r) = c :: rest /\
    digit_of c = Some d.
Proof.
  intros Hr. rewrite (str_of_int_six_digits Hr).
  rewrite list_ascii_of_string_of_list_ascii. unfold six_digits.
  cbn [map]. eexists _, _, _. split; [reflexivity|].
  apply digit_of_digit_char. Z.div_mod_to_equations. lia.
Qed.

(** Text that starts with a digit occurs in [pre ++ sid], for a digit-free
    [pre], no earlier than at the end of [pre]. *)
Lemma digit_free_suffix_only (pre sid a b : list ascii) (c : ascii) rest d :
  forallb (fun x => match digit_of x with Some _ => false | None => true end)
          pre = true ->
  sid = c :: rest -> digit_of c = Some d ->
  pre ++ sid = a ++ sid ++ b ->
  List.length pre <= List.length a.
Proof.
  intros Hfree -> Hc. revert a.
  induction pre as [|p pre IH]; intros a Hab; simpl; [lia|].
  simpl in Hfree. apply andb_prop in Hfree as [Hp Hfree].
  destruct a as [|x a]; simpl in Hab.
  - injection Hab as -> _. rewrite Hc in Hp. discriminate.
  - injection Hab as _ Hab. specialize (IH Hfree a Hab). simpl. lia.
Qed.

(** X5. In a registry whose session id was drawn by the constructor, an
    entry registered without suffix under a name that holds no decimal
    digit is always returned by [get] under that name. *)
Theorem digit_free_name_is_found
        (dm : @DataManager FS) (r : Z) (name : string) (v optional : value)
        (display : bool) :
  randint 100000 999999 r ->
  session_id dm = str_of_int r ->
  digit_free name = true ->
  fst (get name optional (snd (register name v display false dm))) = Ok v.
Proof.
  intros Hr Hsid Hfree.
  destruct (session_id_starts_with_digit Hr) as (c & rest & d & Hl & Hc).
  apply register_unsuffixed_found.
  - rewrite Hsid. intros Hempty. rewrite Hempty in Hl. discriminate.
  - intros a b Hab. rewrite Hsid in Hab.
    apply (f_equal list_ascii_of_string) in Hab.
    rewrite !list_ascii_of_string_app in Hab.
    rewrite !string_length_list.
    exact (digit_free_suffix_only _ _ _ Hfree Hl Hc Hab).
Qed.

(** X6. [get] never raises and never changes the registry; what it returns
    is the default or a value the registry holds. *)
Theorem get_reads_only
        (dm : @DataManager FS) (k : string) (optional : value) :
  exists v,
    get k optional dm = (Ok v, dm) /\
    (v = optional \/ In v (map snd (data dm))).
Proof.
  rewrite get_unfold. simpl.
  match goal with
  | |- context [dict_get String.eqb (data dm) ?key] =>
      destruct (dict_get String.eqb (data dm) key) as [v|] eqn:Hget
  end.
  - exists v. split; [reflexivity|]. right.
    clear - Hget. induction (data dm) as [|[k0 v0] d IH]; simpl in *.
    + discriminate.
    + destruct (String.eqb _ k0); [injection Hget as ->; auto|auto].
  - exists optional. auto.
Qed.

End RoundTripFacts.

Lemma register_then_get_suffixed_witness :
  fst (@get Example.SimpleFS "foo"%string (VAtom SNone)
         (snd (@register Example.SimpleFS "foo"%string (VAtom (SInt 1))
                 true true (Example.fresh []))))
  = Ok (VAtom (SInt 1)).
Proof.
  apply (register_then_get_suffixed (FS := Example.SimpleFS)). reflexivity.
Defined.

Lemma unsuffixed_registration_shadows_witness :
  let dm := snd (@register Example.SimpleFS "foo"%string (VAtom (SInt 1))
                   true false (Example.fresh [])) in
  fst (@get Example.SimpleFS "foo"%string (VAtom SNone)
         (snd (@register Example.SimpleFS "foo"%string (VAtom (SInt 2))
                 true true dm)))
  = Ok (VAtom (SInt 1)).
Proof.
  intros dm.
  refine (proj2 (unsuffixed_registration_shadows (FS := Example.SimpleFS) dm
                   "foo"%string (VAtom (SInt 2)) (VAtom SNone) true
                   _ eq_refl _)).
  - discriminate.
  - intros a b Hab.
    destruct a as [|c1 [|c2 [|c3 a]]]; simpl; try lia;
      simpl in Hab; discriminate.
Defined.

Lemma register_then_get_unsuffixed_witness :
  fst (@get Example.SimpleFS "foo"%string (VAtom SNone)
         (snd (@register Example.SimpleFS "foo"%string (VAtom (SInt 1))
                 true false (Example.fresh []))))
  = Ok (VAtom (SInt 1)).
Proof.
  refine (register_then_get_unsuffixed (FS := Example.SimpleFS)
            (Example.fresh []) "foo"%string _ _ _ _ _).
  - discriminate.
  - intros a b Hab.
    destruct a as [|c1 [|c2 [|c3 a]]]; simpl; try lia;
      simpl in Hab; discriminate.
Defined.

Lemma digit_free_name_is_found_witness :
  fst (@get Example.SimpleFS "foo"%string (VAtom SNone)
         (snd (@register Example.SimpleFS "foo"%string (VAtom (SInt 1))
                 true false (Example.fresh []))))
  = Ok (VAtom (SInt 1)).
Proof.
  refine (digit_free_name_is_found (FS := Example.SimpleFS)
            (Example.fresh []) (r := 123456%Z) "foo"%string _ _ _ _ _ _).
  - unfold randint. lia.
  - reflexivity.
  - reflexivity.
Defined.

(** ** Registering a file: the other outcomes *)

Section RegisterFileEdgeFacts.
Context {FS : Type} `{FileManager FS} `{CacheTypes} {interp : Interpreter}.

Ltac run_registration :=
  cbv beta iota delta
      [bind when emit modify fm_register_file exists_ smart_load
       binding gets ret lift raise register
       append_do_not_append_session_id append_do_not_display setitem
       with_trace with_shared with_data with_fs negb
       data session_id save_daemon shared fs trace caches filemanager
       do_not_display do_not_save do_not_append_session_id save_kwargs
       load_kwargs fst snd].

(** Runs [register_file] up to the point where the file is looked at. *)
Ltac file_prefix :=
  unfold register_file;
  match goal with
  | Hty : is_type ?i = false |- _ => rewrite Hty
  end;
  erewrite bind_ok by reflexivity;
  match goal with
  | |- context [bind (record_options ?n ?d ?s ?sk ?lk) _ ?dm0] =>
      let sh := fresh "sh" in
      let Hrun := fresh "Hrun" in
      destruct (record_options_run dm0 n d s sk lk) as (sh & Hrun & _ & _);
      erewrite bind_ok by exact Hrun; clear Hrun;
      destruct sh
  end.

Ltac file_done :=
  cbv beta iota delta [bound dict_contains]; simpl;
  rewrite ?dict_get_set_same, ?mem_app_r; auto.

(** X7. When there is nothing to load (loading is not asked, the file is
    absent, or what is loaded is empty), [register_file] returns normally
    and stores the initial value as it is, under the bare name, which it
    binds to the file and records as unsuffixed; the file system is left
    alone. *)
Theorem register_file_without_data
        (dm : @DataManager FS) name initial path display load_ save_ skw
        lkw :
  is_type initial = false ->
  load_ = false \/
  fm_exists (fs dm) (snd (file_binding path)) (fst (file_binding path))
  = false \/
  (exists loaded,
      fm_exists (fs dm) (snd (file_binding path)) (fst (file_binding path))
      = true /\
      fm_smart_load (fs dm) (snd (file_binding path))
                    (fst (file_binding path)) (load_options lkw)
      = Ok loaded /\
      truthy loaded = false) ->
  let run := register_file name initial path display load_ save_ skw lkw
                           dm in
  fst run = Ok tt /\
  dict_get String.eqb (data (snd run)) name = Some initial /\
  bound (shared (snd run)) name = true /\
  mem (name ++ session_id dm)
      (do_not_append_session_id (shared (snd run))) = true /\
  fs (snd run) = fs dm.
Proof.
  intros Hty Hcase run. subst run.
  unfold file_binding in *.
  destruct (os_path_split path) as [file_path file_name] eqn:Hsplit.
  destruct dm as [d sid sd sh0 w t cs]. simpl in Hcase.
  file_prefix. rewrite Hsplit.
  destruct load_.
  - destruct Hcase as [Hno|[Hex|(loaded & Hex & Hload & Hempty)]];
      [discriminate| |];
      destruct display; run_registration;
      repeat (first [rewrite dict_get_set_same | rewrite Hex
                    | rewrite Hload | rewrite Hempty];
              cbv beta iota delta [fst snd]);
      simpl; repeat split; file_done.
  - destruct display; run_registration; simpl; repeat split; file_done.
Qed.

(** X8. When the file exists and loading it raises, [register_file] raises
    the same exception and the entry is not registered, although the name
    is by then bound to the file. *)
Theorem register_file_load_failure
        (dm : @DataManager FS) name initial path display save_ skw lkw e :
  is_type initial = false ->
  fm_exists (fs dm) (snd (file_binding path)) (fst (file_binding path))
  = true ->
  fm_smart_load (fs dm) (snd (file_binding path)) (fst (file_binding path))
                (load_options lkw) = Raise e ->
  let run := register_file name initial path display true save_ skw lkw
                           dm in
  fst run = Raise e /\
  data (snd run) = data dm /\
  bound (shared (snd run)) name = true.
Proof.
  intros Hty Hex Hload run. subst run.
  unfold file_binding in *.
  destruct (os_path_split path) as [file_path file_name] eqn:Hsplit.
  destruct dm as [d sid sd sh0 w t cs]. simpl in Hex, Hload.
  file_prefix. rewrite Hsplit.
  run_registration;
    repeat (first [rewrite dict_get_set_same | rewrite Hex | rewrite Hload];
            cbv beta iota delta [fst snd]);
    repeat split; file_done.
Qed.







End RegisterFileEdgeFacts.

Lemma register_file_without_data_witness :
  let run := @register_file Example.SimpleFS Example.simple_files
               Example.cpython
               "s"%string (VSet [SInt 1]) "absent.txt"%string true true true
               None None (Example.fresh []) in
  fst run = Ok tt /\
  dict_get String.eqb (data (snd run)) "s"%string = Some (VSet [SInt 1]).
Proof.
  destruct (@register_file_without_data Example.SimpleFS
              Example.simple_files Example.cpython (Example.fresh []) "s"%string
              (VSet [SInt 1]) "absent.txt"%string true true true None None
              eq_refl (or_intror (or_introl eq_refl)))
    as (Hok & Hget & _).
  split; [exact Hok | exact Hget].
Defined.

Lemma register_file_load_failure_witness :
  let failing : FileManager Example.SimpleFS :=
    {| fm_exists := fun _ _ _ => true;
       fm_smart_load := fun _ _ _ _ => Raise (ExternalError "corrupt");
       fm_smart_save := fun w _ _ _ _ => (w, None) |} in
  let run := @register_file Example.SimpleFS failing Example.cpython
               "s"%string (VSet [SInt 1]) "s.txt"%string true true true
               None None (Example.fresh []) in
  fst run = Raise (ExternalError "corrupt") /\ data (snd run) = [].
Proof.
  intros failing.
  destruct (@register_file_load_failure Example.SimpleFS failing Example.cpython
              (Example.fresh []) "s"%string (VSet [SInt 1]) "s.txt"%string
              true true None None (ExternalError "corrupt")
              eq_refl eq_refl eq_refl)
    as (Hraise & Hdata & _).
  split; [exact Hraise | exact Hdata].
Defined.


(** ** Registering a container: the other outcomes *)

Section RegisterCacheEdgeFacts.
Context {FS : Type} `{FileManager FS} `{CacheTypes} {interp : Interpreter}.

Ltac run_registration :=
  cbv beta iota delta
      [bind when emit modify fm_register_file exists_ smart_load
       binding gets ret lift raise
       append_do_not_append_session_id append_do_not_display setitem
       with_trace with_shared with_data with_fs negb
       data session_id save_daemon shared fs trace caches filemanager
       do_not_display do_not_save do_not_append_session_id save_kwargs
       load_kwargs fst snd].

Ltac cache_prefix :=
  unfold register_cache;
  match goal with
  | Hty : is_type ?i = false |- _ => rewrite Hty
  end;
  erewrite bind_ok by reflexivity;
  erewrite bind_ok by reflexivity;
  erewrite bind_ok by reflexivity;
  match goal with
  | |- context [bind (record_options ?n ?d ?s ?sk ?lk) _ ?dm0] =>
      let sh := fresh "sh" in
      let Hrun := fresh "Hrun" in
      destruct (record_options_run dm0 n d s sk lk) as (sh & Hrun & _ & _);
      erewrite bind_ok by exact Hrun; clear Hrun;
      destruct sh
  end.

Lemma create_cache_skips (dm : @DataManager FS) initial loaded key dir :
  is_collection initial = false ->
  _create_cache initial loaded key dir dm = (Ok tt, dm).
Proof. intros Hc. destruct initial; try discriminate; reflexivity. Qed.

(** X10. For an initial value that is neither a set, a list nor a dict,
    [register_cache] stores no entry, whatever else happens; and when no
    path is given it returns normally, without a word. *)
Theorem register_cache_ignores_other_values
        (dm : @DataManager FS) name initial path display load_ save_ skw
        lkw directory app :
  is_collection initial = false ->
  data (snd (register_cache name initial path display load_ save_ skw lkw
                            directory app dm)) = data dm /\
  (is_type initial = false ->
   path = None \/ path = Some ""%string ->
   fst (register_cache name initial path display load_ save_ skw lkw
                       directory app dm) = Ok tt).
Proof.
  intros Hcoll. destruct (is_type initial) eqn:Hty.
  { split; [|discriminate]. unfold register_cache. rewrite Hty.
    reflexivity. }
  destruct dm as [d sid sd sh0 w t cs].
  split.
  - destruct path as [[|c0 p]|].
    + destruct app; cache_prefix; run_registration;
        rewrite create_cache_skips by exact Hcoll; reflexivity.
    + destruct (os_path_split (String c0 p)) as [file_path file_name]
        eqn:Hsplit.
      destruct app, load_; cache_prefix; rewrite Hsplit; run_registration;
        rewrite ?dict_get_set_same; cbv beta iota delta [fst snd];
        try match goal with
          | |- context [fm_exists ?a ?b ?c] =>
              destruct (fm_exists a b c);
              cbv beta iota delta [fst snd];
              rewrite ?dict_get_set_same; cbv beta iota delta [fst snd]
          end;
        try match goal with
          | |- context [fm_smart_load ?a ?b ?c ?k] =>
              destruct (fm_smart_load a b c k);
              cbv beta iota delta [fst snd]
          end;
        rewrite ?create_cache_skips by exact Hcoll; reflexivity.
    + destruct app; cache_prefix; run_registration;
        rewrite create_cache_skips by exact Hcoll; reflexivity.
  - intros _ [-> | ->];
      destruct app; cache_prefix; run_registration;
      rewrite create_cache_skips by exact Hcoll; reflexivity.
Qed.

Lemma second_component_step (c : ascii) (r : list ascii) (seen : bool) :
  c <> "/"%char ->
  second_component (c :: r) seen
  = if seen then c :: second_component r true
    else second_component r false.
Proof.
  intros Hc.
  destruct c as [[] [] [] [] [] [] [] []]; try reflexivity; congruence.
Qed.

Lemma second_component_skips_first (a : string) (rest : list ascii) :
  slash_free a = true ->
  second_component (list_ascii_of_string a ++ "/"%char :: rest) false
  = second_component rest true.
Proof.
  unfold slash_free, has_slash. intros Hfree.
  apply negb_true_iff in Hfree.
  induction a as [|c a IH].
  - reflexivity.
  - simpl in Hfree. cbn [list_ascii_of_string app].
    apply orb_false_elim in Hfree as [Hc Hfree].
    rewrite second_component_step.
    + apply IH. exact Hfree.
    + intros ->. discriminate.
Qed.

Lemma has_slash_app (a b : string) :
  has_slash (a ++ "/" ++ b) = true.
Proof.
  unfold has_slash. rewrite list_ascii_of_string_app, existsb_app. simpl.
  rewrite orb_true_r. reflexivity.
Qed.

Lemma cache_path_second_component (a b directory : string) :
  slash_free a = true ->
  cache_path (a ++ "/" ++ b) directory
  = os_path_join "cache" directory
      (string_of_list_ascii
         (second_component (list_ascii_of_string b) true)).
Proof.
  intros Hfree. unfold cache_path. rewrite has_slash_app.
  rewrite list_ascii_of_string_app. simpl list_ascii_of_string.
  rewrite second_component_skips_first by exact Hfree. reflexivity.
Qed.

(** X11. The directory of a container depends on its name only through
    what stands between the first and the second slash: two names that
    differ before their first slash get one and the same directory, so
    that the container created under the second name finds there what the
    first one left, and adds its own seed to it. *)
Theorem names_share_cache_directory
        (dm : @DataManager FS) (a a' b directory : string)
        (initial1 loaded1 initial2 loaded2 c1 c2 : value) :
  slash_free a = true ->
  slash_free a' = true ->
  let p := cache_path (a ++ "/" ++ b) directory in
  let dm1 :=
    snd (_create_cache initial1 loaded1 (a ++ "/" ++ b) directory dm) in
  let dm2 :=
    snd (_create_cache initial2 loaded2 (a' ++ "/" ++ b) directory dm1) in
  seeded_container initial1
    (if truthy loaded1 then loaded1 else empty_like initial1) p
    (dict_get String.eqb (caches dm) p) = Some c1 ->
  seeded_container initial2
    (if truthy loaded2 then loaded2 else empty_like initial2) p
    (Some c1) = Some c2 ->
  cache_path (a' ++ "/" ++ b) directory = p /\
  dict_get String.eqb (data dm1) (a ++ "/" ++ b)%string = Some c1 /\
  dict_get String.eqb (data dm2) (a' ++ "/" ++ b)%string = Some c2 /\
  dict_get String.eqb (caches dm2) p = Some c2.
Proof.
  intros Ha Ha' p dm1 dm2 Hseed1 Hseed2.
  assert (Hpath : cache_path (a' ++ "/" ++ b) directory = p)
    by (subst p; rewrite !cache_path_second_component by assumption;
        reflexivity).
  destruct (create_cache_seeds dm initial1 loaded1 (a ++ "/" ++ b)
                               directory Hseed1) as (_ & Hd1 & Hc1).
  fold dm1 in Hd1, Hc1. fold p in Hc1.
  assert (Hseed2' :
    seeded_container initial2
      (if truthy loaded2 then loaded2 else empty_like initial2)
      (cache_path (a' ++ "/" ++ b) directory)
      (dict_get String.eqb (caches dm1)
                (cache_path (a' ++ "/" ++ b) directory)) = Some c2)
    by (rewrite Hpath, Hc1; exact Hseed2).
  destruct (create_cache_seeds dm1 initial2 loaded2 (a' ++ "/" ++ b)
                               directory Hseed2') as (_ & Hd2 & Hc2).
  fold dm2 in Hd2, Hc2. rewrite Hpath in Hc2.
  auto.
Qed.

End RegisterCacheEdgeFacts.

Lemma register_cache_ignores_other_values_witness :
  let run := @register_cache Example.SimpleFS Example.simple_files
               Example.two_entries Example.cpython
               "t"%string (VAtom (SStr "abc")) None
               true true true None None "."%string false (Example.fresh [])
  in
  fst run = Ok tt /\ data (snd run) = [].
Proof.
  destruct (@register_cache_ignores_other_values Example.SimpleFS
              Example.simple_files Example.two_entries Example.cpython
              (Example.fresh [])
              "t"%string (VAtom (SStr "abc")) None true true true None None
              "."%string false eq_refl)
    as (Hdata & Hok).
  split; [exact (Hok eq_refl (or_introl eq_refl)) | exact Hdata].
Defined.

Lemma names_share_cache_directory_witness :
  let create name :=
    @_create_cache Example.SimpleFS Example.two_entries Example.cpython
                   (VList []) (VList [SInt 1]) name "."%string in
  let dm2 := snd (create "z/y"%string
                         (snd (create "x/y"%string (Example.fresh [])))) in
  dict_get String.eqb (data dm2) "z/y"%string
  = Some (VDeque "cache/./y" [SInt 1; SInt 1]).
Proof.
  exact (proj1 (proj2 (proj2
           (@names_share_cache_directory Example.SimpleFS
              Example.two_entries Example.cpython (Example.fresh [])
              "x"%string "z"%string "y"%string "."%string (VList [])
              (VList [SInt 1]) (VList []) (VList [SInt 1])
              (VDeque "cache/./y" [SInt 1])
              (VDeque "cache/./y" [SInt 1; SInt 1])
              eq_refl eq_refl eq_refl eq_refl)))).
Defined.

(** ** Saving the containers: a save option named [mode] *)

Section ModeOptionFacts.
Context {FS : Type} `{FileManager FS} `{CacheTypes} {interp : Interpreter}.

Lemma mode_given_twice (kw : kwargs) (x : scalar) :
  dict_contains String.eqb kw "mode"%string = true ->
  call_kwargs [("mode"%string, x)] kw
  = Raise (TypeError "got multiple values for keyword argument").
Proof.
  intros Hmode. unfold call_kwargs.
  replace (existsb _ kw) with true; [reflexivity|].
  symmetry. unfold dict_contains in *.
  induction kw as [|[k y] kw IH]; [discriminate|].
  cbn [existsb fst dict_get] in *.
  rewrite (String.eqb_sym k).
  destruct (String.eqb "mode" k).
  - reflexivity.
  - cbn [orb]. apply IH. exact Hmode.
Qed.

(** The turn of [save_caches] for a set or sequence container whose save
    options name a mode. *)
Lemma save_caches_entry_mode_conflict
      (dm : @DataManager FS) (name : string) (v : value) :
  bound (shared dm) name = true ->
  mem name (do_not_save (shared dm)) = false ->
  is_set_or_deque v = true ->
  dict_contains String.eqb (save_kwargs_for (shared dm) name) "mode"%string
  = true ->
  save_caches_entry (name, v) dm
  = (Raise (TypeError "got multiple values for keyword argument"), dm).
Proof.
  intros Hb Hm Hsd Hmode.
  unfold save_caches_entry, bind, gets, lift. simpl.
  rewrite Hb, Hm, Hsd. simpl. rewrite (mode_given_twice _ _ Hmode).
  reflexivity.
Qed.

Lemma save_caches_loop_raises
      (items : list (string * value)) (dm : @DataManager FS)
      (name : string) (v : value) :
  In (name, v) items ->
  bound (shared dm) name = true ->
  mem name (do_not_save (shared dm)) = false ->
  is_set_or_deque v = true ->
  dict_contains String.eqb (save_kwargs_for (shared dm) name) "mode"%string
  = true ->
  exists e, fst (for_each items save_caches_entry dm) = Raise e.
Proof.
  intros Hin Hb Hm Hsd Hmode. revert dm Hb Hm Hmode.
  induction items as [|item items IH]; intros dm Hb Hm Hmode;
    [destruct Hin|].
  cbn [for_each]. unfold bind.
  destruct (save_caches_entry_spec item dm) as (Hshared & _).
  destruct (save_caches_entry item dm) as [[[]|e] dm1] eqn:Hrun;
    simpl in *; [|eauto].
  destruct Hin as [->|Hin].
  - rewrite save_caches_entry_mode_conflict in Hrun by assumption.
    discriminate.
  - apply IH; try assumption; rewrite Hshared; assumption.
Qed.

(** X12. A set or sequence container that is bound to a file, not flagged
    no-save, and registered with a save option named [mode] cannot be
    saved by [save_caches]: its turn raises a [TypeError] before any write
    is asked, and [save_caches] as a whole never returns normally. *)
Theorem save_caches_mode_option_raises
        (dm : @DataManager FS) (name : string) (v : value) :
  In (name, v) (data dm) ->
  bound (shared dm) name = true ->
  mem name (do_not_save (shared dm)) = false ->
  is_set_or_deque v = true ->
  dict_contains String.eqb (save_kwargs_for (shared dm) name) "mode"%string
  = true ->
  save_caches_entry (name, v) dm
  = (Raise (TypeError "got multiple values for keyword argument"), dm) /\
  exists e, fst (save_caches dm) = Raise e.
Proof.
  intros Hin Hb Hm Hsd Hmode.
  split; [apply save_caches_entry_mode_conflict; assumption|].
  unfold save_caches, bind, emit, modify, gets. simpl.
  set (dm0 := with_trace _ dm).
  destruct (@save_caches_loop_raises (data dm) dm0 name v Hin Hb Hm Hsd Hmode)
    as (e & He).
  destruct (for_each (data dm) save_caches_entry dm0) as [r dm1].
  simpl in He. subst r. exists e. reflexivity.
Qed.

End ModeOptionFacts.

Lemma save_caches_mode_option_raises_witness :
  exists e,
    fst (@save_caches Example.SimpleFS Example.simple_files
           Sample.moded_deque) = Raise e.
Proof.
  exact (proj2 (@save_caches_mode_option_raises Example.SimpleFS
                  Example.simple_files Sample.moded_deque "q"%string
                  (VDeque "cache/./q" [SInt 1])
                  (or_introl eq_refl) eq_refl eq_refl eq_refl eq_refl)).
Defined.

(** ** The summary *)

Section SummaryFacts.
Context {FS : Type} `{FileManager FS} `{CacheTypes} {interp : Interpreter}.

Lemma string_app_assoc (a b c : string) :
  ((a ++ b) ++ c)%string = (a ++ b ++ c)%string.
Proof. induction a as [|x a IH]; simpl; [reflexivity|]. now rewrite IH. Qed.

Lemma string_app_nil_r (a : string) : (a ++ "")%string = a.
Proof. induction a as [|x a IH]; simpl; [reflexivity|]. now rewrite IH. Qed.

Lemma lstrip_app (x y : list ascii) :
  lstrip x <> [] -> lstrip (x ++ y) = lstrip x ++ y.
Proof.
  induction x as [|c x IH]; simpl; intros Hne; [congruence|].
  destruct (is_space c); [apply IH; exact Hne|reflexivity].
Qed.

(** Stripping on the right reaches no further than the last character
    that is not white space. *)
Lemma str_rstrip_app (s t : string) :
  str_rstrip t <> ""%string ->
  str_rstrip (s ++ t) = (s ++ str_rstrip t)%string.
Proof.
  unfold str_rstrip. intros Hne.
  rewrite list_ascii_of_string_app, rev_app_distr, lstrip_app.
  - rewrite rev_app_distr, rev_involutive.
    apply list_ascii_of_string_inj.
    rewrite list_ascii_of_string_app, !list_ascii_of_string_of_list_ascii.
    reflexivity.
  - intros Hnil. rewrite Hnil in Hne. apply Hne. reflexivity.
Qed.

Lemma summary_fold (sh : Shared) (items : list (string * value))
      (text : string) :
  fold_left (summary_step sh) items text
  = (text
     ++ summary_lines
          (flat_map (fun item =>
                       if mem (fst item) (do_not_display sh)
                       then []
                       else match sized_len (snd item) with
                            | Some n => [(fst item, n)]
                            | None => []
                            end)
                    items))%string.
Proof.
  revert text. induction items as [|[k v] items IH]; intros text.
  - simpl. rewrite string_app_nil_r. reflexivity.
  - cbn [fold_left flat_map fst snd]. rewrite IH. unfold summary_step.
    destruct (mem k (do_not_display sh)); [reflexivity|].
    destruct (sized_len v); [|reflexivity].
    unfold summary_lines. cbn [app fold_right fst snd].
    rewrite string_app_assoc. reflexivity.
Qed.

(** X13. [get_data_string] never raises and changes nothing.  Its text is
    the header line, one line per entry that is not flagged as hidden and
    has a size (a set, sequence, mapping or container; text, numbers and
    [None] have no line), in the order of the registry and with the size
    in decimal, then the closing line without its newline. *)
Theorem get_data_string_lists_displayed (dm : @DataManager FS) :
  get_data_string dm
  = (Ok (summary_header ++ summary_lines (displayed dm)
         ++ summary_last_line)%string, dm).
Proof.
  unfold get_data_string, bind, gets, ret. simpl.
  rewrite summary_fold. fold (displayed dm).
  rewrite !string_app_assoc, str_rstrip_app.
  - rewrite str_rstrip_app; [reflexivity|discriminate].
  - rewrite str_rstrip_app; [|discriminate].
    destruct (summary_lines (displayed dm)); discriminate.
Qed.

Lemma displayed_keys_not_hidden (dm : @DataManager FS) (k : string) :
  mem k (do_not_display (shared dm)) = true ->
  ~ In k (map fst (displayed dm)).
Proof.
  intros Hhidden Hin. apply in_map_iff in Hin as ([k' n] & <- & Hin).
  unfold displayed in Hin. apply in_flat_map in Hin as ([k0 v] & _ & Hin).
  simpl in Hin.
  destruct (mem k0 (do_not_display (shared dm))) eqn:Hk0; [destruct Hin|].
  destruct (sized_len v); [|destruct Hin].
  destruct Hin as [[= <- <-]|[]]. simpl in Hhidden. congruence.
Qed.

Lemma dict_set_in {V} (d : list (string * V)) (k : string) (v : V) :
  In (k, v) (dict_set String.eqb d k v).
Proof.
  induction d as [|[k0 v0] d IH]; simpl; [auto|].
  destruct (String.eqb k k0) eqn:E; simpl; [|auto].
  apply String.eqb_eq in E as <-. auto.
Qed.

(** X14. An entry registered with [display=False] has no line in the
    summary; one registered with [display=True] has a line with its size
    when it has one and its key was not hidden before. *)
Theorem register_decides_display
        (dm : @DataManager FS) (name : string) (v : value) (app : bool) :
  let key := cache_key name (session_id dm) app in
  ~ In key (map fst (displayed (snd (register name v false app dm)))) /\
  (forall n,
      sized_len v = Some n ->
      mem key (do_not_display (shared dm)) = false ->
      In (key, n) (displayed (snd (register name v true app dm)))).
Proof.
  intros key. split.
  - apply displayed_keys_not_hidden.
    destruct (register_run dm name v false app) as (_ & _ & _ & _ & Hdnd).
    rewrite Hdnd. apply mem_app_r.
  - intros n Hsized Hshown.
    destruct (register_run dm name v true app) as (_ & Hdata & _ & _ & Hdnd).
    unfold displayed. apply in_flat_map. exists (key, v). split.
    + rewrite Hdata. apply dict_set_in.
    + simpl. rewrite Hdnd. fold key. rewrite Hshown, Hsized. simpl. auto.
Qed.

End SummaryFacts.

Lemma register_decides_display_witness :
  In ("xs"%string, 2)
     (displayed (snd (@register Example.SimpleFS "xs"%string
                        (VList [SInt 1; SInt 2]) true false
                        (Example.fresh [])))).
Proof.
  exact (proj2 (@register_decides_display Example.SimpleFS
                  (Example.fresh []) "xs"%string (VList [SInt 1; SInt 2])
                  false)
               2 eq_refl eq_refl).
Defined.

(** ** Flags are never cleared *)

Section FlagFacts.
Context {FS : Type} `{FileManager FS} `{CacheTypes} {interp : Interpreter}.

Lemma mem_app_l (x : string) (l l' : list string) :
  mem x l = true -> mem x (l ++ l') = true.
Proof.
  unfold mem. intros Hx. rewrite existsb_app, Hx. reflexivity.
Qed.

Lemma flags_kept_refl (dm : @DataManager FS) : flags_kept dm dm.
Proof. intros x. auto. Qed.

Lemma flags_kept_trans (dm1 dm2 dm3 : @DataManager FS) :
  flags_kept dm1 dm2 -> flags_kept dm2 dm3 -> flags_kept dm1 dm3.
Proof.
  intros H12 H23 x. destruct (H12 x) as (A1 & B1 & C1).
  destruct (H23 x) as (A2 & B2 & C2). auto.
Qed.

Lemma flags_ret {A} (a : A) : keeps_flags (@ret FS A a).
Proof. intros dm. apply flags_kept_refl. Qed.

Lemma flags_raise {A} (e : exn) : keeps_flags (@raise FS A e).
Proof. intros dm. apply flags_kept_refl. Qed.

Lemma flags_gets {A} (f : @DataManager FS -> A) : keeps_flags (gets f).
Proof. intros dm. apply flags_kept_refl. Qed.

Lemma flags_lift {A} (r : result A) : keeps_flags (@lift FS A r).
Proof. intros dm. destruct r; apply flags_kept_refl. Qed.

Lemma flags_modify (f : @DataManager FS -> @DataManager FS) :
  (forall dm, flags_kept dm (f dm)) -> keeps_flags (modify f).
Proof. intros Hf dm. simpl. apply Hf. Qed.

Lemma flags_bind {A B} (m : @M FS A) (k : A -> @M FS B) :
  keeps_flags m -> (forall a, keeps_flags (k a)) -> keeps_flags (bind m k).
Proof.
  intros Hm Hk dm. unfold bind. specialize (Hm dm).
  destruct (m dm) as [[a|e] dm']; simpl in *.
  - eapply flags_kept_trans; [exact Hm|apply Hk].
  - exact Hm.
Qed.

Lemma flags_try_except (body : @M FS unit) (handler : exn -> @M FS unit) :
  keeps_flags body -> (forall e, keeps_flags (handler e)) ->
  keeps_flags (try_except body handler).
Proof.
  intros Hb Hh dm. unfold try_except. specialize (Hb dm).
  destruct (body dm) as [[[]|e] dm']; simpl in *.
  - exact Hb.
  - eapply flags_kept_trans; [exact Hb|apply Hh].
Qed.

Lemma flags_for_each {A} (l : list A) (body : A -> @M FS unit) :
  (forall x, keeps_flags (body x)) -> keeps_flags (for_each l body).
Proof.
  intros Hbody. induction l as [|x l IH]; simpl.
  - apply flags_ret.
  - apply flags_bind; auto.
Qed.

Lemma flags_when (b : bool) (m : @M FS unit) :
  keeps_flags m -> keeps_flags (when b m).
Proof. intros Hm. destruct b; simpl; [exact Hm | apply flags_ret]. Qed.

Ltac flags_unfold :=
  unfold emit, setitem, getitem, binding, fm_register_file, exists_,
    smart_load, smart_save, append_do_not_display, append_do_not_save,
    append_do_not_append_session_id, set_save_kwargs, set_load_kwargs,
    update_in_place, extend_in_place, persist, held, write_directory,
    remove_directory.

(** A state change that only lengthens the three lists of flags. *)
Ltac flags_change :=
  let dm := fresh "dm" in
  let x := fresh "x" in
  intros dm x; destruct dm as [? ? ? [? ? ? ? ? ?] ? ?]; simpl;
  repeat split; auto using mem_app_l.

Ltac flags :=
  repeat
    (flags_unfold;
     match goal with
     | |- keeps_flags (bind _ _) => apply flags_bind; [|intros]
     | |- keeps_flags (ret _) => apply flags_ret
     | |- keeps_flags (raise _) => apply flags_raise
     | |- keeps_flags (gets _) => apply flags_gets
     | |- keeps_flags (lift _) => apply flags_lift
     | |- keeps_flags (when _ _) => apply flags_when
     | |- keeps_flags (for_each _ _) => apply flags_for_each; intros
     | |- keeps_flags (try_except _ _) => apply flags_try_except; [|intros]
     | |- keeps_flags (modify _) => apply flags_modify; flags_change
     | |- keeps_flags (match ?x with _ => _ end) => destruct x
     end).

Lemma flags_register name v display app :
  keeps_flags (FS := FS) (register name v display app).
Proof. unfold register. flags. Qed.

Lemma flags_load v loaded name :
  keeps_flags (FS := FS) (load v loaded name).
Proof. unfold load. flags. Qed.

Lemma flags_register_file name v path display load_ save_ skw lkw :
  keeps_flags (FS := FS)
    (register_file name v path display load_ save_ skw lkw).
Proof.
  unfold register_file, record_options. flags;
    auto using flags_register, flags_load.
Qed.

Lemma flags_create_cache v loaded name dir :
  keeps_flags (FS := FS) (_create_cache v loaded name dir).
Proof. unfold _create_cache. flags. Qed.

Lemma flags_register_cache name v path display load_ save_ skw lkw dir app :
  keeps_flags (FS := FS)
    (register_cache name v path display load_ save_ skw lkw dir app).
Proof.
  unfold register_cache, record_options. flags;
    auto using flags_create_cache.
Qed.

Lemma flags_perform (dm : @DataManager FS) (op : operation) :
  flags_kept dm (perform dm op).
Proof.
  destruct op; simpl.
  - apply flags_register.
  - apply flags_register_file.
  - apply flags_register_cache.
  - apply flags_load.
  - assert (Hg : keeps_flags (FS := FS) (get k optional))
      by (unfold get; flags).
    apply Hg.
  - assert (Hf : keeps_flags (FS := FS) (file_update name data_))
      by (unfold file_update; flags).
    apply Hf.
  - assert (Hs : keeps_flags (FS := FS) save)
      by (unfold save, save_entry; flags).
    apply Hs.
  - assert (Hs : keeps_flags (FS := FS) save_caches)
      by (unfold save_caches, save_caches_entry; flags).
    apply Hs.
  - assert (Hc : keeps_flags (FS := FS) clean)
      by (unfold clean, clean_entry; flags).
    apply Hc.
  - assert (Hs : keeps_flags (FS := FS) (start_save_daemon sleep_time))
      by (unfold start_save_daemon; flags).
    apply Hs.
  - assert (Hs : keeps_flags (FS := FS) stop_daemon)
      by (unfold stop_daemon; flags).
    apply Hs.
Qed.

Lemma flags_perform_all (ops : list operation) (dm : @DataManager FS) :
  flags_kept dm (perform_all dm ops).
Proof.
  unfold perform_all. revert dm.
  induction ops as [|op ops IH]; intros dm; simpl.
  - apply flags_kept_refl.
  - eapply flags_kept_trans; [apply flags_perform|apply IH].
Qed.

Lemma requested_by_save (dm : @DataManager FS) :
  exists new,
    trace (snd (save dm)) = trace dm ++ new /\
    requested_names new
    = map fst (filter (persist_eligible (shared dm)) (data dm)).
Proof.
  destruct (save_loop_spec (data dm) dm)
    as (dm' & new & Hrun & _ & _ & Ht & Hr & _).
  exists new. unfold save, bind, gets. rewrite Hrun. simpl.
  split; [exact Ht|]. unfold requested_names. rewrite Hr, map_map.
  reflexivity.
Qed.

Lemma requested_by_save_caches (dm : @DataManager FS) :
  exists new done rest,
    trace (snd (save_caches dm)) = trace dm ++ new /\
    filter (cache_eligible (shared dm)) (data dm) = done ++ rest /\
    save_requests new = map (cache_request (shared dm)) done /\
    (fst (save_caches dm) = Ok tt -> rest = []).
Proof.
  unfold save_caches, bind, emit, modify, gets. simpl.
  set (dm0 := with_trace _ dm).
  destruct (save_caches_loop_spec (data dm) dm0)
    as (new & done & rest & Ht & Hf & Hr & Hok).
  destruct (for_each (data dm) save_caches_entry dm0) as [r dm'] eqn:Hrun.
  simpl in *.
  exists (LogDebug "saving cache files" "" :: new), done, rest.
  repeat split.
  - destruct r as [[]|]; simpl; rewrite Ht, <- app_assoc; reflexivity.
  - exact Hf.
  - exact Hr.
  - destruct r as [[]|]; simpl; auto; discriminate.
Qed.

Lemma cache_request_name (sh : Shared) (item : string * value) :
  fst (fst (cache_request sh item)) = fst item.
Proof. unfold cache_request. destruct (is_set_or_deque _); reflexivity. Qed.

(** X15. The no-save flag is permanent: once a name is flagged, no
    sequence of calls (not even registering it again with [save=True])
    clears the flag, and neither [save] nor [save_caches] ever asks to
    write that name again. *)
Theorem no_save_flag_is_permanent
        (dm : @DataManager FS) (ops : list operation) (name : string) :
  mem name (do_not_save (shared dm)) = true ->
  let dm' := perform_all dm ops in
  mem name (do_not_save (shared dm')) = true /\
  (exists new,
      trace (snd (save dm')) = trace dm' ++ new /\
      ~ In name (requested_names new)) /\
  (exists new,
      trace (snd (save_caches dm')) = trace dm' ++ new /\
      ~ In name (requested_names new)).
Proof.
  intros Hflag dm'.
  assert (Hkept : mem name (do_not_save (shared dm')) = true)
    by (apply (flags_perform_all ops dm name); exact Hflag).
  split; [exact Hkept|]. split.
  - destruct (requested_by_save dm') as (new & Ht & Hr).
    exists new. split; [exact Ht|]. rewrite Hr. intros Hin.
    apply in_map_iff in Hin as (item & <- & Hin).
    apply filter_In in Hin as [_ Hel]. unfold persist_eligible in Hel.
    rewrite Hkept in Hel. simpl in Hel. rewrite andb_false_r in Hel.
    discriminate.
  - destruct (requested_by_save_caches dm')
      as (new & done & rest & Ht & Hf & Hr & _).
    exists new. split; [exact Ht|]. unfold requested_names. rewrite Hr.
    rewrite map_map. intros Hin.
    apply in_map_iff in Hin as (item & Hname & Hin).
    rewrite cache_request_name in Hname. subst name.
    assert (Hin' : In item (done ++ rest)) by (apply in_or_app; auto).
    rewrite <- Hf in Hin'. apply filter_In in Hin' as [_ Hel].
    unfold cache_eligible in Hel.
    rewrite Hkept in Hel. simpl in Hel. rewrite andb_false_r in Hel.
    discriminate.
Qed.

(** X16. The hidden flag is permanent as well: once a key is flagged as
    not displayed, no sequence of calls, not even registering it again
    with [display=True], brings its line back into the summary. *)
Theorem hidden_flag_is_permanent
        (dm : @DataManager FS) (ops : list operation) (key : string) :
  mem key (do_not_display (shared dm)) = true ->
  ~ In key (map fst (displayed (perform_all dm ops))).
Proof.
  intros Hflag. apply displayed_keys_not_hidden.
  apply (flags_perform_all ops dm key). exact Hflag.
Qed.

End FlagFacts.

Lemma no_save_flag_is_permanent_witness :
  let dm := snd (@register_file Example.SimpleFS Example.simple_files
                   Example.cpython
                   "s"%string (VList [SInt 1]) "s.json"%string true false
                   false None None (Example.fresh [])) in
  let again := OpRegisterFile "s"%string (VList [SInt 1]) "s.json"%string
                              true false true None None in
  mem "s"%string (do_not_save (shared dm)) = true /\
  mem "s"%string
      (do_not_save
         (shared (@perform_all Example.SimpleFS Example.simple_files
                    Example.two_entries Example.cpython dm [again]))) = true.
Proof.
  intros dm again.
  assert (Hflag : mem "s"%string (do_not_save (shared dm)) = true)
    by reflexivity.
  split; [exact Hflag|].
  exact (proj1 (@no_save_flag_is_permanent Example.SimpleFS
                  Example.simple_files Example.two_entries Example.cpython
                  dm [again]
                  "s"%string Hflag)).
Defined.

Lemma hidden_flag_is_permanent_witness :
  let dm := snd (@register Example.SimpleFS "xs"%string (VList [SInt 1])
                   false false (Example.fresh [])) in
  let again := OpRegister "xs"%string (VList [SInt 1]) true false in
  ~ In "xs"%string
       (map fst (displayed
                   (@perform_all Example.SimpleFS Example.simple_files
                      Example.two_entries Example.cpython dm [again]))).
Proof.
  intros dm again.
  exact (@hidden_flag_is_permanent Example.SimpleFS Example.simple_files
           Example.two_entries Example.cpython dm [again] "xs"%string eq_refl).
Defined.

(** ** [clean] *)

Section CleanFacts.
Context {FS : Type} `{FileManager FS} `{CacheTypes} {interp : Interpreter}.

Lemma dict_set_at (l1 l2 : list (string * value)) (k : string)
      (v v' : value) :
  ~ In k (map fst l1) ->
  dict_set String.eqb (l1 ++ (k, v) :: l2) k v' = l1 ++ (k, v') :: l2.
Proof.
  induction l1 as [|[k1 v1] l1 IH]; intros Hnot; simpl.
  - rewrite String.eqb_refl. reflexivity.
  - destruct (String.eqb k k1) eqn:Hk.
    + apply String.eqb_eq in Hk. subst k1. exfalso. apply Hnot. now left.
    + rewrite IH; [reflexivity|]. intros Hin. apply Hnot. now right.
Qed.

Lemma dict_get_unique (d : list (string * value)) (k : string) (v : value) :
  NoDup (map fst d) -> In (k, v) d -> dict_get String.eqb d k = Some v.
Proof.
  induction d as [|[k1 v1] d IH]; intros Hnd Hin; simpl in *.
  - contradiction.
  - inversion Hnd as [|? ? Hnot Hnd']; subst.
    destruct Hin as [Heq|Hin].
    + inversion Heq; subst. rewrite String.eqb_refl. reflexivity.
    + destruct (String.eqb k k1) eqn:Hk.
      * apply String.eqb_eq in Hk. subst k1. exfalso. apply Hnot.
        apply in_map_iff. exists (k, v). auto.
      * auto.
Qed.

Lemma clean_item_key (sh : Shared) (item : string * value) :
  fst (clean_item sh item) = fst item.
Proof. unfold clean_item. destruct (_ && _); reflexivity. Qed.

Lemma clean_entry_spec (sh : Shared) (pre post : list (string * value))
      (name : string) (v : value) (dm : @DataManager FS) :
  shared dm = sh ->
  data dm = pre ++ (name, v) :: post ->
  ~ In name (map fst pre) ->
  exists dm',
    clean_entry (name, v) dm = (Ok tt, dm') /\
    data dm' = pre ++ clean_item sh (name, v) :: post /\
    shared dm' = sh /\ fs dm' = fs dm /\
    trace dm'
    = trace dm ++ map Rmtree (cleaned_directories sh [(name, v)]).
Proof.
  intros Hsh Hdata Hnot. destruct dm as [d sid sd sh0 w t cs].
  simpl in *. subst sh0 d.
  unfold clean_entry, bind, gets, clean_item, cleaned_directories. simpl.
  destruct (bound sh name); simpl.
  - destruct (is_cache v); simpl.
    + eexists. split; [reflexivity|]. simpl.
      rewrite dict_set_at by exact Hnot. auto.
    + eexists. split; [reflexivity|]. simpl.
      rewrite app_nil_r. auto.
  - eexists. split; [reflexivity|]. simpl. rewrite app_nil_r. auto.
Qed.

Lemma clean_loop_spec (sh : Shared) :
  forall (rest pre : list (string * value)) (dm : @DataManager FS),
    shared dm = sh ->
    data dm = pre ++ rest ->
    NoDup (map fst (pre ++ rest)) ->
    exists dm',
      for_each rest clean_entry dm = (Ok tt, dm') /\
      data dm' = pre ++ map (clean_item sh) rest /\
      shared dm' = sh /\ fs dm' = fs dm /\
      trace dm' = trace dm ++ map Rmtree (cleaned_directories sh rest).
Proof.
  induction rest as [|[name v] rest IH]; intros pre dm Hsh Hdata Hnd.
  - exists dm. simpl. rewrite !app_nil_r in *. auto.
  - assert (Hnot : ~ In name (map fst pre)).
    { rewrite map_app in Hnd. simpl in Hnd.
      apply NoDup_remove_2 in Hnd. intros Hin. apply Hnd.
      apply in_or_app. now left. }
    destruct (clean_entry_spec pre rest name v dm Hsh Hdata Hnot)
      as (dm1 & Hrun1 & Hd1 & Hsh1 & Hfs1 & Ht1).
    destruct (IH (pre ++ [clean_item sh (name, v)]) dm1 Hsh1) as
      (dm2 & Hrun2 & Hd2 & Hsh2 & Hfs2 & Ht2).
    + rewrite Hd1, <- app_assoc. reflexivity.
    + rewrite <- app_assoc. simpl. rewrite map_app in *. simpl in *.
      rewrite clean_item_key. exact Hnd.
    + exists dm2. cbn [for_each]. unfold bind at 1. rewrite Hrun1, Hrun2.
      split; [reflexivity|]. rewrite Hd2, <- app_assoc.
      split; [reflexivity|]. split; [exact Hsh2|].
      split; [congruence|]. rewrite Ht2, Ht1, <- app_assoc, <- map_app.
      f_equal. f_equal. unfold cleaned_directories. simpl.
      destruct (bound sh name && is_cache v); reflexivity.
Qed.

Lemma clean_run (dm : @DataManager FS) :
  unique_keys (data dm) ->
  exists dm',
    clean dm = (Ok tt, dm') /\
    data dm' = map (clean_item (shared dm)) (data dm) /\
    shared dm' = shared dm /\ fs dm' = fs dm /\
    trace dm'
    = trace dm ++ map Rmtree (cleaned_directories (shared dm) (data dm)).
Proof.
  intros Hnd.
  destruct (clean_loop_spec (data dm) [] dm eq_refl eq_refl Hnd)
    as (dm' & Hrun & Hrest).
  exists dm'. unfold clean, bind, gets. rewrite Hrun. auto.
Qed.

(** X17. What [clean] does to a registry (a dictionary, so each key
    once): every container that is bound to a file is emptied in place
    and its directory is removed, in the order of the registry; every
    other entry, the flags, the file bindings and the files are left as
    they are, nothing is written and nothing is logged. *)
Theorem clean_empties_bound_containers (dm : @DataManager FS) :
  unique_keys (data dm) ->
  let dm' := snd (clean dm) in
  data dm' = map (clean_item (shared dm)) (data dm) /\
  trace dm'
  = trace dm ++ map Rmtree (cleaned_directories (shared dm) (data dm)) /\
  shared dm' = shared dm /\
  fs dm' = fs dm.
Proof.
  intros Hnd dm'. subst dm'.
  destruct (clean_run dm Hnd) as (dm' & Hrun & Hd & Hsh & Hfs & Ht).
  rewrite Hrun. simpl. auto.
Qed.

(** X18. [clean] does not look at the no-save flag: a set or sequence
    container that is bound to a file but registered with [save=False],
    which [save_caches] therefore does not write, is emptied all the
    same and its directory removed. *)
Theorem clean_empties_unsaved_container
        (dm : @DataManager FS) (name : string) (v : value) :
  unique_keys (data dm) ->
  In (name, v) (data dm) ->
  bound (shared dm) name = true ->
  is_set_or_deque v = true ->
  mem name (do_not_save (shared dm)) = true ->
  let dm' := snd (clean dm) in
  dict_get String.eqb (data dm') name = Some (cleared v) /\
  iterate (cleared v) = Some [] /\
  In (Rmtree (directory_of v)) (trace dm') /\
  exists new,
    trace (snd (save_caches dm)) = trace dm ++ new /\
    ~ In name (requested_names new).
Proof.
  intros Hnd Hin Hb Hsd Hflag dm'. subst dm'.
  destruct (clean_run dm Hnd) as (dm' & Hrun & Hd & Hsh & Hfs & Ht).
  rewrite Hrun. simpl.
  assert (Hitem : clean_item (shared dm) (name, v) = (name, cleared v)).
  { unfold clean_item, is_cache. simpl. rewrite Hb, Hsd. reflexivity. }
  repeat split.
  - apply dict_get_unique.
    + rewrite Hd, map_map.
      rewrite (map_ext _ fst (clean_item_key (shared dm))). exact Hnd.
    + rewrite Hd, <- Hitem. apply in_map. exact Hin.
  - destruct v; try discriminate; reflexivity.
  - rewrite Ht. apply in_or_app. right. apply in_map.
    unfold cleaned_directories.
    apply (in_map (fun item => directory_of (snd item)) _ (name, v)).
    apply filter_In. split; [exact Hin|]. simpl.
    unfold is_cache. rewrite Hb, Hsd. reflexivity.
  - destruct (requested_by_save_caches dm)
      as (new & done & rest & Htr & Hf & Hr & _).
    exists new. split; [exact Htr|]. unfold requested_names.
    rewrite Hr, map_map. intros Hin'.
    apply in_map_iff in Hin' as (item & Hname & Hin').
    rewrite cache_request_name in Hname. subst name.
    assert (Hin2 : In item (done ++ rest)) by (apply in_or_app; auto).
    rewrite <- Hf in Hin2. apply filter_In in Hin2 as [_ Hel].
    unfold cache_eligible in Hel. rewrite Hflag in Hel. simpl in Hel.
    rewrite andb_false_r in Hel. discriminate.
Qed.

End CleanFacts.

Lemma clean_empties_bound_containers_witness :
  unique_keys (data Sample.one_cache) /\
  data (snd (@clean Example.SimpleFS Sample.one_cache))
  = [("b"%string, VDeque "cache/./b" []);
     ("mem"%string, VList [SInt 3])].
Proof.
  assert (Hnd : unique_keys (data Sample.one_cache)).
  { unfold unique_keys. vm_compute.
    repeat constructor; simpl; intuition discriminate. }
  split; [exact Hnd|].
  exact (proj1 (@clean_empties_bound_containers Example.SimpleFS
                  Sample.one_cache Hnd)).
Defined.

Lemma clean_empties_unsaved_container_witness :
  let v := VDeque "cache/./u" [SInt 1; SInt 2] in
  In ("u"%string, v) (data Sample.unsaved_deque) /\
  dict_get String.eqb
           (data (snd (@clean Example.SimpleFS Sample.unsaved_deque)))
           "u"%string
  = Some (cleared v).
Proof.
  intros v.
  assert (Hnd : unique_keys (data Sample.unsaved_deque)).
  { unfold unique_keys. vm_compute.
    repeat constructor; simpl; intuition discriminate. }
  assert (Hin : In ("u"%string, v) (data Sample.unsaved_deque))
    by (vm_compute; auto).
  split; [exact Hin|].
  exact (proj1 (@clean_empties_unsaved_container Example.SimpleFS
                  Example.simple_files
                  Sample.unsaved_deque "u"%string v Hnd Hin
                  eq_refl eq_refl eq_refl)).
Defined.

(** ** The daemon between two tests of its flag *)

Section RoundFacts.
Import SaveDaemon.
Context {W callback : Type}.
Variable invoke : callback -> W -> outcome * W.

Local Abbreviation system := (@system W callback).
Local Abbreviation exec := (exec invoke).









End RoundFacts.



(** ** The daemon of a registry *)

Section RegistryDaemonFacts.
Import SaveDaemon.
Context {FS : Type} `{FileManager FS} `{CacheTypes} {interp : Interpreter}.





Lemma start_run (sleep_time : option Z) (dm : @DataManager FS) :
  let d := save_daemon dm in
  let d1 := mk (go d) (interval_after sleep_time (sleep d)) (name d)
               (funcs d) (pc d) in
  start_save_daemon sleep_time dm
  = match pc d with
    | NotStarted =>
        (Ok tt, with_save_daemon (fun _ => with_pc d1 LoopTop) dm)
    | _ =>
        (Raise (RuntimeError "threads can only be started once"),
         with_save_daemon (fun _ => d1) dm)
    end.
Proof.
  destruct dm as [dt sid [g sl nm fs p] sh w t].
  unfold start_save_daemon, interval_after.
  destruct sleep_time as [z|]; [destruct (Z.eqb z 0) eqn:Hz|];
    destruct p; unfold bind, when, modify, gets, lift, start, ret, raise;
    simpl; rewrite ?Hz; reflexivity.
Qed.

(** X22. [start_save_daemon] sets the interval first, unless it is
    missing or zero, and then starts the thread: the first call returns
    with the thread about to test its flag, and every later call raises
    the [RuntimeError] of [Thread.start], also after [stop_daemon], but
    not before it has changed the interval. *)
Theorem start_save_daemon_starts_once
        (sleep_time : option Z) (dm : @DataManager FS) :
  let r := start_save_daemon sleep_time dm in
  sleep (save_daemon (snd r))
  = interval_after sleep_time (sleep (save_daemon dm)) /\
  go (save_daemon (snd r)) = go (save_daemon dm) /\
  (pc (save_daemon dm) = NotStarted ->
   fst r = Ok tt /\ pc (save_daemon (snd r)) = LoopTop) /\
  (was_started dm ->
   fst r = Raise (RuntimeError "threads can only be started once") /\
   pc (save_daemon (snd r)) = pc (save_daemon dm) /\
   fst (start_save_daemon sleep_time (snd (stop_daemon dm)))
   = Raise (RuntimeError "threads can only be started once")).
Proof.
  intros r. subst r. unfold was_started.
  rewrite !start_run.
  destruct dm as [dt sid [g sl nm fs p] sh w t]. simpl.
  destruct p; simpl; repeat split; intros; try congruence.
Qed.

Lemma preserves_ret {A} (P : @DataManager FS -> Prop) (a : A) :
  preserves P (@ret FS A a).
Proof. intros dm Hp. exact Hp. Qed.

Lemma preserves_raise {A} (P : @DataManager FS -> Prop) (e : exn) :
  preserves P (@raise FS A e).
Proof. intros dm Hp. exact Hp. Qed.

Lemma preserves_gets {A} (P : @DataManager FS -> Prop)
      (f : @DataManager FS -> A) :
  preserves P (gets f).
Proof. intros dm Hp. exact Hp. Qed.

Lemma preserves_lift {A} (P : @DataManager FS -> Prop) (r : result A) :
  preserves P (@lift FS A r).
Proof. intros dm Hp. destruct r; exact Hp. Qed.

Lemma preserves_modify (P : @DataManager FS -> Prop)
      (f : @DataManager FS -> @DataManager FS) :
  (forall dm, P dm -> P (f dm)) -> preserves P (modify f).
Proof. intros Hf dm Hp. simpl. auto. Qed.

Lemma preserves_bind {A B} (P : @DataManager FS -> Prop)
      (m : @M FS A) (k : A -> @M FS B) :
  preserves P m -> (forall a, preserves P (k a)) -> preserves P (bind m k).
Proof.
  intros Hm Hk dm Hp. unfold bind. specialize (Hm dm Hp).
  destruct (m dm) as [[a|e] dm']; simpl in *.
  - apply Hk. exact Hm.
  - exact Hm.
Qed.

Lemma preserves_try_except (P : @DataManager FS -> Prop)
      (body : @M FS unit) (handler : exn -> @M FS unit) :
  preserves P body -> (forall e, preserves P (handler e)) ->
  preserves P (try_except body handler).
Proof.
  intros Hb Hh dm Hp. unfold try_except. specialize (Hb dm Hp).
  destruct (body dm) as [[[]|e] dm']; simpl in *.
  - exact Hb.
  - apply Hh. exact Hb.
Qed.

Lemma preserves_for_each {A} (P : @DataManager FS -> Prop)
      (l : list A) (body : A -> @M FS unit) :
  (forall x, preserves P (body x)) -> preserves P (for_each l body).
Proof.
  intros Hbody. induction l as [|x l IH]; simpl.
  - apply preserves_ret.
  - apply preserves_bind; auto.
Qed.

Lemma preserves_when (P : @DataManager FS -> Prop) (b : bool)
      (m : @M FS unit) :
  preserves P m -> preserves P (when b m).
Proof. intros Hm. destruct b; simpl; [exact Hm|apply preserves_ret]. Qed.

(** The daemon of the registry is [d]. *)
Local Abbreviation daemon_is d := (fun dm => save_daemon dm = d).

Ltac daemon_unfold :=
  unfold emit, setitem, getitem, binding, fm_register_file, exists_,
    smart_load, smart_save, append_do_not_display, append_do_not_save,
    append_do_not_append_session_id, set_save_kwargs, set_load_kwargs,
    update_in_place, extend_in_place, persist, held, write_directory,
    remove_directory.

Ltac daemon_kept :=
  repeat
    (daemon_unfold;
     match goal with
     | |- preserves _ (bind _ _) => apply preserves_bind; [|intros]
     | |- preserves _ (ret _) => apply preserves_ret
     | |- preserves _ (raise _) => apply preserves_raise
     | |- preserves _ (gets _) => apply preserves_gets
     | |- preserves _ (lift _) => apply preserves_lift
     | |- preserves _ (when _ _) => apply preserves_when
     | |- preserves _ (for_each _ _) => apply preserves_for_each; intros
     | |- preserves _ (try_except _ _) =>
         apply preserves_try_except; [|intros]
     | |- preserves _ (modify _) =>
         apply preserves_modify;
         let dm := fresh "dm" in intros dm; destruct dm; simpl; auto
     | |- preserves _ (match ?x with _ => _ end) => destruct x
     end).

Lemma daemon_register d name v display app :
  preserves (FS := FS) (daemon_is d) (register name v display app).
Proof. unfold register. daemon_kept. Qed.

Lemma daemon_load d v loaded name :
  preserves (FS := FS) (daemon_is d) (load v loaded name).
Proof. unfold load. daemon_kept. Qed.

Lemma daemon_register_file d name v path display load_ save_ skw lkw :
  preserves (FS := FS) (daemon_is d)
    (register_file name v path display load_ save_ skw lkw).
Proof.
  unfold register_file, record_options. daemon_kept;
    auto using daemon_register, daemon_load.
Qed.

Lemma daemon_create_cache d v loaded name dir :
  preserves (FS := FS) (daemon_is d) (_create_cache v loaded name dir).
Proof. unfold _create_cache. daemon_kept. Qed.

Lemma daemon_register_cache
      d name v path display load_ save_ skw lkw dir app :
  preserves (FS := FS) (daemon_is d)
    (register_cache name v path display load_ save_ skw lkw dir app).
Proof.
  unfold register_cache, record_options. daemon_kept;
    auto using daemon_create_cache.
Qed.

(** Only [start_save_daemon] and [stop_daemon] touch the thread. *)
Lemma perform_keeps_daemon (dm : @DataManager FS) (op : operation) :
  match op with
  | OpStartSaveDaemon _ | OpStopDaemon => True
  | _ => save_daemon (perform dm op) = save_daemon dm
  end.
Proof.
  destruct op; simpl; trivial;
    match goal with
    | |- save_daemon (snd (?m dm)) = _ =>
        let Hm := fresh "Hm" in
        assert (Hm : preserves (FS := FS) (daemon_is (save_daemon dm)) m);
        [|apply Hm; reflexivity]
    end.
  - apply daemon_register.
  - apply daemon_register_file.
  - apply daemon_register_cache.
  - apply daemon_load.
  - unfold get. daemon_kept.
  - unfold save, save_entry. daemon_kept.
  - unfold save_caches, save_caches_entry. daemon_kept.
  - unfold clean, clean_entry. daemon_kept.
Qed.

Lemma perform_one_way (dm : @DataManager FS) (op : operation) :
  (told_to_stop dm -> told_to_stop (perform dm op)) /\
  (was_started dm -> was_started (perform dm op)).
Proof.
  unfold told_to_stop, was_started.
  pose proof (perform_keeps_daemon dm op) as Hkeep.
  destruct op; try (rewrite Hkeep; tauto).
  - simpl. rewrite start_run.
    destruct dm as [dt sid [g sl nm fs p] sh w t]. simpl.
    destruct p; simpl; split; intros; congruence.
  - simpl. destruct dm as [dt sid [g sl nm fs p] sh w t]. simpl. tauto.
Qed.

(** X23. The two flags of the daemon only move one way: whatever is
    called afterwards, a thread told to stop is never told to go on
    again, and a thread that was started is never in a state where it
    could be started again. *)
Theorem daemon_flags_move_one_way
        (dm : @DataManager FS) (ops : list operation) :
  (told_to_stop dm -> told_to_stop (perform_all dm ops)) /\
  (was_started dm -> was_started (perform_all dm ops)).
Proof.
  unfold perform_all. revert dm.
  induction ops as [|op ops IH]; intros dm; simpl.
  - tauto.
  - destruct (perform_one_way dm op) as [Hs Hst].
    destruct (IH (perform dm op)) as [IHs IHst]. tauto.
Qed.

End RegistryDaemonFacts.


Lemma start_save_daemon_starts_once_witness :
  let dm := Example.after (@start_save_daemon Example.SimpleFS None)
                          (Example.fresh []) in
  was_started dm /\
  fst (@start_save_daemon Example.SimpleFS (Some 30%Z) dm)
  = Raise (RuntimeError "threads can only be started once").
Proof.
  intros dm.
  assert (Hstarted : was_started dm)
    by (unfold was_started; vm_compute; discriminate).
  split; [exact Hstarted|].
  exact (proj1 (proj2 (proj2 (proj2
           (@start_save_daemon_starts_once Example.SimpleFS (Some 30%Z)
              dm))) Hstarted)).
Defined.

Lemma daemon_flags_move_one_way_witness :
  let dm := Example.after (@stop_daemon Example.SimpleFS)
                          (Example.fresh []) in
  let ops := [OpStartSaveDaemon (Some 5%Z); OpSave] in
  told_to_stop dm /\
  told_to_stop (@perform_all Example.SimpleFS Example.simple_files
                  Example.two_entries Example.cpython dm ops).
Proof.
  intros dm ops.
  assert (Hstop : told_to_stop dm) by reflexivity.
  split; [exact Hstop|].
  exact (proj1 (@daemon_flags_move_one_way Example.SimpleFS
                  Example.simple_files Example.two_entries Example.cpython
                  dm ops) Hstop).
Defined.

(** ** [file_update] *)

Section FileUpdateFacts.
Context {FS : Type} `{FileManager FS} `{CacheTypes} {interp : Interpreter}.

(** X24. [file_update] stores under the name as given, without the
    session id, whereas [get] looks up the name with the session id: for
    a name not recorded as registered without suffix, what [file_update]
    stored is in the registry but [get] does not see it, and answers as
    it did before. *)
Theorem file_update_is_not_seen_by_get
        (dm : @DataManager FS) (name : string) (v optional : value) :
  session_id dm <> ""%string ->
  mem (name ++ session_id dm) (do_not_append_session_id (shared dm))
  = false ->
  let dm' := snd (file_update name v dm) in
  dict_get String.eqb (data dm') name = Some v /\
  fst (get name optional dm') = fst (get name optional dm).
Proof.
  intros Hsid Hfree dm'. subst dm'.
  destruct dm as [d sid sd sh w t cs]. simpl in *.
  split; [apply dict_get_set_same|].
  rewrite !get_unfold. simpl. rewrite Hfree.
  rewrite dict_get_set_other by (apply suffixed_differs; exact Hsid).
  reflexivity.
Qed.

End FileUpdateFacts.

Lemma file_update_is_not_seen_by_get_witness :
  let dm := Example.after
              (@register Example.SimpleFS "xs"%string (VList [SInt 1])
                         true true)
              (Example.fresh []) in
  fst (@get Example.SimpleFS "xs"%string (VAtom SNone)
         (snd (@file_update Example.SimpleFS "xs"%string
                 (VList [SInt 1; SInt 2]) dm)))
  = Ok (VList [SInt 1]).
Proof.
  intros dm.
  assert (Hsid : session_id dm <> ""%string)
    by (vm_compute; discriminate).
  rewrite (proj2 (@file_update_is_not_seen_by_get Example.SimpleFS dm
                    "xs"%string (VList [SInt 1; SInt 2]) (VAtom SNone)
                    Hsid eq_refl)).
  reflexivity.
Defined.
